(** * ivadomed.loader.adaptative: container, index and access layer

    A shallow embedding of [ivadomed/loader/adaptative.py]: the BIDS to HDF5
    converter ([BIDStoHDF5]), the index table ([Dataframe]), the access
    layer ([HDF5Dataset]) and the exporter ([HDF5ToBIDS]), followed by the
    properties of the specification that were checked against them.

    Conventions of the embedding.
    - Python exceptions are values of [exn]; a call that may raise returns a
      [result].  Code that mutates an object before it raises returns the
      mutated object together with the outcome ([stateful]).
    - Dictionaries are [gmap]s, lists are lists, [None] is [option].
    - Thresholds and probabilities are exact rationals ([Q]); the binary
      rounding of Python floats is not modelled.
    - The random generator of numpy is an input: every call of [update]
      receives the outcomes that the generator produced.
    - The collaborators that are imported by the module (SegmentationPair,
      the preprocessing transforms, the BIDS data frame helpers, film and
      object detection utilities) are parameters gathered in [converter_args].
    - What the interpreter decides is a parameter too: the order in which
      a set is enumerated, and the regular expressions beyond the plain
      ones. *)

From Stdlib Require Import Ascii QArith Qround.
From stdpp Require Import gmap strings list fin_maps pretty sorting.

Open Scope string_scope.
Open Scope list_scope.

(** ** Exceptions and results *)

Inductive exn : Type :=
  | KeyError
  | IndexError
  | ValueError
  | UnboundLocalError
  | FileNotFoundError
  | OSError
  | TypeError
  | AssertionError
  | PatternError.

Inductive result (A : Type) : Type :=
  | Ok (a : A)
  | Raise (e : exn).
Arguments Ok {A} a.
Arguments Raise {A} e.

#[export] Instance result_ret : MRet result := fun A a => Ok a.
#[export] Instance result_bind : MBind result := fun A B f r =>
  match r with
  | Ok a => f a
  | Raise e => Raise e
  end.

Definition is_ok {A} (r : result A) : bool :=
  match r with Ok _ => true | Raise _ => false end.

(** A computation on a mutable object of type [S]: the object survives an
    exception, with everything written to it before the raise. *)
Definition stateful (S A : Type) : Type := S -> S * result A.

#[export] Instance stateful_ret {S} : MRet (stateful S) := fun A a s => (s, Ok a).
#[export] Instance stateful_bind {S} : MBind (stateful S) := fun A B f m s =>
  match m s with
  | (s', Ok a) => f a s'
  | (s', Raise e) => (s', Raise e)
  end.

Definition lift {S A} (f : S -> result A) : stateful S A := fun s => (s, f s).
Definition modify {S} (f : S -> S) : stateful S unit := fun s => (f s, Ok tt).
Definition try_modify {S} (f : S -> result S) : stateful S unit := fun s =>
  match f s with
  | Ok s' => (s', Ok tt)
  | Raise e => (s, Raise e)
  end.

(** [for x in l: body(x)] *)
Fixpoint for_each {S A} (body : A -> stateful S unit) (l : list A)
  : stateful S unit :=
  match l with
  | [] => mret tt
  | x :: rest => body x;; for_each body rest
  end.

(** [d[k]] on a dictionary. *)
Definition getitem {V} (d : gmap string V) (k : string) : result V :=
  match d !! k with
  | Some v => Ok v
  | None => Raise KeyError
  end.

(** ** Strings *)

(** [sub in s]. *)
Fixpoint contains (s sub : string) : bool :=
  String.prefix sub s ||
  match s with
  | EmptyString => false
  | String _ s' => contains s' sub
  end.

(** [s.split(sep)] for a one-character separator. *)
Fixpoint split_on (sep : ascii) (s : string) : list string :=
  match s with
  | EmptyString => [EmptyString]
  | String a s' =>
      if Ascii.eqb a sep then EmptyString :: split_on sep s'
      else match split_on sep s' with
           | [] => [String a EmptyString]
           | w :: ws => String a w :: ws
           end
  end.

Definition first_field (sep : ascii) (s : string) : string :=
  default EmptyString (head (split_on sep s)).

Definition last_field (sep : ascii) (s : string) : string :=
  default EmptyString (last (split_on sep s)).

(** [list(set(l))] returns the distinct elements of [l] in an order that
    depends on their hashes: a function [order] can stand for it when it
    does no more than that. *)
Definition enumerates {A} `{EqDecision A} (order : list A -> list A) : Prop :=
  forall l, order l ≡ₚ remove_dups l.

(** [sorted(l)] on strings: insertion in code-point order. *)
Fixpoint insert_sorted (x : string) (l : list string) : list string :=
  match l with
  | [] => [x]
  | y :: l' => if String.leb x y then x :: l else y :: insert_sorted x l'
  end.

Definition sorted (l : list string) : list string := foldr insert_sorted [] l.

(** ** Rationals *)

Definition Qltb (x y : Q) : bool := negb (Qle_bool y x).

(** [k / m] on a Python int and a numpy integer. *)
Definition true_div (k m : nat) : Q :=
  (inject_Z (Z.of_nat k) / inject_Z (Z.of_nat m))%Q.

(** ** The container

    One file holds one group per subject; a subject group holds the
    namespaces [inputs], [gt] and [roi]; a namespace holds one dataset per
    contrast.  The attributes are fields; the file attribute
    [metadata_choice] and the numeric attributes of the datasets, which
    nothing in the module reads back, are left out.  Contrast names hold no
    ['/'], so that ["<ns>/<name>"] is a dataset of the namespace.

    The attribute [slices] of a group is a numpy array: [grp_slices] holds
    its elements and [grp_slices_float] says that its type is float64
    rather than int64.  numpy gives that type to an empty list, and to
    whatever is concatenated with one. *)

Definition ndarray : Type := list Q.

Record dataset : Type := Dataset {
  ds_data : list ndarray;
  ds_attrs : gmap string (list string)
}.

Record namespace : Type := Namespace {
  ns_contrast : option (list string);
  ns_datasets : gmap string dataset
}.

Record group : Type := Group {
  grp_slices : option (list nat);
  grp_slices_float : bool;
  grp_contrast : option (list string);
  grp_members : gmap string namespace
}.

Record hdf5_file : Type := H5File {
  patients_id : list string;
  slice_axis_attr : nat;
  slice_filter_fn_attr : list string;
  h5_groups : gmap string group
}.

Definition empty_namespace : namespace := Namespace None ∅.
Definition empty_group : group := Group None false None ∅.

Definition set_members (g : group) (m : gmap string namespace) : group :=
  Group (grp_slices g) (grp_slices_float g) (grp_contrast g) m.
Definition set_slices (g : group) (l : list nat) (float : bool) : group :=
  Group (Some l) float (grp_contrast g) (grp_members g).
Definition set_grp_contrast (g : group) (l : list string) : group :=
  Group (grp_slices g) (grp_slices_float g) (Some l) (grp_members g).
Definition set_groups (f : hdf5_file) (m : gmap string group) : hdf5_file :=
  H5File (patients_id f) (slice_axis_attr f) (slice_filter_fn_attr f) m.

(** h5py's [grp.create_dataset("<ns>/<name>", data=...)]: the intermediate
    group is created when absent, and an existing name is refused. *)
Definition create_dataset (ns name : string) (data : list ndarray) (grp : group)
  : result group :=
  let sub := default empty_namespace (grp_members grp !! ns) in
  match ns_datasets sub !! name with
  | Some _ => Raise ValueError
  | None =>
      Ok (set_members grp
            (<[ns := Namespace (ns_contrast sub)
                       (<[name := Dataset data ∅]> (ns_datasets sub))]>
               (grp_members grp)))
  end.

(** [grp["<ns>/<name>"]]. *)
Definition get_dataset (ns name : string) (grp : group) : result dataset :=
  sub ← getitem (grp_members grp) ns;
  getitem (ns_datasets sub) name.

(** [grp["<ns>/<name>"].attrs[attr] = value]. *)
Definition set_dataset_attr (ns name attr : string) (value : list string)
    (grp : group) : result group :=
  sub ← getitem (grp_members grp) ns;
  d ← getitem (ns_datasets sub) name;
  Ok (set_members grp
        (<[ns := Namespace (ns_contrast sub)
                   (<[name := Dataset (ds_data d) (<[attr := value]> (ds_attrs d))]>
                      (ns_datasets sub))]>
           (grp_members grp))).

(** ** Converter: [class BIDStoHDF5] *)

Module BIDStoHDF5.

(** A row of [bids_df.df], restricted to the columns the module reads. *)
Record bids_row : Type := BidsRow {
  filename : string;
  suffix : string;
  path : string
}.

Definition bbox : Type := list Z.

Record metadata : Type := Metadata {
  md_row : bids_row;
  md_contrast : string;
  md_bounding_box : option bbox
}.

(** An element of [self.filename_pairs]. *)
Record filename_pair : Type := FilenamePair {
  subject_id : string;
  input_filename : list string;
  gt_filename : list (option string);
  roi_filename : option (list string);
  pair_metadata : list metadata
}.

Inductive metadata_choice_t : Type := mri_params | contrasts | no_choice.

#[global] Instance metadata_choice_eq_dec : EqDecision metadata_choice_t.
Proof. solve_decision. Defined.

(** The metadata record of a slice, with the keys [_load_filenames] reads.
    [data_type] is the only key that [create_metadata] requires. *)
Record sample_metadata : Type := SampleMetadata {
  contrast : string;
  input_filenames : list string;
  gt_filenames : list string;
  data_type : option string
}.

(** What SegmentationPair and the preprocessing transforms deliver for one
    slice index: the raw pair seen by the slice filter, then
    [slice_seg_pair] after the transforms (its [input] and [gt] stacks and
    their metadata lists), and [roi_pair_slice] after the transforms (its
    [gt] stack and its input metadata list). *)
Record pair_slice : Type := PairSlice {
  raw_input : list ndarray;
  raw_gt : list ndarray;
  input : list ndarray;
  gt : list ndarray;
  input_metadata : list sample_metadata;
  gt_metadata : list sample_metadata;
  roi_gt : list ndarray;
  roi_metadata : list sample_metadata
}.

(** The constructor's arguments, the imported collaborators, and the
    interpreter: [re_compile] is the regular-expression engine on a
    pattern that has operators other than ['.'] ([None] when the engine
    refuses the pattern), [patients_order] and [slices_order] are the
    orders in which [list(set(...))] enumerates strings and numbers. *)
Record converter_args : Type := ConverterArgs {
  bids_df : list bids_row;
  derivatives : string -> list string;
  target_suffix : list string;
  roi_suffix : option string;
  contrast_balance : gmap string Q;
  slice_axis : nat;
  metadata_choice : metadata_choice_t;
  check_isMRIparam : string -> metadata -> string -> bool;
  bounding_box_dict : gmap string (list bbox);
  slice_filter_fn : option (list ndarray -> list ndarray -> bool);
  get_pair_slices : filename_pair -> list pair_slice;
  re_compile : string -> option (string -> bool);
  patients_order : list string -> list string;
  slices_order : list nat -> list nat
}.

(** The run state threaded through [process_subject]: the counter [c], and
    the two lists the method appends to. *)
Record session : Type := Session {
  c : gmap string nat;
  filename_pairs : list filename_pair;
  list_patients : list string
}.

Section Converter.
Context (a : converter_args).

(** [self.metadata.keys()] *)
Definition metadata_keys : list string :=
  match metadata_choice a with
  | mri_params => ["FlipAngle"; "RepetitionTime"; "EchoTime"; "Manufacturer"]
  | _ => []
  end.

Definition is_contrast_over_threshold (c tot : gmap string nat)
    (contrast : string) (contrast_balance : gmap string Q)
  : result (gmap string nat * option bool) :=
  match contrast_balance !! contrast with
  | Some t =>
      n ← getitem c contrast;
      let c := <[contrast := n + 1]> c in
      k ← getitem c contrast;
      m ← getitem tot contrast;
      (* a numpy division by zero yields inf *)
      Ok (c, Some (if Nat.eqb m 0 then true else Qltb t (true_div k m)))
  | None => Ok (c, None)
  end.

Definition get_filenames (subject : string)
  : list (option string) * option (list string) :=
  foldl (fun '(target_filename, roi_filename) deriv =>
           (zip_with (fun suffix cur =>
                        if contains deriv suffix then Some deriv else cur)
                     (target_suffix a) target_filename,
            match roi_suffix a with
            | Some s => if contains deriv s then Some [deriv] else roi_filename
            | None => roi_filename
            end))
        (replicate (length (target_suffix a)) None, None)
        (derivatives a subject).

(** [any(target_filename)] *)
Definition any_filename (l : list (option string)) : bool :=
  existsb (fun o => match o with
                    | Some s => negb (String.eqb s EmptyString)
                    | None => false
                    end) l.

Definition lookup_bounding_box (p : string) : result (option bbox) :=
  if bool_decide (bounding_box_dict a = ∅) then Ok None
  else
    boxes ← getitem (bounding_box_dict a) p;
    match boxes with
    | b :: _ => Ok (Some b)
    | [] => Raise IndexError
    end.

Definition process_subject (df_subjects : list bids_row)
    (tot : gmap string nat) (st : session) (subject : string)
  : result session :=
  let df_sub := filter (fun r => filename r = subject) df_subjects in
  match df_sub with
  | [] => Raise IndexError
  | row :: _ =>
      let contrast := suffix row in
      '(c', is_over_thresh) ←
        is_contrast_over_threshold (c st) tot contrast (contrast_balance a);
      let st := Session c' (filename_pairs st) (list_patients st) in
      if default false is_over_thresh then Ok st
      else
        let '(target_filename, roi_filename) := get_filenames subject in
        if negb (any_filename target_filename)
           || (bool_decide (roi_suffix a ≠ None)
               && bool_decide (roi_filename = None))
        then Ok st
        else
          bb ← lookup_bounding_box (path row);
          let metadata := Metadata row contrast bb in
          let are_mri_params :=
            forallb (fun m => check_isMRIparam a m metadata subject)
                    metadata_keys in
          if bool_decide (metadata_choice a = mri_params)
             && negb are_mri_params
          then Ok st
          else
            let subj_id := first_field "_"%char (first_field "."%char subject) in
            Ok (Session c'
                  (filename_pairs st ++
                     [FilenamePair subj_id [path row] target_filename
                        roi_filename [metadata]])
                  (list_patients st ++ [subj_id]))
  end.

Fixpoint process_subjects (df_subjects : list bids_row)
    (tot : gmap string nat) (st : session) (subjects : list string)
  : result session :=
  match subjects with
  | [] => Ok st
  | subject :: rest =>
      st' ← process_subject df_subjects tot st subject;
      process_subjects df_subjects tot st' rest
  end.

(** [c in s] for a character. *)
Fixpoint has_char (c : ascii) (s : string) : bool :=
  match s with
  | EmptyString => false
  | String x s' => Ascii.eqb c x || has_char c s'
  end.

(** The characters that [re] reads as operators, ['.'] apart. *)
Definition re_operator (c : ascii) : bool := has_char c "^$*+?{}[]\|()".

(** A pattern made of ordinary characters and of ['.']. *)
Fixpoint re_plain (pat : string) : bool :=
  match pat with
  | EmptyString => true
  | String c pat' => negb (re_operator c) && re_plain pat'
  end.

(** [re.fullmatch(pat, s)] for such a pattern: an ordinary character
    matches itself, and ['.'] matches any character but the newline. *)
Fixpoint dot_match (pat s : string) : bool :=
  match pat, s with
  | EmptyString, EmptyString => true
  | String p pat', String x s' =>
      (if Ascii.eqb p "." then negb (Ascii.eqb x "010") else Ascii.eqb p x)
      && dot_match pat' s'
  | _, _ => false
  end.

(** [Series.str.fullmatch(pat)]: the key of [contrast_balance] is compiled
    as a regular expression, and the whole suffix has to match it. *)
Definition fullmatch (pat : string) : result (string -> bool) :=
  if re_plain pat then Ok (dot_match pat)
  else from_option Ok (Raise PatternError) (re_compile a pat).

(** [df_subjects['suffix'].str.fullmatch(contrast).value_counts()[True]]:
    the number of rows whose suffix matches, and KeyError when there is
    none. *)
Definition count_suffix (df_subjects : list bids_row) (contrast : string)
  : result nat :=
  m ← fullmatch contrast;
  match length (filter (fun r => m (suffix r) = true) df_subjects) with
  | 0 => Raise KeyError
  | n => Ok n
  end.

(** The dictionary comprehension over [contrast_balance.keys()], which
    stops at the first key that raises.  The keys are visited in the order
    of the model's map; the insertion order of the Python dictionary,
    which the map does not record, only decides which exception is
    reported when two keys raise different ones. *)
Fixpoint count_suffixes (df_subjects : list bids_row) (keys : list string)
  : result (gmap string nat) :=
  match keys with
  | [] => Ok ∅
  | contrast :: rest =>
      n ← count_suffix df_subjects contrast;
      tot ← count_suffixes df_subjects rest;
      Ok (<[contrast := n]> tot)
  end.

Definition make_tot (df_subjects : list bids_row) : result (gmap string nat) :=
  count_suffixes df_subjects (map_to_list (contrast_balance a)).*1.

(** The first half of [__init__]: everything up to the end of the loop
    over the subjects. *)
Definition select_subjects (subject_file_lst : list string)
  : result (gmap string nat * session) :=
  let subject_file_lst := sorted subject_file_lst in
  let df_subjects :=
    filter (fun r => filename r ∈ subject_file_lst) (bids_df a) in
  tot ← make_tot df_subjects;
  let c := (fun _ => 0) <$> contrast_balance a in
  st ← process_subjects df_subjects tot (Session c [] []) subject_file_lst;
  Ok (tot, st).

(** *** Slicing *)

(** The four lists [_load_filenames] creates for each subject. *)
Record volumes : Type := Volumes {
  useful_slices : list nat;
  input_volumes : list ndarray;
  gt_volume : list ndarray;
  roi_volume : list ndarray
}.

(** [(x * 255).astype(np.uint8) / 255.] *)
Definition to_uint8 (q : Q) : Z :=
  (if Qle_bool 0 q then Qfloor q else - Qfloor (- q)) mod 256.
Definition quantize (x : ndarray) : ndarray :=
  map (fun q => (inject_Z (to_uint8 (q * 255)) / 255)%Q) x.

(** [_slice_seg_pair].  [useful_slices], [input_volumes], [gt_volume] and
    [roi_volume] are the caller's lists: [append] mutates them, whereas
    the assignments [gt_volume = []] and [roi_volume = []] rebind the
    helper's own parameter and leave the caller's list as it is. *)
Definition _slice_seg_pair (idx_pair_slice : nat) (sl : pair_slice)
    (v : volumes) : result volumes :=
  let useful_slices :=
    match slice_filter_fn a with
    | Some fn =>
        if fn (raw_input sl) (raw_gt sl)
        then useful_slices v ++ [idx_pair_slice]
        else useful_slices v
    | None => useful_slices v
    end in
  match input sl with
  | [] => Raise IndexError
  | x :: _ =>
      let input_volumes := input_volumes v ++ [x] in
      let gt_volume :=
        match gt sl with
        | [] => gt_volume v
        | g :: _ => gt_volume v ++ [quantize g]
        end in
      let roi_volume :=
        match roi_gt sl with
        | [] => roi_volume v
        | r :: _ => roi_volume v ++ [quantize r]
        end in
      Ok (Volumes useful_slices input_volumes gt_volume roi_volume)
  end.

(** [for idx_pair_slice in range(input_data_shape[-1])] *)
Fixpoint slice_loop (idx_pair_slice : nat) (slices : list pair_slice)
    (v : volumes) : result volumes :=
  match slices with
  | [] => Ok v
  | sl :: rest =>
      v' ← _slice_seg_pair idx_pair_slice sl v;
      slice_loop (S idx_pair_slice) rest v'
  end.

(** *** Writing *)

Definition create_subgrp_metadata (grp_key : string) (contrast : string)
    (grp : group) : result group :=
  sub ← getitem (grp_members grp) grp_key;
  let new_attr :=
    match ns_contrast sub with
    | Some attr => attr ++ [contrast]
    | None => [contrast]
    end in
  Ok (set_members grp
        (<[grp_key := Namespace (Some new_attr) (ns_datasets sub)]>
           (grp_members grp))).

Definition add_grp_contrast (contrast : string) (grp : group) : group :=
  match grp_contrast grp with
  | Some attr => set_grp_contrast grp (attr ++ [contrast])
  | None => set_grp_contrast grp [contrast]
  end.

(** The list is empty. *)
Definition is_nil {A} (l : list A) : bool :=
  match l with [] => true | _ => false end.

(** [grp.attrs['slices']] after the loop over the slices.  h5py stores a
    list as [np.asarray] converts it, an empty one with the type float64;
    [np.concatenate] of the old array and the new list has type float64 as
    soon as one of them has, and [list(set(...))] enumerates its elements
    in the order of the interpreter. *)
Definition update_slices (useful_slices : list nat) (grp : group) : group :=
  match grp_slices grp with
  | Some old =>
      set_slices grp (slices_order a (old ++ useful_slices))
                 (grp_slices_float grp || is_nil useful_slices)
  | None => set_slices grp useful_slices (is_nil useful_slices)
  end.

(** [create_metadata], for the key ["<ns>/<name>"].  Of the attributes it
    copies, [data_type] is required; spacing, shape and bounding box are
    optional numeric attributes that nothing in this module reads back, and
    are not stored. *)
Definition create_metadata (ns name : string) (metadata : sample_metadata)
    (grp : group) : result group :=
  match data_type metadata with
  | Some dt => set_dataset_attr ns name "data_type" [dt] grp
  | None => Raise KeyError
  end.

(** [l[0]] *)
Definition first {A} (l : list A) : result A :=
  match l with
  | x :: _ => Ok x
  | [] => Raise IndexError
  end.

(** The part of the loop body of [_load_filenames] that follows the
    reading of the metadata of the last slice, on the subject group. *)
Definition write_volumes (input_metadata gt_metadata roi_metadata : sample_metadata)
    (v : volumes) : stateful group unit :=
  modify (update_slices (useful_slices v));;
  let contrast := contrast input_metadata in
  if bool_decide (length (input_volumes v) < 1) then mret tt
  else
    try_modify (create_dataset "inputs" contrast (input_volumes v));;
    try_modify (create_subgrp_metadata "inputs" contrast);;
    try_modify (set_dataset_attr "inputs" contrast "input_filenames"
                  (input_filenames input_metadata));;
    try_modify (create_metadata "inputs" contrast input_metadata);;
    try_modify (create_dataset "gt" contrast (gt_volume v));;
    try_modify (create_subgrp_metadata "gt" contrast);;
    try_modify (set_dataset_attr "gt" contrast "gt_filenames"
                  (gt_filenames input_metadata));;
    try_modify (create_metadata "gt" contrast gt_metadata);;
    try_modify (create_dataset "roi" contrast (roi_volume v));;
    try_modify (create_subgrp_metadata "roi" contrast);;
    try_modify (set_dataset_attr "roi" contrast "roi_filename"
                  (gt_filenames roi_metadata));;
    try_modify (create_metadata "roi" contrast roi_metadata);;
    modify (add_grp_contrast contrast).

(** The metadata read after the loop over the slices, from the pair of the
    last slice. *)
Definition last_metadata (sl : pair_slice)
  : result (sample_metadata * sample_metadata * sample_metadata) :=
  input_metadata ← first (input_metadata sl);
  gt_metadata ← first (gt_metadata sl);
  roi_metadata ← first (roi_metadata sl);
  Ok (input_metadata, gt_metadata, roi_metadata).

(** The state of the loop of [_load_filenames]: the open file, and the
    variables [slice_seg_pair] and [roi_pair_slice], which keep their
    value from one subject to the next. *)
Record loader : Type := Loader {
  hdf5 : hdf5_file;
  last_slice : option pair_slice
}.

Definition load_pair (fp : filename_pair) : stateful loader unit :=
  fun st =>
    let key := subject_id fp in
    let grp := default empty_group (h5_groups (hdf5 st) !! key) in
    let put g := set_groups (hdf5 st) (<[key := g]> (h5_groups (hdf5 st))) in
    let slices := get_pair_slices a fp in
    match slice_loop 0 slices (Volumes [] [] [] []) with
    | Raise e => (Loader (put grp) (last_slice st), Raise e)
    | Ok v =>
        match from_option Some (last_slice st) (last slices) with
        | None => (Loader (put grp) None, Raise UnboundLocalError)
        | Some sl =>
            match last_metadata sl with
            | Raise e => (Loader (put grp) (Some sl), Raise e)
            | Ok (input_metadata, gt_metadata, roi_metadata) =>
                let '(grp', r) :=
                  write_volumes input_metadata gt_metadata roi_metadata v grp in
                (Loader (put grp') (Some sl), r)
            end
        end
    end.

(** [_load_filenames], on the file that [h5py.File(self.path_hdf5, "a")]
    opens. *)
Definition _load_filenames (pairs : list filename_pair) (f : hdf5_file)
  : hdf5_file * result unit :=
  let '(st, r) := for_each load_pair pairs (Loader f None) in (hdf5 st, r).

(** [__init__], on the files of the file system.  [h5py.File(path, "w")]
    creates or truncates the file; [patients_id] is [list(set(list_patients))],
    in the order of the interpreter. *)
Definition __init__ (subject_file_lst : list string) (path_hdf5 : string)
  : stateful (gmap string hdf5_file) session :=
  fun fs =>
    match select_subjects subject_file_lst with
    | Raise e => (fs, Raise e)
    | Ok (_, st) =>
        let f := H5File (patients_order a (list_patients st)) (slice_axis a)
                   ["filter_empty_input"; "filter_empty_mask"] ∅ in
        let '(f', r) := _load_filenames (filename_pairs st) f in
        (<[path_hdf5 := f']> fs, r ≫= fun _ => Ok st)
    end.

End Converter.

End BIDStoHDF5.

(** ** Indexer: [class Dataframe] *)

Module Dataframe.

(** A cell of the pandas table: a string (a container path, or the
    sentinel ['None']), a null, the slice selector of a row (an array of
    indices, or one index in 2D mode, of type int64 or of type float64), or
    data promoted to RAM (a stack for an array selector, one slice for a
    scalar selector). *)
Inductive cell : Type :=
  | Str (s : string)
  | NaN
  | Indices (l : list nat)
  | Index (n : nat)
  | FloatIndices (l : list nat)
  | FloatIndex (n : nat)
  | Stack (d : list ndarray)
  | Plane (d : ndarray).

#[global] Instance Q_eq_dec : EqDecision Q.
Proof. solve_decision. Defined.
#[global] Instance cell_eq_dec : EqDecision cell.
Proof. solve_decision. Defined.

Abbreviation line := (gmap string cell).

(** [pd.DataFrame]: the column labels and the rows.  A row that lacks a
    column holds a null there, as after [df.append]. *)
Record table : Type := Table {
  columns : list string;
  rows : list line
}.

Definition cell_of (r : line) (col : string) : cell := default NaN (r !! col).

Definition isna (x : cell) : bool :=
  match x with NaN => true | _ => false end.

(** [df.dropna()]: no [subset], so every column counts. *)
Definition dropna (t : table) : table :=
  Table (columns t)
        (filter (fun r => forallb (fun col => negb (isna (cell_of r col)))
                                  (columns t) = true)
                (rows t)).

(** [.replace(to_replace='None', value=np.nan)] on one cell. *)
Definition replace_None (x : cell) : cell :=
  match x with
  | Str s => if String.eqb s "None" then NaN else x
  | _ => x
  end.

(** [df[contrasts] = df[contrasts].replace(to_replace='None', value=np.nan)]
    on one row. *)
Definition replace_line (contrasts : list string) (r : line) : line :=
  foldr (fun col r => alter replace_None col r) r contrasts.

(** [clean]: [df[contrasts]] raises when a label is not a column. *)
Definition clean (contrasts : list string) (t : table) : result table :=
  if forallb (fun col => bool_decide (col ∈ columns t)) contrasts
  then Ok (dropna (Table (columns t) (map (replace_line contrasts) (rows t))))
  else Raise KeyError.

(** The attributes of the object. *)
Record t : Type := Make {
  dim : nat;
  contrasts : list string;
  filter_slices : bool;
  df : option table
}.

(** The keys of a dictionary filled in the order of [l]. *)
Definition dict_keys (l : list string) : list string :=
  reverse (remove_dups (reverse l)).

Section Build.
Context (dim : nat) (filter_slices : bool).

Definition path_string (subject key contrast : string) : string :=
  subject +:+ "/" +:+ key +:+ "/" +:+ contrast.

Definition process_key (key : string) (grp : group) (ln : line)
    (subject : string) (col_names : list string) : result line :=
  match grp_members grp !! key with
  | None => Raise AssertionError
  | Some inputs =>
      match ns_contrast inputs with
      | None => Raise KeyError
      | Some attr =>
          Ok (foldl
                (fun ln contrast =>
                   if String.eqb key "inputs" then
                     if bool_decide (contrast ∈ col_names)
                     then <[contrast := Str (path_string subject "inputs" contrast)]> ln
                     else ln
                   else
                     let key_contrast := key +:+ "/" +:+ contrast in
                     foldl (fun ln col =>
                              if contains col key_contrast
                              then <[col := Str (path_string subject key contrast)]> ln
                              else ln)
                           ln col_names)
                ln attr)
      end
  end.

(** [np.array(grp.attrs['slices'])], and one of its elements. *)
Definition index_array (float : bool) (l : list nat) : cell :=
  if float then FloatIndices l else Indices l.
Definition index_scalar (float : bool) (n : nat) : cell :=
  if float then FloatIndex n else Index n.

Definition process_line (rows : list line) (grp : group) (ln : line)
    (subject : string) (col_names : list string) : result (list line) :=
  ln ← process_key "inputs" grp ln subject col_names;
  ln ← process_key "gt" grp ln subject col_names;
  ln ← process_key "roi" grp ln subject col_names;
  match grp_slices grp with
  | None => Raise KeyError
  | Some slices =>
      let float := grp_slices_float grp in
      let ln := <["Slices" := index_array float slices]> ln in
      if Nat.eqb dim 2 && filter_slices
      then Ok (rows ++ map (fun n => <["Slices" := index_scalar float n]> ln)
                           slices)
      else Ok (rows ++ [ln])
  end.

Definition create_df (contrasts : list string) (hdf5_file : hdf5_file)
  : result table :=
  let empty_line : line :=
    <["Slices" := Str "None"]>
      (list_to_map (map (fun col => (col, Str "None")) contrasts)) in
  let col_names := dict_keys (contrasts ++ ["Slices"]) ++ ["Subjects"] in
  rows ← foldl (fun acc subject =>
                  rows ← acc;
                  grp ← getitem (h5_groups hdf5_file) subject;
                  let ln := <["Subjects" := Str subject]> empty_line in
                  process_line rows grp ln subject col_names)
               (Ok []) (patients_id hdf5_file);
  Ok (Table col_names rows).

End Build.

(** [__init__].  [csv] holds the tables that [pd.read_csv] would load. *)
Definition __init__ (csv : gmap string table) (hdf5_file : hdf5_file)
    (contrasts : list string) (path : string)
    (target_suffix roi_suffix : option (list string))
    (filter_slices : bool) (dim : nat) : result t :=
  let contrasts :=
    contrasts ++
    match target_suffix with
    | Some (gt :: gts) => map (fun gt => "gt/" +:+ gt) (gt :: gts)
    | _ => ["gt"]
    end ++
    match roi_suffix with
    | Some (roi :: rois) => map (fun roi => "roi/" +:+ roi) (roi :: rois)
    | _ => ["ROI"]
    end in
  match csv !! path with
  | Some table => Ok (Make dim contrasts filter_slices (Some table))
  | None =>
      table ← create_df dim filter_slices contrasts hdf5_file;
      Ok (Make dim contrasts filter_slices (Some table))
  end.

End Dataframe.

(** ** Access layer: [class HDF5Dataset] *)

Module HDF5Dataset.

Import Dataframe.

(** [model_params] and [contrast_params], restricted to the keys read. *)
Record model_params : Type := ModelParams {
  path_hdf5 : string;
  csv_path : string;
  target_lst : option (list string);
  roi_lst : option (list string);
  ram : option bool
}.

(** The attributes of the object.  [filter_slices] is the truth value of
    [slice_filter_fn]. *)
Record t : Type := Make {
  cst_lst : list string;
  filter_slices : bool;
  self_path_hdf5 : string;
  df_object : Dataframe.t;
  dataframe : table;
  cst_matrix : list (list nat);
  status : gmap string bool
}.

Definition set_dataframe (self : t) (d : table) : t :=
  Make (cst_lst self) (filter_slices self) (self_path_hdf5 self)
       (df_object self) d (cst_matrix self) (status self).
Definition set_status (self : t) (s : gmap string bool) : t :=
  Make (cst_lst self) (filter_slices self) (self_path_hdf5 self)
       (df_object self) (dataframe self) (cst_matrix self) s.
Definition set_cst_matrix (self : t) (m : list (list nat)) : t :=
  Make (cst_lst self) (filter_slices self) (self_path_hdf5 self)
       (df_object self) (dataframe self) m (status self).

(** [hdf5_file[path]] for a path ["<subject>/<namespace>/<contrast>"]. *)
Definition h5_lookup (f : hdf5_file) (p : string) : result dataset :=
  match split_on "/" p with
  | [subject; ns; name] =>
      grp ← getitem (h5_groups f) subject;
      get_dataset ns name grp
  | _ => Raise KeyError
  end.

(** The elements of an index array are in strictly increasing order. *)
Fixpoint increasing (l : list nat) : bool :=
  match l with
  | i :: rest =>
      match rest with
      | j :: _ => Nat.ltb i j && increasing rest
      | [] => true
      end
  | [] => true
  end.

(** [dataset[np.array(slices)]].  h5py takes an integer, or an array of
    integers within the dataset and in strictly increasing order; it
    refuses with TypeError an array out of order, and an array or a number
    of type float64, which is the type of the empty array that numpy makes
    of an empty list. *)
Definition select (d : dataset) (slices : cell) : result cell :=
  match slices with
  | Indices l =>
      planes ← foldr (fun i acc =>
                        rest ← acc;
                        match ds_data d !! i with
                        | Some x => Ok (x :: rest)
                        | None => Raise IndexError
                        end) (Ok []) l;
      if increasing l then Ok (Stack planes) else Raise TypeError
  | Index n =>
      match ds_data d !! n with
      | Some x => Ok (Plane x)
      | None => Raise IndexError
      end
  | _ => Raise TypeError
  end.

(** [slices = self.dataframe.at[sub, 'Slices']] followed by
    [hdf5_file[self.dataframe.at[sub, ct]][np.array(slices)]]: [.at] raises
    on a label that is not a column. *)
Definition read_cell (f : hdf5_file) (cols : list string) (r : line)
    (ct : string) : result cell :=
  if bool_decide ("Slices" ∈ cols) && bool_decide (ct ∈ cols) then
    match cell_of r ct with
    | Str p =>
        d ← h5_lookup f p;
        select d (cell_of r "Slices")
    | _ => Raise TypeError
    end
  else Raise KeyError.

(** The loop over [self.dataframe.index] for one contrast.  A row written
    before a raise keeps its new cell. *)
Fixpoint promote_rows (filter_slices : bool) (f : hdf5_file)
    (cols : list string) (ct : string) (rs : list line)
  : list line * result unit :=
  match rs with
  | [] => ([], Ok tt)
  | r :: rest =>
      if filter_slices then
        match read_cell f cols r ct with
        | Ok x =>
            let '(rest', out) := promote_rows filter_slices f cols ct rest in
            (<[ct := x]> r :: rest', out)
        | Raise e => (r :: rest, Raise e)
        end
      else
        let '(rest', out) := promote_rows filter_slices f cols ct rest in
        (r :: rest', out)
  end.

(** The body of the loop of [load_into_ram] for one contrast. *)
Definition load_contrast (f : hdf5_file) (ct : string) : stateful t unit :=
  fun self =>
    match (status self !! ct : option bool) with
    | None => (self, Ok tt)
    | Some resident =>
        if resident then (set_status self (<[ct := true]> (status self)), Ok tt)
        else
          let cols := columns (dataframe self) in
          let '(rs, out) :=
            promote_rows (filter_slices self) f cols ct (rows (dataframe self)) in
          let self := set_dataframe self (Table cols rs) in
          match out with
          | Ok _ => (set_status self (<[ct := true]> (status self)), Ok tt)
          | Raise e => (self, Raise e)
          end
    end.

(** [load_into_ram]: [h5py.File(self.path_hdf5, "r")] raises when the file
    is missing. *)
Definition load_into_ram (fs : gmap string hdf5_file)
    (contrast_lst : list string) : stateful t unit :=
  fun self =>
    match fs !! self_path_hdf5 self with
    | None => (self, Raise OSError)
    | Some f => for_each (load_contrast f) contrast_lst self
    end.

(** [__len__] *)
Definition __len__ (self : t) : nat := length (rows (dataframe self)).

(** *** Missing modalities *)

(** What numpy's generator returned for one row: the array of
    [np.random.choice(2, len(self.cst_lst), p=[p, 1 - p])], and the value of
    [np.random.randint(2, size=1)] (consulted only when it is drawn). *)
Record draw : Type := Draw {
  choice : list nat;
  randint : nat
}.

(** The outcomes the generator can produce for probability [p] and [n]
    contrasts: 0 has probability [p] and 1 has probability [1 - p]. *)
Definition possible_choice (p : Q) (n : nat) (l : list nat) : Prop :=
  length l = n /\
  Forall (fun b => (b = 0 /\ (0 < p)%Q) \/ (b = 1 /\ (p < 1)%Q)) l.

Definition possible_draw (p : Q) (n : nat) (d : draw) : Prop :=
  possible_choice p n (choice d) /\ randint d < 2.

(** [np.any] *)
Definition np_any (l : list nat) : bool := existsb (fun b => negb (Nat.eqb b 0)) l.

(** [missing_mod[i] = 1] on a numpy array. *)
Definition setitem (l : list nat) (i x : nat) : result (list nat) :=
  if bool_decide (i < length l) then Ok (<[i := x]> l) else Raise IndexError.

(** The body of the loop of [update] up to the store into the matrix. *)
Definition missing_mod (p : Q) (n : nat) (d : draw) : result (list nat) :=
  if Qle_bool 0 p && Qle_bool p 1 then
    let missing_mod := choice d in
    if negb (np_any missing_mod)
    then setitem (replicate n 0) (randint d) 1
    else Ok missing_mod
  else Raise ValueError.

Fixpoint update_rows (p : Q) (n : nat) (rng : nat -> draw) (idx count : nat)
  : stateful (list (list nat)) unit :=
  match count with
  | O => mret tt
  | S count' =>
      try_modify (fun m => row ← missing_mod p n (rng idx);
                           if bool_decide (idx < length m)
                           then Ok (<[idx := row]> m)
                           else Raise IndexError);;
      update_rows p n rng (S idx) count'
  end.

(** [update] *)
Definition update (strategy : string) (p : Q) (rng : nat -> draw)
  : stateful t unit :=
  fun self =>
    if String.eqb strategy "Missing" then
      let '(m, out) :=
        update_rows p (length (cst_lst self)) rng 0 (__len__ self)
                    (cst_matrix self) in
      (set_cst_matrix self m, out)
    else (self, Ok tt).

(** *** Construction *)

Section Init.
Context (a : BIDStoHDF5.converter_args) (csv : gmap string table).

(** [__init__], on the container files of the file system. *)
Definition __init__ (subject_file_lst : list string) (mp : model_params)
    (cst_lst : list string) (dim : nat) (complet : bool)
  : stateful (gmap string hdf5_file) t :=
  fun fs =>
    let filter_slices :=
      match BIDStoHDF5.slice_filter_fn a with Some _ => true | None => false end in
    let converted : gmap string hdf5_file * result unit :=
      match fs !! path_hdf5 mp with
      | None =>
          let '(fs', r) :=
            BIDStoHDF5.__init__ a subject_file_lst (path_hdf5 mp) fs in
          (fs', r ≫= fun _ => Ok tt)
      | Some _ => (fs, Ok tt)
      end in
    let fs := converted.1 in
    (fs,
     _ ← converted.2;
     hdf5_file ← getitem fs (path_hdf5 mp);
     df_object ← Dataframe.__init__ csv hdf5_file cst_lst (csv_path mp)
                   (target_lst mp) (roi_lst mp) filter_slices dim;
     table ← from_option Ok (Raise TypeError) (df df_object);
     table ← (if complet then clean cst_lst table else Ok table);
     let df_object :=
       Dataframe.Make (Dataframe.dim df_object) (contrasts df_object)
                      (Dataframe.filter_slices df_object) (Some table) in
     let self :=
       Make cst_lst filter_slices (path_hdf5 mp) df_object table
            (replicate (length (rows table))
                       (replicate (length cst_lst) 1))
            (list_to_map (map (fun ct => (ct, false)) (contrasts df_object))) in
     if default true (ram mp)
     then let '(self, out) := load_into_ram fs cst_lst self in
          out ≫= fun _ => Ok self
     else Ok self).

End Init.

(** *** Samples *)

(** [__getitem__] raises what the table and the container raise, and the
    AttributeError of [.astype] on a cell that is no numpy value. *)
Inductive sampled (A : Type) : Type :=
  | Sample (a : A)
  | Raised (e : exn)
  | RaisedAttributeError.
Arguments Sample {A} a.
Arguments Raised {A} e.
Arguments RaisedAttributeError {A}.

#[global] Instance sampled_ret : MRet sampled := fun A a => Sample a.
#[global] Instance sampled_bind : MBind sampled := fun A B f m =>
  match m with
  | Sample a => f a
  | Raised e => Raised e
  | RaisedAttributeError => RaisedAttributeError
  end.

Definition of_result {A} (r : result A) : sampled A :=
  match r with
  | Ok a => Sample a
  | Raise e => Raised e
  end.

(** [l[index]] on the rows of a table ([iloc]) and of a numpy matrix: a
    negative index counts from the end. *)
Definition iloc {A} (l : list A) (index : Z) : result A :=
  let n := Z.of_nat (length l) in
  let i := if (index <? 0)%Z then (n + index)%Z else index in
  if (0 <=? i)%Z && (i <? n)%Z
  then from_option Ok (Raise IndexError) (l !! Z.to_nat i)
  else Raise IndexError.

(** [line[label]] on a row of the table. *)
Definition line_get (cols : list string) (r : line) (label : string)
  : result cell :=
  if bool_decide (label ∈ cols) then Ok (cell_of r label) else Raise KeyError.

(** [f[x]] for the content of a cell: h5py takes a string. *)
Definition h5_open (f : hdf5_file) (x : cell) : result dataset :=
  match x with
  | Str p => h5_lookup f p
  | _ => Raise TypeError
  end.

(** [s * k] on a Python string. *)
Fixpoint repeat_string (s : string) (k : nat) : string :=
  match k with
  | O => EmptyString
  | S k' => s +:+ repeat_string s k'
  end.

(** [x * missing_modalities[i]]: the product of numpy on data, the
    repetition of Python on a string. *)
Definition times (x : cell) (k : nat) : cell :=
  match x with
  | Str s => Str (repeat_string s k)
  | NaN => NaN
  | Indices l => Indices (map (fun i => i * k) l)
  | Index n => Index (n * k)
  | FloatIndices l => FloatIndices (map (fun i => i * k) l)
  | FloatIndex n => FloatIndex (n * k)
  | Stack d => Stack (map (map (fun q => (q * inject_Z (Z.of_nat k))%Q)) d)
  | Plane d => Plane (map (fun q => (q * inject_Z (Z.of_nat k))%Q) d)
  end.

(** [x.astype(np.uint8)]: a string and a float have no such method. *)
Definition astype_uint8 (x : cell) : sampled cell :=
  let cast := fun q => inject_Z (BIDStoHDF5.to_uint8 q) in
  match x with
  | Str _ | NaN => RaisedAttributeError
  | Indices l | FloatIndices l => Sample (Indices (map (fun i => i mod 256) l))
  | Index n | FloatIndex n => Sample (Index (n mod 256))
  | Stack d => Sample (Stack (map (map cast) d))
  | Plane d => Sample (Plane (map cast d))
  end.

(** A value of a [SampleMetadata] dictionary: an attribute of the dataset,
    or one of the three entries that [__getitem__] sets. *)
Inductive metadata_value : Type :=
  | Attr (value : list string)
  | SliceIndex (slices : cell)
  | MissingMod (mask : list nat)
  | CropParams.

Definition metadata : Type := gmap string metadata_value.

(** The dictionary that [__getitem__] returns. *)
Record data_dict (tensor : Type) : Type := DataDict {
  input : tensor;
  gt : tensor;
  roi : tensor;
  input_metadata : list metadata;
  gt_metadata : list metadata;
  roi_metadata : list metadata
}.
Arguments DataDict {tensor}.
Arguments input {tensor}.
Arguments gt {tensor}.
Arguments roi {tensor}.
Arguments input_metadata {tensor}.
Arguments gt_metadata {tensor}.
Arguments roi_metadata {tensor}.

(** [for i, x in enumerate(l)], collecting what the body appends. *)
Fixpoint enumerate_from {M : Type -> Type} `{MBind M, MRet M} {A B}
    (body : nat -> A -> M B) (i : nat) (l : list A) : M (list B) :=
  match l with
  | [] => mret []
  | x :: rest =>
      y ← body i x;
      ys ← enumerate_from body (S i) rest;
      mret (y :: ys)
  end.

Section Sampling.
(** The attributes [self.gt_lst] and [self.roi_lst], which the constructor
    copies from [model_params], the callable [self.transform], and two
    library functions: [update_metadata] of the loader utilities, and the
    text that numpy gives for an array. *)
Context {tensor : Type}.
Context (gt_lst roi_lst : option (list string)).
Context (transform : list cell -> list metadata -> string
                     -> sampled (tensor * list metadata)).
Context (update_metadata : list metadata -> list metadata -> list metadata).
Context (np_str : cell -> string).

(** ['{}'.format(x)] *)
Definition format_cell (x : cell) : string :=
  match x with
  | Str s => s
  | NaN => "nan"
  | Index n => pretty n
  | FloatIndex n => pretty n +:+ ".0"
  | _ => np_str x
  end.

Section Row.
Context (f : hdf5_file) (self : t).
Context (ln : line) (missing_modalities : list nat).

(** [f[line[col]][line['Slices']]] *)
Definition read_line (col : string) : result cell :=
  let cols := columns (dataframe self) in
  p ← line_get cols ln col;
  d ← h5_open f p;
  slices ← line_get cols ln "Slices";
  select d slices.

(** The body of the loop over [self.cst_lst]: the tensor and its
    metadata. *)
Definition input_sample (i : nat) (ct : string) : result (cell * metadata) :=
  let cols := columns (dataframe self) in
  resident ← getitem (status self) ct;
  x ← (if resident : bool then line_get cols ln ct else read_line ct);
  k ← from_option Ok (Raise IndexError) (missing_modalities !! i);
  let input_tensor := times x k in
  subject ← line_get cols ln "Subjects";
  d ← h5_lookup f (format_cell subject +:+ "/inputs/" +:+ ct);
  slices ← line_get cols ln "Slices";
  Ok (input_tensor,
      <["crop_params" := CropParams]>
        (<["missing_mod" := MissingMod missing_modalities]>
           (<["slice_index" := SliceIndex slices]> (Attr <$> ds_attrs d)))).

(** The body of the loop over [self.gt_lst], for the column ['gt/' + gt];
    the ROI block does the same for ['roi/' + self.roi_lst[0]]. *)
Definition target_sample (col : string) : sampled (cell * metadata) :=
  let cols := columns (dataframe self) in
  resident ← of_result (getitem (status self) col);
  gt_data ← of_result (if resident : bool then line_get cols ln col
                       else read_line col);
  gt_data ← astype_uint8 gt_data;
  p ← of_result (line_get cols ln col);
  d ← of_result (h5_open f p);
  Sample (gt_data, <["crop_params" := CropParams]> (Attr <$> ds_attrs d)).

(** What [__getitem__] gathers before it runs the transforms. *)
Definition gather
  : sampled (list (cell * metadata) * list (cell * metadata)
             * list (cell * metadata)) :=
  inputs ← of_result (enumerate_from input_sample 0 (cst_lst self));
  gts ← match gt_lst with
        | Some l => enumerate_from (fun _ gt => target_sample ("gt/" +:+ gt)) 0 l
        | None => Raised TypeError
        end;
  rois ← match roi_lst with
         | Some (roi :: _) =>
             s ← target_sample ("roi/" +:+ roi); Sample [s]
         | _ => Sample []
         end;
  Sample (inputs, gts, rois).

End Row.

(** [__getitem__] *)
Definition __getitem__ (fs : gmap string hdf5_file) (self : t) (index : Z)
  : sampled (data_dict tensor) :=
  ln ← of_result (iloc (rows (dataframe self)) index);
  missing_modalities ← of_result (iloc (cst_matrix self) index);
  f ← of_result (from_option Ok (Raise OSError) (fs !! self_path_hdf5 self));
  '(inputs, gts, rois) ← gather f self ln missing_modalities;
  '(stack_roi, metadata_roi) ← transform rois.*1 rois.*2 "roi";
  let metadata_input := update_metadata metadata_roi inputs.*2 in
  '(stack_input, metadata_input) ← transform inputs.*1 metadata_input "im";
  let metadata_gt := update_metadata metadata_input gts.*2 in
  '(stack_gt, metadata_gt) ← transform gts.*1 metadata_gt "gt";
  Sample (DataDict stack_input stack_gt stack_roi
            metadata_input metadata_gt metadata_roi).

End Sampling.

End HDF5Dataset.

(** ** Exporter: [HDF5ToBIDS] *)

(** The output side of the file system: the directories that exist and the
    volume files that [nib.save] wrote, by path. *)
Record bids_tree : Type := BidsTree {
  directories : gset string;
  nifti : gmap string (list ndarray)
}.

(** [Path(base + '/' + ... ).mkdir(parents=True)], guarded by [exists()]. *)
Fixpoint mkdir (base : string) (parts : list string) (dirs : gset string)
  : gset string :=
  match parts with
  | [] => dirs
  | part :: rest =>
      let dir := base +:+ "/" +:+ part in
      mkdir dir rest ({[dir]} ∪ dirs)
  end.

Definition make_dirs (base : string) (parts : list string) (tree : bids_tree)
  : bids_tree :=
  BidsTree (mkdir base parts (directories tree)) (nifti tree).

(** [nib.save(nib.Nifti1Image(data, np.eye(4)), Path(dir).joinpath(name))] *)
Definition save (dir name : string) (data : list ndarray) (tree : bids_tree)
  : bids_tree :=
  BidsTree (directories tree) (<[dir +:+ "/" +:+ name := data]> (nifti tree)).

Definition namespace_contrasts (ns : string) (grp : group)
  : result (list string) :=
  sub ← getitem (grp_members grp) ns;
  from_option Ok (Raise KeyError) (ns_contrast sub).

(** The body of the loop over the subjects, after the two [mkdir]. *)
Definition export_group (path_sub path_label sub : string) (grp : group)
  : stateful bids_tree unit :=
  cts ← lift (fun _ => namespace_contrasts "inputs" grp);
  for_each (fun ct =>
              d ← lift (fun _ => get_dataset "inputs" ct grp);
              modify (save path_sub (sub +:+ "_" +:+ ct +:+ ".nii.gz") (ds_data d)))
           cts;;
  cts ← lift (fun _ => namespace_contrasts "gt" grp);
  for_each (fun ct =>
              d ← lift (fun _ => get_dataset "gt" ct grp);
              names ← lift (fun _ => getitem (ds_attrs d) "gt_filenames");
              for_each (fun name =>
                          modify (save path_label (last_field "/" name) (ds_data d)))
                       names)
           cts;;
  cts ← lift (fun _ => namespace_contrasts "roi" grp);
  for_each (fun ct =>
              d ← lift (fun _ => get_dataset "roi" ct grp);
              if bool_decide (length (ds_data d) ≠ 0) then
                names ← lift (fun _ => getitem (ds_attrs d) "roi_filename");
                match names with
                | name :: _ =>
                    modify (save path_label (last_field "/" name) (ds_data d))
                | [] => lift (fun _ => Raise IndexError)
                end
              else mret tt)
           cts.

(** The body of the loop over the subjects.  [hdf5_file[sub]] is the group
    of the subject when [sub] is a plain name; h5py would resolve a name
    that is empty, holds ['/'] or is ['.'] as a path. *)
Definition export_subject (hdf5_file : hdf5_file) (path_dir sub : string)
  : stateful bids_tree unit :=
  modify (make_dirs path_dir [sub; "anat"]);;
  modify (make_dirs path_dir ["derivatives"; "labels"; sub; "anat"]);;
  match h5_groups hdf5_file !! sub with
  | None => mret tt
  | Some grp =>
      export_group (path_dir +:+ "/" +:+ sub +:+ "/anat")
                   (path_dir +:+ "/derivatives/labels/" +:+ sub +:+ "/anat")
                   sub grp
  end.

Definition HDF5ToBIDS (fs : gmap string hdf5_file) (path_hdf5 : string)
    (subjects : list string) (path_dir : string) : stateful bids_tree unit :=
  fun tree =>
    match fs !! path_hdf5 with
    | None => (tree, Raise OSError)
    | Some hdf5_file =>
        if bool_decide (path_dir ∈ directories tree)
        then for_each (export_subject hdf5_file path_dir) subjects tree
        else (tree, Raise FileNotFoundError)
    end.


(** ** Vocabulary of the properties *)

(** The contrast of an accepted subject: [metadata['contrast']] of its
    filename pair. *)
Definition pair_contrast (fp : BIDStoHDF5.filename_pair) : option string :=
  BIDStoHDF5.md_contrast <$> head (BIDStoHDF5.pair_metadata fp).

(** The number of accepted subjects of a contrast. *)
Definition accepted (contrast : string) (pairs : list BIDStoHDF5.filename_pair)
  : nat :=
  length (filter (fun fp => pair_contrast fp = Some contrast) pairs).

(** The candidate subjects of a contrast configured in [contrast_balance]:
    the rows of the BIDS data frame whose file is in the subject list and
    whose suffix the configured name matches. *)
Definition candidates (a : BIDStoHDF5.converter_args)
    (subject_file_lst : list string) (contrast : string) : nat :=
  match BIDStoHDF5.fullmatch a contrast with
  | Ok matches =>
      length (filter (fun r => matches (BIDStoHDF5.suffix r) = true)
                (filter (fun r => BIDStoHDF5.filename r ∈ sorted subject_file_lst)
                        (BIDStoHDF5.bids_df a)))
  | Raise _ => 0
  end.

(** The rows of the BIDS data frame whose file is in the subject list and
    whose suffix is the contrast. *)
Definition rows_of_contrast (a : BIDStoHDF5.converter_args)
    (subject_file_lst : list string) (contrast : string)
  : list BIDStoHDF5.bids_row :=
  filter (fun r => BIDStoHDF5.suffix r = contrast)
    (filter (fun r => BIDStoHDF5.filename r ∈ sorted subject_file_lst)
            (BIDStoHDF5.bids_df a)).

(** A name without any character that a regular expression reads as an
    operator. *)
Fixpoint literal (s : string) : bool :=
  match s with
  | EmptyString => true
  | String c s' =>
      negb (BIDStoHDF5.re_operator c) && negb (Ascii.eqb c ".") && literal s'
  end.

(** The invariant of the loop over the subjects for a balanced contrast
    with threshold [t] and total [n]: the accepted subjects of the contrast
    are at most as many as the counter says, and at most [t * n]. *)
Definition balanced (contrast : string) (t : Q) (n : nat)
    (st : BIDStoHDF5.session) : Prop :=
  exists k, BIDStoHDF5.c st !! contrast = Some k /\
    accepted contrast (BIDStoHDF5.filename_pairs st) <= k /\
    (inject_Z (Z.of_nat (accepted contrast (BIDStoHDF5.filename_pairs st)))
       <= t * inject_Z (Z.of_nat n))%Q.

(** A subject that passes the acceptance filter of [process_subject]
    (targets, ROI, bounding box and MRI parameters), whatever the balance
    says. *)
Definition complete (a : BIDStoHDF5.converter_args) (row : BIDStoHDF5.bids_row)
  : bool :=
  let subject := BIDStoHDF5.filename row in
  let '(target_filename, roi_filename) := BIDStoHDF5.get_filenames a subject in
  BIDStoHDF5.any_filename target_filename
  && negb (bool_decide (BIDStoHDF5.roi_suffix a ≠ None)
           && bool_decide (roi_filename = None))
  && match BIDStoHDF5.lookup_bounding_box a (BIDStoHDF5.path row) with
     | Ok bb =>
         negb (bool_decide (BIDStoHDF5.metadata_choice a = BIDStoHDF5.mri_params)
               && negb (forallb
                          (fun m => BIDStoHDF5.check_isMRIparam a m
                                      (BIDStoHDF5.Metadata row
                                         (BIDStoHDF5.suffix row) bb)
                                      subject)
                          (BIDStoHDF5.metadata_keys a)))
     | Raise _ => false
     end.

(** The complete subjects among the candidates of a contrast. *)
Definition complete_candidates (a : BIDStoHDF5.converter_args)
    (subject_file_lst : list string) (contrast : string) : nat :=
  length (filter (fun r => BIDStoHDF5.suffix r = contrast /\ complete a r = true)
            (filter (fun r => BIDStoHDF5.filename r ∈ sorted subject_file_lst)
                    (BIDStoHDF5.bids_df a))).


(** The sentinel ['None'] of the index table. *)
Definition is_sentinel (x : Dataframe.cell) : bool :=
  match x with
  | Dataframe.Str s => String.eqb s "None"
  | _ => false
  end.

(** A row that holds the sentinel in one of the listed columns. *)
Definition has_sentinel (contrasts : list string) (r : Dataframe.line) : bool :=
  existsb (fun col => is_sentinel (Dataframe.cell_of r col)) contrasts.

(** No row holds a null in the listed columns. *)
Definition no_null (cols : list string) (rs : list Dataframe.line) : Prop :=
  Forall (fun r => Forall (fun col => Dataframe.isna (Dataframe.cell_of r col) = false) cols) rs.

(** Two outcomes of the exporter that wrote the same volume files and
    ended the same way. *)
Definition same_export (x y : bids_tree * result unit) : Prop :=
  nifti x.1 = nifti y.1 /\ x.2 = y.2.

(** A step of the exporter whose files and outcome do not depend on the
    directories that exist. *)
Definition dir_blind {A} (m : stateful bids_tree A) : Prop :=
  forall t1 t2, nifti t1 = nifti t2 ->
    nifti (m t1).1 = nifti (m t2).1 /\ (m t1).2 = (m t2).2.

(** A triple for a computation on a mutable object: from a state in [P],
    a normal end leaves a state in [Q], a raise leaves a state in [E]. *)
Definition hoare {S A} (P : S -> Prop) (m : stateful S A)
    (Q : A -> S -> Prop) (E : S -> Prop) : Prop :=
  forall s, P s ->
    match m s with
    | (s', Ok x) => Q x s'
    | (s', Raise _) => E s'
    end.

(** The contrast-list attribute, empty when it was never written. *)
Definition contrast_list (attr : option (list string)) : list string :=
  default [] attr.

(** [<ns>/<name>] is a dataset of the group and holds [data]. *)
Definition holds_data (ns name : string) (data : list ndarray) (grp : group)
  : Prop :=
  exists d, get_dataset ns name grp = Ok d /\ ds_data d = data.

(** [<ns>/<name>] is a dataset of the group. *)
Definition has_dataset (ns name : string) (grp : group) : Prop :=
  exists d, get_dataset ns name grp = Ok d.

(** Every dataset of the first group is in the second, with its data. *)
Definition keeps_data (grp grp' : group) : Prop :=
  forall ns name d, get_dataset ns name grp = Ok d ->
    exists d', get_dataset ns name grp' = Ok d' /\ ds_data d' = ds_data d.

(** The contrast token is not in the list of the namespace. *)
Definition fresh_in (ns name : string) (grp : group) : Prop :=
  forall sub, grp_members grp !! ns = Some sub ->
    name ∉ contrast_list (ns_contrast sub).

(** No contrast token appears twice in a contrast list of the group. *)
Definition no_duplicate_contrast (grp : group) : Prop :=
  NoDup (contrast_list (grp_contrast grp)) /\
  forall ns sub, grp_members grp !! ns = Some sub ->
    NoDup (contrast_list (ns_contrast sub)).

(** The invariant of a subject group under the writes of the converter: no
    duplicate in the lists, and every listed token has its dataset. *)
Definition lists_ok (grp : group) : Prop :=
  no_duplicate_contrast grp /\
  (forall ns sub ct, grp_members grp !! ns = Some sub ->
     ct ∈ contrast_list (ns_contrast sub) -> is_Some (ns_datasets sub !! ct)) /\
  (forall ct, ct ∈ contrast_list (grp_contrast grp) ->
     has_dataset "inputs" ct grp).

(** The entries that [_slice_seg_pair] appends for a list of slices: one
    for each slice whose stack is not empty. *)
Definition entries (stack : BIDStoHDF5.pair_slice -> list ndarray)
    (slices : list BIDStoHDF5.pair_slice) : list ndarray :=
  omap (fun sl => BIDStoHDF5.quantize <$> head (stack sl)) slices.


(** The state of a subject group while [_load_filenames] writes the
    volumes of a contrast: the input dataset is there and the group-level
    list does not name the contrast yet. *)
Definition writing (contrast : string) (grp : group) : Prop :=
  lists_ok grp /\
  (contrast ∉ contrast_list (grp_contrast grp)) /\
  has_dataset "inputs" contrast grp.

(** The same, just after the dataset of the namespace was created and
    before the namespace list names the contrast. *)
Definition created (ns contrast : string) (grp : group) : Prop :=
  writing contrast grp /\ fresh_in ns contrast grp /\ has_dataset ns contrast grp.

(** Every subject group of the open file satisfies the invariant. *)
Definition groups_ok (st : BIDStoHDF5.loader) : Prop :=
  map_Forall (fun _ grp => lists_ok grp) (h5_groups (BIDStoHDF5.hdf5 st)).

(** A row that holds no null in the listed columns. *)
Definition filled (cols : list string) (r : Dataframe.line) : Prop :=
  Forall (fun col => Dataframe.isna (Dataframe.cell_of r col) = false) cols.

(** A filename pair as [process_subject] appends it: one input file and
    one metadata record, one target entry per target suffix with a file in
    at least one of them, and a ROI file when a ROI suffix is configured. *)
Definition well_formed_pair (a : BIDStoHDF5.converter_args)
    (fp : BIDStoHDF5.filename_pair) : Prop :=
  length (BIDStoHDF5.input_filename fp) = 1 /\
  length (BIDStoHDF5.pair_metadata fp) = 1 /\
  length (BIDStoHDF5.gt_filename fp) = length (BIDStoHDF5.target_suffix a) /\
  BIDStoHDF5.any_filename (BIDStoHDF5.gt_filename fp) = true /\
  (is_Some (BIDStoHDF5.roi_suffix a) -> is_Some (BIDStoHDF5.roi_filename fp)).

(** The indices of the slices that the slice filter retains, in increasing
    order; none without a slice filter. *)
Definition retained (a : BIDStoHDF5.converter_args)
    (slices : list BIDStoHDF5.pair_slice) : list nat :=
  match BIDStoHDF5.slice_filter_fn a with
  | Some fn =>
      fst <$> filter (fun p => fn (BIDStoHDF5.raw_input p.2)
                                  (BIDStoHDF5.raw_gt p.2) = true)
                     (imap pair slices)
  | None => []
  end.

(** The namespace is in the group and has a contrast list. *)
Definition listed (ns : string) (grp : group) : Prop :=
  exists sub, grp_members grp !! ns = Some sub /\ is_Some (ns_contrast sub).

(** A subject group that the indexer can read: it has a [slices]
    attribute, and each of its three namespaces has a contrast list. *)
Definition indexable (grp : group) : Prop :=
  is_Some (grp_slices grp) /\
  Forall (fun ns => listed ns grp) ["inputs"; "gt"; "roi"].

(** A write that keeps the [slices] attribute and the contrast lists that
    are there. *)
Definition keeps_lists (grp grp' : group) : Prop :=
  grp_slices grp' = grp_slices grp /\
  forall ns, listed ns grp -> listed ns grp'.

(** Every subject group of the open file can be read by the indexer. *)
Definition all_indexable (st : BIDStoHDF5.loader) : Prop :=
  map_Forall (fun _ grp => indexable grp) (h5_groups (BIDStoHDF5.hdf5 st)).

(** The order of [sorted] on strings. *)
Definition string_le (x y : string) : Prop := String.leb x y = true.

(** The slice selectors of the rows that [create_df] makes for a subject:
    one row per recorded slice in 2D mode with a slice filter, one row
    with all the recorded slices otherwise, of the type of the recorded
    array. *)
Definition selectors (dim : nat) (filter_slices : bool) (f : hdf5_file)
    (subject : string) : list Dataframe.cell :=
  match h5_groups f !! subject with
  | Some grp =>
      match grp_slices grp with
      | Some slices =>
          if Nat.eqb dim 2 && filter_slices
          then (if grp_slices_float grp then Dataframe.FloatIndex
                else Dataframe.Index) <$> slices
          else [if grp_slices_float grp then Dataframe.FloatIndices slices
                else Dataframe.Indices slices]
      | None => []
      end
  | None => []
  end.

(** A row of the mask of missing modalities for [n] contrasts: [n]
    entries, each 0 or 1, not all 0. *)
Definition valid_mask (n : nat) (row : list nat) : Prop :=
  length row = n /\
  Forall (fun b => b = 0 \/ b = 1) row /\
  HDF5Dataset.np_any row = true.

(** The parts of the object that [load_into_ram] keeps: the contrast
    list, the slice filter, the path, the index object, the mask, the
    columns and the number of rows of the table, and the keys of the
    status. *)
Definition same_shape (self self' : HDF5Dataset.t) : Prop :=
  HDF5Dataset.cst_lst self' = HDF5Dataset.cst_lst self /\
  HDF5Dataset.filter_slices self' = HDF5Dataset.filter_slices self /\
  HDF5Dataset.self_path_hdf5 self' = HDF5Dataset.self_path_hdf5 self /\
  HDF5Dataset.df_object self' = HDF5Dataset.df_object self /\
  HDF5Dataset.cst_matrix self' = HDF5Dataset.cst_matrix self /\
  Dataframe.columns (HDF5Dataset.dataframe self')
  = Dataframe.columns (HDF5Dataset.dataframe self) /\
  HDF5Dataset.__len__ self' = HDF5Dataset.__len__ self /\
  dom (HDF5Dataset.status self') = dom (HDF5Dataset.status self).

(** A name without ['/']. *)
Fixpoint slash_free (s : string) : bool :=
  match s with
  | EmptyString => true
  | String a s' => negb (Ascii.eqb a "/") && slash_free s'
  end.

(** The names of the container hold no ['/']: the subjects, and the
    contrasts that the namespaces list. *)
Definition names_slash_free (f : hdf5_file) : Prop :=
  map_Forall (fun subject grp =>
                slash_free subject = true /\
                map_Forall (fun _ sub =>
                              Forall (fun ct => slash_free ct = true)
                                     (contrast_list (ns_contrast sub)))
                           (grp_members grp))
             (h5_groups f).

#[global] Instance names_slash_free_dec (f : hdf5_file) :
  Decision (names_slash_free f).
Proof. unfold names_slash_free. apply _. Defined.

(** A cell of a contrast column that the access layer can read: when it
    holds a string, the string is the sentinel or the path of a dataset of
    the container. *)
Definition resolves (f : hdf5_file) (x : Dataframe.cell) : Prop :=
  forall p, x = Dataframe.Str p ->
    p = "None" \/ is_ok (HDF5Dataset.h5_lookup f p) = true.

(** A row whose cells can be read, the column of the subjects apart. *)
Definition row_resolves (f : hdf5_file) (r : Dataframe.line) : Prop :=
  forall col, col <> "Subjects" -> resolves f (Dataframe.cell_of r col).

(** The directories that the exporter makes for a subject. *)
Definition subject_dirs (path_dir sub : string) : list string :=
  [path_dir +:+ "/" +:+ sub;
   path_dir +:+ "/" +:+ sub +:+ "/anat";
   path_dir +:+ "/derivatives";
   path_dir +:+ "/derivatives/labels";
   path_dir +:+ "/derivatives/labels/" +:+ sub;
   path_dir +:+ "/derivatives/labels/" +:+ sub +:+ "/anat"].

(** Nothing of the first output tree is missing from the second. *)
Definition grows (t t' : bids_tree) : Prop :=
  directories t ⊆ directories t' /\ dom (nifti t) ⊆ dom (nifti t').

(** A path below one of the two [anat] directories of a listed subject. *)
Definition under_subjects (path_dir : string) (subjects : list string)
    (p : string) : Prop :=
  exists sub, sub ∈ subjects /\
    (String.prefix (path_dir +:+ "/" +:+ sub +:+ "/anat/") p = true \/
     String.prefix (path_dir +:+ "/derivatives/labels/" +:+ sub +:+ "/anat/") p
     = true).

(** The second output tree differs from the first only in files below the
    [anat] directories of the listed subjects. *)
Definition writes_under (path_dir : string) (subjects : list string)
    (t t' : bids_tree) : Prop :=
  forall p, nifti t' !! p <> nifti t !! p -> under_subjects path_dir subjects p.

(** The dataset that a path [<subject>/<namespace>/<contrast>] names in
    the container. *)
Definition dataset_at (f : hdf5_file) (p : string) (d : dataset) : Prop :=
  exists subject ns name grp sub,
    p = subject +:+ "/" +:+ ns +:+ "/" +:+ name /\
    slash_free subject = true /\ slash_free ns = true /\
    slash_free name = true /\
    h5_groups f !! subject = Some grp /\
    grp_members grp !! ns = Some sub /\
    ns_datasets sub !! name = Some d.

(** The data that a slice selector takes from a dataset: the slice of an
    integer index within the dataset, or the stack of the slices of an
    array of integer indices within the dataset, in strictly increasing
    order. *)
Definition data_at (d : dataset) (selector x : Dataframe.cell) : Prop :=
  match selector with
  | Dataframe.Index n =>
      exists y, ds_data d !! n = Some y /\ x = Dataframe.Plane y
  | Dataframe.Indices l =>
      Sorted lt l /\
      exists planes,
        Forall2 (fun i y => ds_data d !! i = Some y) l planes /\
        x = Dataframe.Stack planes
  | _ => False
  end.

(** What a promotion to RAM has to put in the cell of a contrast: the cell
    of the row holds the path of a dataset of the container, and [x] is
    the data of that dataset at the slice selector of the row. *)
Definition promotes (f : hdf5_file) (ct : string) (r : Dataframe.line)
    (x : Dataframe.cell) : Prop :=
  exists p d,
    Dataframe.cell_of r ct = Dataframe.Str p /\
    dataset_at f p d /\
    data_at d (Dataframe.cell_of r "Slices") x.

(** The contrasts that a call of [load_into_ram] has to promote: those of
    the list that the status knows and does not have as resident. *)
Definition to_promote (contrast_lst : list string) (self : HDF5Dataset.t)
    (ct : string) : Prop :=
  ct ∈ contrast_lst /\ HDF5Dataset.status self !! ct = Some false.

#[global] Instance to_promote_dec contrast_lst self ct :
  Decision (to_promote contrast_lst self ct).
Proof. unfold to_promote. apply _. Defined.

(** A name that h5py does not read as a path: it is not empty, it holds no
    ['/'], and it is not ['.']. *)
Definition plain_name (s : string) : bool :=
  slash_free s && negb (String.eqb s "") && negb (String.eqb s ".").

(** The file that the exporter writes for an input contrast of a subject. *)
Definition input_file (path_dir sub ct : string) : string :=
  (path_dir +:+ "/" +:+ sub +:+ "/anat") +:+ "/" +:+
  (sub +:+ "_" +:+ ct +:+ ".nii.gz").

(** ** Sample data *)

Module Sample.
Import BIDStoHDF5.

(** Four T1w subjects; the derivatives of the first two are missing. *)
Definition rows : list bids_row :=
  [BidsRow "sub-01_T1w.nii.gz" "T1w" "/data/sub-01/anat/sub-01_T1w.nii.gz";
   BidsRow "sub-02_T1w.nii.gz" "T1w" "/data/sub-02/anat/sub-02_T1w.nii.gz";
   BidsRow "sub-03_T1w.nii.gz" "T1w" "/data/sub-03/anat/sub-03_T1w.nii.gz";
   BidsRow "sub-04_T1w.nii.gz" "T1w" "/data/sub-04/anat/sub-04_T1w.nii.gz"].

Definition subjects : list string :=
  ["sub-03_T1w.nii.gz"; "sub-01_T1w.nii.gz"; "sub-04_T1w.nii.gz";
   "sub-02_T1w.nii.gz"].

(** The interpreter of the samples: an engine that refuses every pattern
    with an operator other than ['.'], and sets that enumerate their
    elements in the order of first insertion. *)
Definition engine (pat : string) : option (string -> bool) := None.
Definition in_order {A} `{EqDecision A} (l : list A) : list A := remove_dups l.

Definition label_of (subject : string) : list string :=
  ["/data/derivatives/labels/" +:+ first_field "."%char subject
     +:+ "_seg-manual.nii.gz"].

(** Two slices of two pixels for every subject, with a label on each slice
    when the subject has a label file, and no ROI. *)
Definition slices_of (fp : filename_pair) : list pair_slice :=
  let contrast := default "" (md_contrast <$> head (pair_metadata fp)) in
  let labels := omap id (gt_filename fp) in
  let md kind := SampleMetadata contrast (input_filename fp) labels (Some kind) in
  map (fun x => PairSlice [x] [x] [x]
                  (match labels with [] => [] | _ => [x] end)
                  [md "im"] [md "gt"] [] [md "im"])
      [[0%Q; 1%Q]; [1%Q; 1%Q]].

(** Every subject has its label; half of the T1w subjects are allowed. *)
Definition args_all : converter_args :=
  ConverterArgs rows label_of ["_seg-manual"] None (<["T1w" := 1 # 2]> ∅) 2
    no_choice (fun _ _ _ => true) ∅ None slices_of engine in_order in_order.

(** The same, with a balance on a contrast that no subject has. *)
Definition args_absent : converter_args :=
  ConverterArgs rows label_of ["_seg-manual"] None (<["T2w" := 1 # 2]> ∅) 2
    no_choice (fun _ _ _ => true) ∅ None slices_of engine in_order in_order.

(** The same, but sub-01 and sub-02 have no label. *)
Definition args_late : converter_args :=
  ConverterArgs rows
    (fun subject => if String.leb subject "sub-02_T1w.nii.gz" then []
                    else label_of subject)
    ["_seg-manual"] None (<["T1w" := 1 # 2]> ∅) 2
    no_choice (fun _ _ _ => true) ∅ None slices_of engine in_order in_order.

Definition pair_01 : filename_pair :=
  FilenamePair "sub-01" ["/data/sub-01/anat/sub-01_T1w.nii.gz"]
    [Some "/data/derivatives/labels/sub-01_T1w_seg-manual.nii.gz"] None
    [Metadata (BidsRow "sub-01_T1w.nii.gz" "T1w"
                 "/data/sub-01/anat/sub-01_T1w.nii.gz") "T1w" None].

Definition empty_file : hdf5_file :=
  H5File ["sub-01"] 2 ["filter_empty_input"; "filter_empty_mask"] ∅.

(** The files after the conversion of the sample subjects. *)
Definition files : gmap string hdf5_file :=
  fst (BIDStoHDF5.__init__ args_all subjects "data.hdf5" ∅).

Definition container : hdf5_file := default empty_file (files !! "data.hdf5").

Definition tot_of (r : result (gmap string nat * session)) : gmap string nat :=
  match r with Ok (tot, _) => tot | Raise _ => ∅ end.
Definition session_of (r : result (gmap string nat * session)) : session :=
  match r with Ok (_, st) => st | Raise _ => Session ∅ [] [] end.

End Sample.


Module SampleTable.
Import Dataframe.

(** A table as [pd.read_csv] may load it: the target cell of the only row
    is a null, its input cell is a path. *)
Definition with_null : table :=
  Table ["T1w"; "gt/lesion"; "Slices"; "Subjects"]
        [ <["T1w" := Str "sub-01/inputs/T1w"]>
            (<["gt/lesion" := NaN]>
               (<["Slices" := Indices [0; 1]]>
                  (<["Subjects" := Str "sub-01"]> ∅))) ].

(** A table as [create_df] builds it: sub-02 has no T2w volume. *)
Definition built : table :=
  Table ["T1w"; "T2w"; "gt"; "ROI"; "Slices"; "Subjects"]
        [ list_to_map
            [("T1w", Str "sub-01/inputs/T1w"); ("T2w", Str "sub-01/inputs/T2w");
             ("gt", Str "None"); ("ROI", Str "None");
             ("Slices", Indices [0; 1]); ("Subjects", Str "sub-01")];
          list_to_map
            [("T1w", Str "sub-02/inputs/T1w"); ("T2w", Str "None");
             ("gt", Str "None"); ("ROI", Str "None");
             ("Slices", Indices [0]); ("Subjects", Str "sub-02")] ].

End SampleTable.

Module SampleDataset.
Import Dataframe HDF5Dataset.

Definition table_of (cols : list string) : table :=
  Table (cols ++ ["gt"; "ROI"; "Slices"; "Subjects"])
        [ <["Slices" := Indices [0; 1]]>
            (<["Subjects" := Str "sub-01"]>
               (list_to_map
                  (map (fun ct => (ct, Str ("sub-01/inputs/" +:+ ct)))
                       cols))) ].

(** An object as the constructor leaves it without RAM promotion: one row,
    a mask of ones, nothing resident, no slice filter. *)
Definition dataset_of (cols : list string) : HDF5Dataset.t :=
  HDF5Dataset.Make cols false "data.hdf5"
    (Dataframe.Make 2 (cols ++ ["gt"; "ROI"]) false (Some (table_of cols)))
    (table_of cols)
    [replicate (length cols) 1]
    (list_to_map (map (fun ct => (ct, false)) (cols ++ ["gt"; "ROI"]))).

Definition one_contrast : HDF5Dataset.t := dataset_of ["T1w"].

(** The same object, built with a slice filter. *)
Definition filtered : HDF5Dataset.t :=
  HDF5Dataset.Make ["T1w"] true "data.hdf5"
    (Dataframe.Make 3 ["T1w"; "gt"; "ROI"] true (Some (table_of ["T1w"])))
    (table_of ["T1w"])
    [[1]]
    (list_to_map (map (fun ct => (ct, false)) ["T1w"; "gt"; "ROI"])).
Definition three_contrasts : HDF5Dataset.t := dataset_of ["T1w"; "T2w"; "T2star"].

(** The container of the sample object: two slices of two pixels. *)
Definition container : hdf5_file :=
  H5File ["sub-01"] 2 ["filter_empty_input"; "filter_empty_mask"]
    (<["sub-01" :=
        Group (Some [0; 1]) false (Some ["T1w"])
          (<["inputs" :=
              Namespace (Some ["T1w"])
                (<["T1w" := Dataset [[0%Q; 1%Q]; [1%Q; 1%Q]] ∅]> ∅)]> ∅)]> ∅).

End SampleDataset.

Module SampleFiltered.
Import BIDStoHDF5.

(** The sample conversion with a slice filter that retains the slices
    which carry a label. *)
Definition args : converter_args :=
  ConverterArgs Sample.rows Sample.label_of ["_seg-manual"] None
    (<["T1w" := 1 # 2]> ∅) 2 no_choice (fun _ _ _ => true) ∅
    (Some (fun _ raw_gt => match raw_gt with [] => false | _ => true end))
    Sample.slices_of Sample.engine Sample.in_order Sample.in_order.

Definition files : gmap string hdf5_file :=
  fst (BIDStoHDF5.__init__ args Sample.subjects "data.hdf5" ∅).

Definition container : hdf5_file :=
  default Sample.empty_file (files !! "data.hdf5").

(** The index table of the container, in 2D mode. *)
Definition table : Dataframe.table :=
  match Dataframe.create_df 2 true ["T1w"; "gt"; "ROI"] container with
  | Ok t => t
  | Raise _ => Dataframe.Table [] []
  end.

(** The access layer built on the sample subjects, with RAM promotion. *)
Definition params : HDF5Dataset.model_params :=
  HDF5Dataset.ModelParams "data.hdf5" "index.csv" None None None.

Definition dataset : HDF5Dataset.t :=
  match (HDF5Dataset.__init__ args ∅ Sample.subjects params ["T1w"] 2 true ∅).2 with
  | Ok self => self
  | Raise _ => SampleDataset.filtered
  end.

(** The same, with the label of T1w as target and without RAM
    promotion. *)
Definition params_gt : HDF5Dataset.model_params :=
  HDF5Dataset.ModelParams "data.hdf5" "index.csv" (Some ["T1w"]) None (Some false).

Definition dataset_gt : HDF5Dataset.t :=
  match (HDF5Dataset.__init__ args ∅ Sample.subjects params_gt ["T1w"] 2 true ∅).2 with
  | Ok self => self
  | Raise _ => SampleDataset.filtered
  end.

(** Transforms that hand back what they receive. *)
Definition transform (sample : list Dataframe.cell)
    (metadata : list HDF5Dataset.metadata) (data_type : string)
  : HDF5Dataset.sampled (list Dataframe.cell * list HDF5Dataset.metadata) :=
  HDF5Dataset.Sample (sample, metadata).

Definition update_metadata (src dst : list HDF5Dataset.metadata)
  : list HDF5Dataset.metadata := dst.

Definition np_str (x : Dataframe.cell) : string := "array".

End SampleFiltered.

Module SampleUnretained.
Import BIDStoHDF5.

(** The sample conversion with a slice filter that retains no slice. *)
Definition args : converter_args :=
  ConverterArgs Sample.rows Sample.label_of ["_seg-manual"] None
    (<["T1w" := 1 # 2]> ∅) 2 no_choice (fun _ _ _ => true) ∅
    (Some (fun _ _ => false))
    Sample.slices_of Sample.engine Sample.in_order Sample.in_order.

Definition files : gmap string hdf5_file :=
  fst (BIDStoHDF5.__init__ args Sample.subjects "data.hdf5" ∅).

(** The access layer built on it for 3D data, without RAM promotion. *)
Definition params : HDF5Dataset.model_params :=
  HDF5Dataset.ModelParams "data.hdf5" "index.csv" None None (Some false).

Definition dataset : HDF5Dataset.t :=
  match (HDF5Dataset.__init__ args ∅ Sample.subjects params ["T1w"] 3 true ∅).2 with
  | Ok self => self
  | Raise _ => SampleDataset.filtered
  end.

End SampleUnretained.

Module SamplePromotion.
Import Dataframe HDF5Dataset.

(** The first row of the sample object. *)
Definition first_row : line :=
  default ∅ (head (rows (SampleDataset.table_of ["T1w"]))).

(** A row whose path names no dataset of the sample container. *)
Definition stray_row : line :=
  <["T1w" := Str "sub-02/inputs/T1w"]>
    (<["Slices" := Indices [0]]> (<["Subjects" := Str "sub-02"]> ∅)).

(** The sample object with a slice filter and the two rows. *)
Definition two_rows : HDF5Dataset.t :=
  set_dataframe SampleDataset.filtered
    (Table (columns (SampleDataset.table_of ["T1w"])) [first_row; stray_row]).

(** The same object after a promotion of T1w, which raises on the second
    row. *)
Definition half_promoted : HDF5Dataset.t :=
  (load_contrast SampleDataset.container "T1w" two_rows).1.

End SamplePromotion.

Module SampleClean.
Import Dataframe.

(** The built table after [clean] on its two input contrasts: the row of
    sub-01. *)
Definition cleaned : table :=
  match clean ["T1w"; "T2w"] SampleTable.built with
  | Ok t => t
  | Raise _ => Table [] []
  end.

End SampleClean.

(** * Properties *)

(** ** Results and loops *)

Lemma bind_Ok {A B} (r : result A) (f : A -> result B) (b : B) :
  r ≫= f = Ok b -> exists x, r = Ok x /\ f x = Ok b.
Proof. destruct r as [x|e]; simpl; [eauto | discriminate]. Qed.

Lemma getitem_Ok {V} (d : gmap string V) (k : string) (v : V) :
  getitem d k = Ok v <-> d !! k = Some v.
Proof. unfold getitem. destruct (d !! k); split; congruence. Qed.

(** ** Contrast balance *)

Section Balance.
  Import BIDStoHDF5.
  Context (a : converter_args).

Lemma accepted_app contrast l1 l2 :
  accepted contrast (l1 ++ l2) = accepted contrast l1 + accepted contrast l2.
Proof. unfold accepted. by rewrite filter_app, length_app. Qed.

(** What one call of [is_contrast_over_threshold] does to the counter. *)
Lemma is_contrast_over_threshold_Ok cnt tot contrast cnt' over :
  is_contrast_over_threshold cnt tot contrast (contrast_balance a) = Ok (cnt', over) ->
  match contrast_balance a !! contrast with
  | Some t =>
      exists k m, cnt !! contrast = Some k /\ tot !! contrast = Some m /\
        cnt' = <[contrast := k + 1]> cnt /\
        over = Some (if Nat.eqb m 0 then true else Qltb t (true_div (k + 1) m))
  | None => cnt' = cnt /\ over = None
  end.
Proof.
  unfold is_contrast_over_threshold.
  destruct (contrast_balance a !! contrast) as [t|]; [|by inversion 1].
  intros H. apply bind_Ok in H as (k & Hk & H). apply getitem_Ok in Hk.
  apply bind_Ok in H as (k' & Hk' & H). apply getitem_Ok in Hk'.
  rewrite lookup_insert_eq in Hk'. injection Hk' as <-.
  apply bind_Ok in H as (m & Hm & H). apply getitem_Ok in Hm.
  injection H as <- <-. eauto 10.
Qed.

(** The shape of a call of [process_subject] that returns: the counter is
    the one [is_contrast_over_threshold] left, and at most one pair, of the
    subject's contrast, was appended, and only under the threshold. *)
Lemma process_subject_Ok df_subjects tot st subject st' :
  process_subject a df_subjects tot st subject = Ok st' ->
  exists row over,
    head (filter (fun r => filename r = subject) df_subjects) = Some row /\
    is_contrast_over_threshold (c st) tot (suffix row) (contrast_balance a)
      = Ok (c st', over) /\
    (filename_pairs st' = filename_pairs st \/
     default false over = false /\
     exists fp, filename_pairs st' = filename_pairs st ++ [fp] /\
                pair_contrast fp = Some (suffix row)).
Proof.
  unfold process_subject.
  destruct (filter _ df_subjects) as [|row rest]; [discriminate|].
  intros H. apply bind_Ok in H as ([cnt' over] & Hover & H).
  exists row, over. simpl in H.
  destruct (default false over) eqn:Hdef.
  { injection H as <-. simpl. eauto. }
  destruct (get_filenames a subject) as [target_filename roi_filename].
  destruct (_ || _).
  { injection H as <-. simpl. eauto. }
  apply bind_Ok in H as (bb & _ & H).
  destruct (_ && _).
  { injection H as <-. simpl. eauto. }
  injection H as <-. simpl. split; [done|]. split; [done|].
  right. split; [done|]. eexists. split; [done|]. done.
Qed.


Lemma true_div_le (k n : nat) (t : Q) :
  n <> 0 -> (true_div k n <= t)%Q ->
  (inject_Z (Z.of_nat k) <= t * inject_Z (Z.of_nat n))%Q.
Proof.
  intros Hn Hle. unfold true_div in Hle.
  assert (Hpos : (0 < inject_Z (Z.of_nat n))%Q).
  { rewrite <- (Zlt_Qlt 0). lia. }
  apply Qmult_le_compat_r with (z := inject_Z (Z.of_nat n)) in Hle;
    [|by apply Qlt_le_weak].
  rewrite Qmult_comm, Qmult_div_r in Hle; [done|].
  intros Heq. rewrite Heq in Hpos. by apply Qlt_irrefl in Hpos.
Qed.

Lemma Qltb_false (x y : Q) : Qltb x y = false -> (y <= x)%Q.
Proof.
  unfold Qltb. intros H. apply Qle_bool_iff.
  by destruct (Qle_bool y x).
Qed.

Section Invariant.
  Context (contrast : string) (t : Q) (tot : gmap string nat) (n : nat).
  Context (Hbal : contrast_balance a !! contrast = Some t).
  Context (Htot : tot !! contrast = Some n).
  Context (Hn : n <> 0).
  Context (Ht : (0 <= t)%Q).

Lemma process_subject_balanced df_subjects st subject st' :
  process_subject a df_subjects tot st subject = Ok st' ->
  balanced contrast t n st -> balanced contrast t n st'.
Proof.
  intros H (k & Hk & Hle & Hq).
  apply process_subject_Ok in H as (row & over & _ & Hover & Hpairs).
  apply is_contrast_over_threshold_Ok in Hover.
  destruct (decide (suffix row = contrast)) as [Heq|Hne].
  - rewrite Heq, Hbal in Hover.
    destruct Hover as (k' & m & Hk' & Hm & Hc & Hov).
    rewrite Hk in Hk'. injection Hk' as <-.
    rewrite Htot in Hm. injection Hm as <-.
    exists (k + 1). rewrite Hc, lookup_insert_eq. split; [done|].
    destruct Hpairs as [->|(Hunder & fp & -> & Hfp)]; [split; [lia|done]|].
    rewrite accepted_app. unfold accepted at 2 4. rewrite Heq in Hfp.
    rewrite filter_cons_True, filter_nil by done. simpl.
    split; [lia|].
    subst over. simpl in Hunder.
    destruct (Nat.eqb_spec n 0) as [|_]; [done|].
    apply Qltb_false, true_div_le in Hunder; [|done].
    eapply Qle_trans; [|exact Hunder].
    rewrite <- Zle_Qle. lia.
  - assert (Hc : c st' !! contrast = Some k).
    { destruct (contrast_balance a !! suffix row).
      - destruct Hover as (k' & m & _ & _ & -> & _).
        by rewrite lookup_insert_ne.
      - destruct Hover as [-> _]. done. }
    exists k. split; [done|].
    destruct Hpairs as [->|(_ & fp & -> & Hfp)]; [done|].
    rewrite accepted_app. unfold accepted at 2 4.
    rewrite filter_cons_False, filter_nil by congruence.
    simpl. by rewrite Nat.add_0_r.
Qed.

Lemma process_subjects_balanced df_subjects subjects st st' :
  process_subjects a df_subjects tot st subjects = Ok st' ->
  balanced contrast t n st -> balanced contrast t n st'.
Proof.
  revert st. induction subjects as [|subject rest IH]; intros st H Hinv.
  - by injection H as <-.
  - simpl in H. apply bind_Ok in H as (st1 & H1 & H).
    eapply IH; [exact H|]. by eapply process_subject_balanced.
Qed.

End Invariant.

(** A count that returns is the number of rows that the compiled
    expression matches, and is not zero. *)
Lemma count_suffix_Ok df_subjects contrast n :
  count_suffix a df_subjects contrast = Ok n ->
  exists matches,
    fullmatch a contrast = Ok matches /\
    n = length (filter (fun r => matches (suffix r) = true) df_subjects) /\
    n <> 0.
Proof.
  unfold count_suffix. intros (matches & Hm & H)%bind_Ok. exists matches.
  split; [done|].
  destruct (length (filter _ df_subjects)) as [|k]; [discriminate|].
  injection H as <-. done.
Qed.

Lemma count_suffixes_Ok df_subjects keys tot contrast :
  count_suffixes a df_subjects keys = Ok tot ->
  contrast ∈ keys ->
  exists n, tot !! contrast = Some n /\
            count_suffix a df_subjects contrast = Ok n.
Proof.
  revert tot. induction keys as [|key rest IH]; intros tot H Hin.
  - by apply elem_of_nil in Hin.
  - cbn [count_suffixes] in H.
    apply bind_Ok in H as (n & Hn & H). apply bind_Ok in H as (tot' & Hrest & H).
    injection H as <-.
    destruct (decide (contrast = key)) as [->|Hne].
    + exists n. by rewrite lookup_insert_eq.
    + rewrite lookup_insert_ne by done. apply IH; [done|].
      apply elem_of_cons in Hin as [?|?]; done.
Qed.

Lemma count_suffixes_dom df_subjects keys tot contrast :
  count_suffixes a df_subjects keys = Ok tot ->
  is_Some (tot !! contrast) -> contrast ∈ keys.
Proof.
  revert tot. induction keys as [|key rest IH]; intros tot H [n Hn].
  - injection H as <-. by rewrite lookup_empty in Hn.
  - cbn [count_suffixes] in H.
    apply bind_Ok in H as (k & _ & H). apply bind_Ok in H as (tot' & Hrest & H).
    injection H as <-.
    destruct (decide (contrast = key)) as [->|Hne]; [apply list_elem_of_here|].
    rewrite lookup_insert_ne in Hn by done.
    apply list_elem_of_further. eapply IH; eauto.
Qed.

Lemma balance_keys contrast :
  contrast ∈ (map_to_list (contrast_balance a)).*1
  <-> is_Some (contrast_balance a !! contrast).
Proof.
  rewrite list_elem_of_fmap. split.
  - intros ([k t] & -> & Hin%elem_of_map_to_list). eauto.
  - intros [t Ht]. exists (contrast, t). split; [done|].
    by apply elem_of_map_to_list.
Qed.

Lemma make_tot_Ok df_subjects tot contrast t :
  make_tot a df_subjects = Ok tot ->
  contrast_balance a !! contrast = Some t ->
  exists n, tot !! contrast = Some n /\
            count_suffix a df_subjects contrast = Ok n.
Proof.
  unfold make_tot. intros H Hbal.
  eapply count_suffixes_Ok; [done|]. apply balance_keys. eauto.
Qed.

(** On a name without operator the expression matches the name only. *)
Lemma literal_plain s : literal s = true -> re_plain s = true.
Proof.
  induction s as [|c s IH]; [done|]. simpl.
  intros [[-> _]%andb_true_iff Hs]%andb_true_iff. simpl. by apply IH.
Qed.

Lemma dot_match_literal s x :
  literal s = true -> dot_match s x = bool_decide (x = s).
Proof.
  revert x. induction s as [|c s IH]; intros x Hs.
  - destruct x; [done|]. symmetry. by apply bool_decide_eq_false_2.
  - simpl in Hs. apply andb_true_iff in Hs as [[_ Hdot]%andb_true_iff Hs].
    destruct x as [|y x].
    { symmetry. by apply bool_decide_eq_false_2. }
    cbn [dot_match]. apply negb_true_iff in Hdot. rewrite Hdot, (IH _ Hs).
    destruct (Ascii.eqb_spec c y) as [->|Hne]; simpl.
    + apply bool_decide_ext. split; [by intros ->|by intros [= ->]].
    + symmetry. apply bool_decide_eq_false_2. intros [= ? ?]. done.
Qed.

Lemma fullmatch_literal s :
  literal s = true -> fullmatch a s = Ok (dot_match s).
Proof. intros H. unfold fullmatch. by rewrite literal_plain. Qed.

End Balance.

(** A constructor that returns has selected its subjects: the session it
    returns is the one the loop over the subjects left. *)
Lemma __init___Ok (a : BIDStoHDF5.converter_args) (subject_file_lst : list string)
    (path_hdf5 : string) (fs : gmap string hdf5_file) (st : BIDStoHDF5.session) :
  (BIDStoHDF5.__init__ a subject_file_lst path_hdf5 fs).2 = Ok st ->
  exists tot, BIDStoHDF5.select_subjects a subject_file_lst = Ok (tot, st).
Proof.
  unfold BIDStoHDF5.__init__.
  destruct (BIDStoHDF5.select_subjects a subject_file_lst) as [[tot st0]|e];
    [|discriminate].
  destruct (BIDStoHDF5._load_filenames _ _ _) as [f' [[]|e]]; [|discriminate].
  simpl. intros [= <-]. eauto.
Qed.

(** C1.  For a threshold [t >= 0] configured for a contrast, the subjects
    of that contrast appended to [filename_pairs] by the loop of the
    constructor are at most [ceil(t * tot)], where [tot] is the entry of
    the contrast in the dictionary of totals, the number of its candidate
    subjects: the listed rows whose suffix the configured name matches as
    a regular expression, which for a name without operator are the listed
    rows of that contrast.  The bound covers [t = 0] and [t = 1]. *)
Theorem contrast_balance_bound (a : BIDStoHDF5.converter_args)
    (subject_file_lst : list string) (contrast : string) (t : Q)
    (tot : gmap string nat) (st : BIDStoHDF5.session) :
  BIDStoHDF5.contrast_balance a !! contrast = Some t ->
  (0 <= t)%Q ->
  BIDStoHDF5.select_subjects a subject_file_lst = Ok (tot, st) ->
  tot !! contrast = Some (candidates a subject_file_lst contrast) /\
  (Z.of_nat (accepted contrast (BIDStoHDF5.filename_pairs st))
   <= Qceiling (t * inject_Z (Z.of_nat (candidates a subject_file_lst contrast))))%Z /\
  (literal contrast = true ->
   candidates a subject_file_lst contrast
   = length (rows_of_contrast a subject_file_lst contrast)).
Proof.
  intros Hbal Ht H. unfold BIDStoHDF5.select_subjects in H.
  apply bind_Ok in H as (tot' & Htot & H).
  apply bind_Ok in H as (st' & Hrun & H). injection H as <- <-.
  destruct (make_tot_Ok a _ _ _ _ Htot Hbal) as (n & Hn & Hcount).
  apply count_suffix_Ok in Hcount as (matches & Hm & Hlen & Hpos).
  assert (Hcand : candidates a subject_file_lst contrast = n).
  { unfold candidates. by rewrite Hm, Hlen. }
  rewrite Hcand. split; [done|]. split.
  - eapply process_subjects_balanced in Hrun as (k & _ & _ & Hq); eauto.
    + apply Qceiling_resp_le in Hq. by rewrite Qceiling_Z in Hq.
    + exists 0. simpl. rewrite lookup_fmap, Hbal. simpl.
      split; [done|]. split; [done|].
      apply Qmult_le_0_compat; [done|]. rewrite <- (Zle_Qle 0). lia.
  - intros Hlit. rewrite (fullmatch_literal a _ Hlit) in Hm. injection Hm as <-.
    rewrite Hlen. unfold rows_of_contrast. f_equal.
    apply list_filter_iff. intros r.
    rewrite (dot_match_literal _ _ Hlit), bool_decide_eq_true. done.
Qed.

Lemma contrast_balance_bound_witness :
  Sample.tot_of (BIDStoHDF5.select_subjects Sample.args_all Sample.subjects)
    !! "T1w" = Some (candidates Sample.args_all Sample.subjects "T1w") /\
  (Z.of_nat (accepted "T1w"
     (BIDStoHDF5.filename_pairs
        (Sample.session_of
           (BIDStoHDF5.select_subjects Sample.args_all Sample.subjects))))
   <= Qceiling ((1 # 2) * inject_Z (Z.of_nat
                   (candidates Sample.args_all Sample.subjects "T1w"))))%Z /\
  (literal "T1w" = true ->
   candidates Sample.args_all Sample.subjects "T1w"
   = length (rows_of_contrast Sample.args_all Sample.subjects "T1w")).
Proof.
  apply (contrast_balance_bound Sample.args_all Sample.subjects "T1w" (1 # 2)).
  - reflexivity.
  - discriminate.
  - vm_compute. reflexivity.
Defined.

(** C9.  A call of [process_subject] on a subject of a balanced contrast
    that returns has incremented the counter of that contrast, accepted or
    not: the increment precedes the acceptance checks.  So rejected
    subjects use up quota: in the sample run two complete T1w subjects
    exist out of four, the threshold one half would admit two, and none is
    accepted. *)
Theorem quota_consumed_before_acceptance :
  (forall (a : BIDStoHDF5.converter_args) df_subjects tot st subject st' row t,
     head (filter (fun r => BIDStoHDF5.filename r = subject) df_subjects)
       = Some row ->
     BIDStoHDF5.contrast_balance a !! BIDStoHDF5.suffix row = Some t ->
     BIDStoHDF5.process_subject a df_subjects tot st subject = Ok st' ->
     exists k, BIDStoHDF5.c st !! BIDStoHDF5.suffix row = Some k /\
               BIDStoHDF5.c st' !! BIDStoHDF5.suffix row = Some (k + 1)) /\
  (exists a subject_file_lst tot st t n,
     BIDStoHDF5.select_subjects a subject_file_lst = Ok (tot, st) /\
     BIDStoHDF5.contrast_balance a !! "T1w" = Some t /\
     tot !! "T1w" = Some n /\
     (t * inject_Z (Z.of_nat n)
        <= inject_Z (Z.of_nat (complete_candidates a subject_file_lst "T1w")))%Q /\
     (inject_Z (Z.of_nat (accepted "T1w" (BIDStoHDF5.filename_pairs st)))
        < t * inject_Z (Z.of_nat n))%Q).
Proof.
  split.
  - intros a df_subjects tot st subject st' row t Hrow Hbal H.
    apply process_subject_Ok in H as (row' & over & Hrow' & Hover & _).
    rewrite Hrow in Hrow'. injection Hrow' as <-.
    apply is_contrast_over_threshold_Ok in Hover. rewrite Hbal in Hover.
    destruct Hover as (k & m & Hk & _ & -> & _).
    exists k. by rewrite lookup_insert_eq.
  - exists Sample.args_late, Sample.subjects,
      (Sample.tot_of (BIDStoHDF5.select_subjects Sample.args_late Sample.subjects)),
      (Sample.session_of (BIDStoHDF5.select_subjects Sample.args_late Sample.subjects)),
      (1 # 2)%Q, 4.
    split; [by vm_compute|]. split; [done|]. split; [by vm_compute|].
    split; by vm_compute.
Qed.

Lemma quota_consumed_before_acceptance_witness :
  exists k,
    BIDStoHDF5.c (BIDStoHDF5.Session (<["T1w" := 0]> ∅) [] []) !! "T1w" = Some k /\
    BIDStoHDF5.c
      (BIDStoHDF5.Session (<["T1w" := 1]> ∅) [] []) !! "T1w" = Some (k + 1).
Proof.
  apply (proj1 quota_consumed_before_acceptance Sample.args_late Sample.rows
           (<["T1w" := 4]> ∅) (BIDStoHDF5.Session (<["T1w" := 0]> ∅) [] [])
           "sub-01_T1w.nii.gz" (BIDStoHDF5.Session (<["T1w" := 1]> ∅) [] [])
           (BIDStoHDF5.BidsRow "sub-01_T1w.nii.gz" "T1w"
              "/data/sub-01/anat/sub-01_T1w.nii.gz") (1 # 2)%Q).
  - reflexivity.
  - reflexivity.
  - vm_compute. reflexivity.
Defined.


(** ** Triples *)

Section Triples.
  Context {S : Type}.

Lemma hoare_ret {A} (x : A) (Q : A -> S -> Prop) (E : S -> Prop) :
  hoare (Q x) (mret x) Q E.
Proof. by intros s H. Qed.

Lemma hoare_bind {A B} (P : S -> Prop) (Q : A -> S -> Prop)
    (R : B -> S -> Prop) (E : S -> Prop)
    (m : stateful S A) (k : A -> stateful S B) :
  hoare P m Q E -> (forall x, hoare (Q x) (k x) R E) -> hoare P (m ≫= k) R E.
Proof.
  intros Hm Hk s Hs. unfold mbind, stateful_bind. generalize (Hm s Hs).
  destruct (m s) as [s' [x|e]]; intros H; [by apply Hk|done].
Qed.

Lemma hoare_modify (P : S -> Prop) (Q : unit -> S -> Prop) (E : S -> Prop)
    (f : S -> S) :
  (forall s, P s -> Q tt (f s)) -> hoare P (modify f) Q E.
Proof. intros H s Hs. by apply H. Qed.

Lemma hoare_try_modify (P : S -> Prop) (Q : unit -> S -> Prop) (E : S -> Prop)
    (f : S -> result S) :
  (forall s s', P s -> f s = Ok s' -> Q tt s') ->
  (forall s, P s -> E s) ->
  hoare P (try_modify f) Q E.
Proof.
  intros HQ HE s Hs. unfold try_modify.
  destruct (f s) as [s'|e] eqn:Hf; [by eapply HQ|by apply HE].
Qed.

Lemma hoare_for_each {A} (I : S -> Prop) (E : S -> Prop)
    (body : A -> stateful S unit) (l : list A) :
  (forall x, hoare I (body x) (fun _ => I) E) ->
  hoare I (for_each body l) (fun _ => I) E.
Proof.
  intros Hbody. induction l as [|x l IH]; [by intros s H|].
  cbn [for_each]. eapply hoare_bind; [apply Hbody|]. intros []. exact IH.
Qed.

End Triples.


(** ** clean *)

Section Clean.
  Import Dataframe.

Lemma replace_None_idem x : replace_None (replace_None x) = replace_None x.
Proof.
  destruct x as [s| | | | | | |]; try done. unfold replace_None at 2 3.
  destruct (String.eqb s "None") eqn:E; [done|].
  unfold replace_None. by rewrite E.
Qed.

Lemma replace_line_lookup contrasts (r : line) col :
  replace_line contrasts r !! col =
    if decide (col ∈ contrasts) then replace_None <$> r !! col else r !! col.
Proof.
  induction contrasts as [|x contrasts IH].
  - rewrite decide_False; [done|]. by intros ?%elem_of_nil.
  - cbn [replace_line foldr]. fold (replace_line contrasts r).
    rewrite lookup_alter. destruct (decide (x = col)) as [->|Hne].
    + rewrite decide_True by apply list_elem_of_here. rewrite IH.
      case_decide; [|done]. destruct (r !! col) as [y|]; [|done].
      cbn. by rewrite replace_None_idem.
    + rewrite IH. destruct (decide (col ∈ contrasts)) as [Hin|Hin].
      * rewrite decide_True; [done|]. by apply list_elem_of_further.
      * rewrite decide_False; [done|]. rewrite elem_of_cons. by intros [->|?].
Qed.

Lemma replace_None_isna x :
  isna (replace_None x) = isna x || is_sentinel x.
Proof.
  destruct x as [s| | | | | | |]; try done. unfold replace_None, is_sentinel.
  by destruct (String.eqb s "None").
Qed.

(** A row without sentinel in the listed columns is left as it is. *)
Lemma replace_line_id contrasts (r : line) :
  has_sentinel contrasts r = false -> replace_line contrasts r = r.
Proof.
  intros Hno. apply map_eq. intros col. rewrite replace_line_lookup.
  case_decide as Hin; [|done].
  assert (Hcol : is_sentinel (cell_of r col) = false).
  { unfold has_sentinel in Hno.
    destruct (is_sentinel (cell_of r col)) eqn:E; [|done].
    rewrite <- Hno. symmetry. apply existsb_exists. exists col.
    split; [by apply list_elem_of_In|done]. }
  unfold cell_of in Hcol. destruct (r !! col) as [[s| | | | | | |]|]; try done.
  cbn in *. by rewrite Hcol.
Qed.

(** A row with a sentinel in a listed column holds a null there afterwards. *)
Lemma replace_line_null contrasts (r : line) :
  has_sentinel contrasts r = true ->
  exists col, col ∈ contrasts /\ isna (cell_of (replace_line contrasts r) col) = true.
Proof.
  intros Hs. apply existsb_exists in Hs as (col & Hin & Hcol).
  apply list_elem_of_In in Hin. exists col. split; [done|].
  unfold cell_of in *. rewrite replace_line_lookup, decide_True by done.
  destruct (r !! col) as [x|]; simpl in *; [|done].
  rewrite replace_None_isna, Hcol. by destruct (isna x).
Qed.

Lemma length_filter_split {A} (f : A -> bool) (l : list A) :
  length (filter (fun x => f x = false) l) =
    length l - length (filter (fun x => f x = true) l).
Proof.
  induction l as [|x l IH]; [done|].
  pose proof (length_filter (fun x => f x = true) l).
  destruct (f x) eqn:E.
  - rewrite filter_cons_False, filter_cons_True by congruence. simpl. lia.
  - rewrite filter_cons_True, filter_cons_False by congruence. simpl. lia.
Qed.

Lemma forallb_Forall {A} (f : A -> bool) (l : list A) :
  forallb f l = true <-> Forall (fun x => f x = true) l.
Proof. rewrite forallb_forall, Forall_forall. by setoid_rewrite list_elem_of_In. Qed.

Lemma dropna_replace cols contrasts (rs : list line) :
  contrasts ⊆ cols ->
  no_null cols rs ->
  filter (fun r => forallb (fun col => negb (isna (cell_of r col))) cols = true)
         (map (replace_line contrasts) rs)
  = filter (fun r => has_sentinel contrasts r = false) rs.
Proof.
  intros Hsub. induction 1 as [|r rs Hr _ IH]; [done|]. simpl.
  destruct (has_sentinel contrasts r) eqn:Hs.
  - rewrite (filter_cons_False _ r) by congruence.
    rewrite filter_cons_False; [done|].
    apply replace_line_null in Hs as (col & Hin & Hna).
    intros Hall. apply forallb_Forall in Hall.
    rewrite Forall_forall in Hall. specialize (Hall col (Hsub _ Hin)).
    by rewrite Hna in Hall.
  - rewrite (filter_cons_True _ r) by done.
    rewrite replace_line_id by done. rewrite filter_cons_True; [by f_equal|].
    apply forallb_Forall. eapply Forall_impl; [exact Hr|].
    intros col Hc. simpl in Hc. by rewrite Hc.
Qed.

(** *** The tables that [create_df] builds hold no null *)

Lemma filled_insert cols (r : line) k x :
  isna x = false -> filled cols r -> filled cols (<[k := x]> r).
Proof.
  intros Hx Hr. unfold filled in *. eapply Forall_impl; [exact Hr|].
  intros col Hcol. simpl in *. unfold cell_of in *.
  destruct (decide (k = col)) as [->|Hne].
  - by rewrite lookup_insert_eq.
  - by rewrite lookup_insert_ne.
Qed.

Lemma foldl_filled {A} cols (step : line -> A -> line) (l : list A) :
  (forall ln x, filled cols ln -> filled cols (step ln x)) ->
  forall ln, filled cols ln -> filled cols (foldl step ln l).
Proof.
  intros Hstep. induction l as [|x l IH]; intros ln Hln; [done|].
  cbn [foldl]. by apply IH, Hstep.
Qed.

Lemma process_key_filled cols key grp (ln ln' : line) subject col_names :
  process_key key grp ln subject col_names = Ok ln' ->
  filled cols ln -> filled cols ln'.
Proof.
  unfold process_key. destruct (grp_members grp !! key) as [inputs|]; [|discriminate].
  destruct (ns_contrast inputs) as [attr|]; [|discriminate].
  intros [= <-]. apply foldl_filled. intros ln0 contrast Hln0.
  destruct (String.eqb key "inputs").
  - case_bool_decide; [by apply filled_insert|done].
  - apply foldl_filled; [|done]. intros ln1 col Hln1.
    destruct (contains col _); [by apply filled_insert|done].
Qed.

Lemma process_line_filled dim flt cols rs rs' grp (ln : line) subject col_names :
  process_line dim flt rs grp ln subject col_names = Ok rs' ->
  filled cols ln -> Forall (filled cols) rs -> Forall (filled cols) rs'.
Proof.
  unfold process_line. intros H Hln Hrs.
  apply bind_Ok in H as (ln1 & H1 & H). apply bind_Ok in H as (ln2 & H2 & H).
  apply bind_Ok in H as (ln3 & H3 & H).
  assert (Hln3 : filled cols ln3).
  { eapply process_key_filled; [exact H3|]. eapply process_key_filled; [exact H2|].
    by eapply process_key_filled. }
  destruct (grp_slices grp) as [slices|]; [|discriminate].
  assert (Harr : isna (index_array (grp_slices_float grp) slices) = false)
    by (by destruct (grp_slices_float grp)).
  assert (Hsc : forall n, isna (index_scalar (grp_slices_float grp) n) = false)
    by (intros n; by destruct (grp_slices_float grp)).
  simpl in H.
  destruct (_ && _); injection H as <-; apply Forall_app; (split; [done|]).
  - apply Forall_forall. intros r Hr.
    apply list_elem_of_In, in_map_iff in Hr as (n & <- & _).
    apply filled_insert; [done|]. by apply filled_insert.
  - constructor; [|done]. by apply filled_insert.
Qed.

Lemma empty_line_filled contrasts subject :
  filled (dict_keys (contrasts ++ ["Slices"]) ++ ["Subjects"])
    (<["Subjects" := Str subject]>
       (<["Slices" := Str "None"]>
          (list_to_map (map (fun col => (col, Str "None")) contrasts)))).
Proof.
  unfold filled. apply Forall_forall. intros col Hcol. unfold cell_of.
  destruct (decide ("Subjects" = col)) as [<-|Hs]; [by rewrite lookup_insert_eq|].
  rewrite lookup_insert_ne by done.
  destruct (decide ("Slices" = col)) as [<-|Hl]; [by rewrite lookup_insert_eq|].
  rewrite lookup_insert_ne by done.
  destruct (list_to_map _ !! col) as [x|] eqn:Hx.
  - apply elem_of_list_to_map_2, list_elem_of_In, in_map_iff in Hx
      as (c & [= _ <-] & _). done.
  - exfalso. apply not_elem_of_list_to_map in Hx. apply Hx.
    apply elem_of_app in Hcol as [Hcol|Hcol%list_elem_of_singleton]; [|done].
    unfold dict_keys in Hcol.
    rewrite elem_of_reverse, elem_of_remove_dups, elem_of_reverse in Hcol.
    apply elem_of_app in Hcol as [Hcol|Hcol%list_elem_of_singleton]; [|done].
    apply list_elem_of_fmap. exists (col, Str "None"). split; [done|].
    apply list_elem_of_In, in_map_iff. exists col. split; [done|].
    by apply list_elem_of_In.
Qed.

(** Every table built from a container is without null: its cells are
    path strings, the sentinel, slice selectors and subject names. *)
Lemma create_df_no_null dim flt contrasts (f : hdf5_file) (t : table) :
  create_df dim flt contrasts f = Ok t -> no_null (columns t) (rows t).
Proof.
  unfold create_df. intros (rs & Hrs & [= <-])%bind_Ok. simpl.
  set (cols := dict_keys (contrasts ++ ["Slices"]) ++ ["Subjects"]) in *.
  unfold no_null. change (Forall (filled cols) rs).
  revert rs Hrs.
  assert (Hgen : forall subjects (acc : result (list line)) rs,
            (forall rs0, acc = Ok rs0 -> Forall (filled cols) rs0) ->
            foldl (fun acc subject =>
                     rows ← acc;
                     grp ← getitem (h5_groups f) subject;
                     let ln := <["Subjects" := Str subject]>
                                 (<["Slices" := Str "None"]>
                                    (list_to_map
                                       (map (fun col => (col, Str "None")) contrasts)))
                     in
                     process_line dim flt rows grp ln subject cols)
                  acc subjects = Ok rs ->
            Forall (filled cols) rs).
  { induction subjects as [|subject subjects IH]; intros acc rs Hacc H.
    - by apply Hacc.
    - cbn [foldl] in H. eapply IH; [|exact H].
      intros rs0 (rs1 & -> & (grp & _ & Hline)%bind_Ok)%bind_Ok.
      eapply process_line_filled; [exact Hline| |by apply Hacc].
      apply empty_line_filled. }
  intros rs Hrs. eapply Hgen; [|exact Hrs]. by intros rs0 [= <-].
Qed.

End Clean.

(** C2, as the code has it.  On a table that holds no null before the
    call, [clean] keeps the columns, and keeps exactly, and unchanged, the
    rows without sentinel in a listed column: with [k] rows of which [m]
    hold the sentinel in a listed column, [k - m] rows remain, none of them
    with a null in a listed column, and the cells of the other columns play
    no part in the selection. *)
Theorem clean_drops_sentinel_rows (contrasts : list string)
    (t t' : Dataframe.table) :
  no_null (Dataframe.columns t) (Dataframe.rows t) ->
  Dataframe.clean contrasts t = Ok t' ->
  Dataframe.columns t' = Dataframe.columns t /\
  Dataframe.rows t' =
    filter (fun r => has_sentinel contrasts r = false) (Dataframe.rows t) /\
  length (Dataframe.rows t') =
    length (Dataframe.rows t) -
    length (filter (fun r => has_sentinel contrasts r = true) (Dataframe.rows t)) /\
  no_null contrasts (Dataframe.rows t').
Proof.
  intros Hnull H. unfold Dataframe.clean in H.
  destruct (forallb _ contrasts) eqn:Hcols; [|discriminate].
  injection H as <-. simpl.
  assert (Hsub : contrasts ⊆ Dataframe.columns t).
  { intros col Hin. apply forallb_Forall in Hcols.
    rewrite Forall_forall in Hcols. by eapply bool_decide_eq_true_1, Hcols. }
  rewrite dropna_replace by done.
  split; [done|]. split; [done|]. split; [apply length_filter_split|].
  unfold no_null in *. apply Forall_forall. intros r Hr.
  apply list_elem_of_filter in Hr as [_ Hr].
  rewrite Forall_forall in Hnull. specialize (Hnull r Hr).
  apply Forall_forall. intros col Hcol.
  rewrite Forall_forall in Hnull. by apply Hnull, Hsub.
Qed.

Lemma clean_drops_sentinel_rows_witness :
  Dataframe.columns
    (Dataframe.Table (Dataframe.columns SampleTable.built)
                     (take 1 (Dataframe.rows SampleTable.built)))
    = Dataframe.columns SampleTable.built /\
  Dataframe.rows
    (Dataframe.Table (Dataframe.columns SampleTable.built)
                     (take 1 (Dataframe.rows SampleTable.built)))
    = filter (fun r => has_sentinel ["T1w"; "T2w"] r = false)
             (Dataframe.rows SampleTable.built) /\
  length (Dataframe.rows
    (Dataframe.Table (Dataframe.columns SampleTable.built)
                     (take 1 (Dataframe.rows SampleTable.built))))
    = length (Dataframe.rows SampleTable.built) -
      length (filter (fun r => has_sentinel ["T1w"; "T2w"] r = true)
                     (Dataframe.rows SampleTable.built)) /\
  no_null ["T1w"; "T2w"]
    (Dataframe.rows
       (Dataframe.Table (Dataframe.columns SampleTable.built)
                        (take 1 (Dataframe.rows SampleTable.built)))).
Proof.
  apply (clean_drops_sentinel_rows ["T1w"; "T2w"] SampleTable.built).
  - unfold no_null. repeat constructor.
  - vm_compute. reflexivity.
Defined.

(** C2 as stated fails: the only row of the table holds no sentinel in the
    listed column, so that [k = 1] and [m = 0], and it is dropped for the
    null it holds in a column that is not listed: no row remains, not
    [k - m] rows. *)
Lemma clean_drops_row_for_unlisted_column :
  exists t',
    Dataframe.clean ["T1w"] SampleTable.with_null = Ok t' /\
    Forall (fun r => has_sentinel ["T1w"] r = false)
           (Dataframe.rows SampleTable.with_null) /\
    Dataframe.rows t' = [] /\
    length (Dataframe.rows t') <>
      length (Dataframe.rows SampleTable.with_null) -
      length (filter (fun r => has_sentinel ["T1w"] r = true)
                     (Dataframe.rows SampleTable.with_null)).
Proof.
  eexists. split; [reflexivity|]. split; [by repeat constructor|].
  split; [reflexivity|]. by vm_compute.
Qed.


(** ** Missing modalities *)

Section Update.
  Import HDF5Dataset.

Lemma setitem_Ok (l : list nat) i x l' :
  setitem l i x = Ok l' <-> i < length l /\ l' = <[i := x]> l.
Proof.
  unfold setitem. case_bool_decide; split.
  - by intros [= <-].
  - by intros [_ ->].
  - discriminate.
  - intros [? _]. lia.
Qed.

Lemma np_any_true (l : list nat) :
  np_any l = true <-> exists i b, l !! i = Some b /\ b <> 0.
Proof.
  unfold np_any. rewrite existsb_exists. split.
  - intros (b & Hin & Hb). apply list_elem_of_In, list_elem_of_lookup in Hin as [i Hi].
    exists i, b. split; [done|]. by destruct b.
  - intros (i & b & Hi & Hb). exists b. split.
    + apply list_elem_of_In, list_elem_of_lookup. eauto.
    + by destruct b.
Qed.

(** The row that [update] stores has a nonzero entry. *)
Lemma missing_mod_any p n d row :
  missing_mod p n d = Ok row -> np_any row = true.
Proof.
  unfold missing_mod. destruct (_ && _); [|discriminate].
  destruct (np_any (choice d)) eqn:Hany; simpl.
  - by intros [= <-].
  - intros [Hlt ->]%setitem_Ok. apply np_any_true.
    exists (randint d), 1. split; [|done]. by apply list_lookup_insert_eq.
Qed.

(** With [p = 0] the stored row is all ones. *)
Lemma missing_mod_p_zero n d :
  possible_choice 0 n (choice d) -> n <> 0 ->
  missing_mod 0 n d = Ok (replicate n 1).
Proof.
  intros [Hlen Hall] Hn. unfold missing_mod. simpl.
  assert (Hones : choice d = replicate n 1).
  { rewrite <- Hlen. clear Hlen Hn. generalize dependent (choice d).
    intros l Hall. induction Hall as [|b l Hb _ IH]; [done|].
    simpl. rewrite <- IH. destruct Hb as [[_ Hlt]|[-> _]]; [|done].
    by apply Qlt_irrefl in Hlt. }
  rewrite Hones. destruct n; [done|]. done.
Qed.

(** When every contrast was drawn missing, the index forced back on is the
    outcome of [randint(2)]. *)
Lemma missing_mod_forced p n d row :
  np_any (choice d) = false ->
  missing_mod p n d = Ok row ->
  randint d < n /\ row = <[randint d := 1]> (replicate n 0).
Proof.
  unfold missing_mod. intros ->. destruct (_ && _); [|discriminate].
  simpl. intros [Hlt ->]%setitem_Ok. by rewrite length_replicate in Hlt.
Qed.

(** The rows that a completed loop of [update] has visited hold a nonzero
    entry; the other rows are as before. *)
Lemma update_rows_Ok p n rng count : forall idx (m m' : list (list nat)),
  update_rows p n rng idx count m = (m', Ok tt) ->
  length m' = length m /\
  (forall i row, m' !! i = Some row ->
     if bool_decide (idx <= i < idx + count) then np_any row = true
     else m !! i = Some row).
Proof.
  induction count as [|count IH]; intros idx m m' H.
  - injection H as <-. split; [done|]. intros i row Hrow.
    rewrite bool_decide_eq_false_2 by lia. done.
  - cbn [update_rows] in H. unfold mbind, stateful_bind, try_modify in H.
    destruct (missing_mod p n (rng idx)) as [new|e] eqn:Hnew; [|discriminate].
    cbn in H. case_bool_decide as Hidx; [|discriminate].
    apply IH in H as [Hlen Hrows]. rewrite length_insert in Hlen.
    split; [done|]. intros i row Hrow. specialize (Hrows i row Hrow).
    destruct (decide (i = idx)) as [->|Hne].
    + rewrite bool_decide_eq_true_2 by lia.
      rewrite bool_decide_eq_false_2 in Hrows by lia.
      rewrite list_lookup_insert_eq in Hrows by done.
      injection Hrows as <-. by eapply missing_mod_any.
    + case_bool_decide.
      * by rewrite bool_decide_eq_true_2 by lia.
      * rewrite bool_decide_eq_false_2 by lia.
        by rewrite list_lookup_insert_ne in Hrows.
Qed.

(** After a call of [update] that returns, no row of the mask is all
    zero. *)
Lemma update_Ok_any p rng (self self' : HDF5Dataset.t) :
  update "Missing" p rng self = (self', Ok tt) ->
  length (cst_matrix self) = __len__ self ->
  Forall (fun row => np_any row = true) (cst_matrix self').
Proof.
  unfold update. simpl.
  destruct (update_rows _ _ _ _ _ _) as [m out] eqn:Hrows.
  intros [= <- ->] Hlen. simpl.
  apply update_rows_Ok in Hrows as [Hlen' Hrows].
  apply Forall_lookup. intros i row Hrow.
  specialize (Hrows i row Hrow).
  apply lookup_lt_Some in Hrow.
  rewrite bool_decide_eq_true_2 in Hrows by lia. done.
Qed.

End Update.

(** C10.  When the draw of a row is all zeros, the index forced back on is
    the outcome of [randint(2)], 0 or 1, whatever the number of contrasts:
    a contrast of index 2 or more stays off.  With exactly one contrast, a
    positive [p] and at least one row, some outcome of the generator makes
    [update] write index 1 of a mask of length 1, and the call raises
    IndexError. *)
Theorem forced_index_is_zero_or_one :
  (forall p n d row,
     HDF5Dataset.possible_draw p n d ->
     HDF5Dataset.np_any (HDF5Dataset.choice d) = false ->
     HDF5Dataset.missing_mod p n d = Ok row ->
     HDF5Dataset.randint d < 2 /\
     row = <[HDF5Dataset.randint d := 1]> (replicate n 0) /\
     forall j, 2 <= j -> j < n -> row !! j = Some 0) /\
  (forall (self : HDF5Dataset.t) ct p,
     HDF5Dataset.cst_lst self = [ct] ->
     HDF5Dataset.__len__ self <> 0 ->
     (0 < p)%Q -> (p <= 1)%Q ->
     exists rng,
       (forall idx, HDF5Dataset.possible_draw p 1 (rng idx)) /\
       HDF5Dataset.missing_mod p 1 (rng 0) = Raise IndexError /\
       (HDF5Dataset.update "Missing" p rng self).2 = Raise IndexError).
Proof.
  split.
  - intros p n d row [_ Hr] Hzero H.
    apply missing_mod_forced in H as [Hlt ->]; [|done].
    split; [done|]. split; [done|]. intros j Hj Hjn.
    rewrite list_lookup_insert_ne by lia.
    by apply lookup_replicate_2.
  - intros self ct p Hcst Hlen Hp Hp1.
    exists (fun _ => HDF5Dataset.Draw [0] 1).
    assert (Hmod : HDF5Dataset.missing_mod p 1 (HDF5Dataset.Draw [0] 1)
                   = Raise IndexError).
    { unfold HDF5Dataset.missing_mod.
      assert (Qle_bool 0 p = true) as -> by by apply Qle_bool_iff, Qlt_le_weak.
      assert (Qle_bool p 1 = true) as -> by by apply Qle_bool_iff.
      done. }
    split; [|split; [done|]].
    + intros _. split; [|simpl; lia]. split; [done|].
      constructor; [|constructor]. by left.
    + unfold HDF5Dataset.update. simpl. rewrite Hcst. simpl.
      destruct (HDF5Dataset.__len__ self) as [|k]; [done|]. simpl.
      unfold mbind, stateful_bind, try_modify. simpl.
      by rewrite Hmod.
Qed.

Lemma forced_index_is_zero_or_one_witness :
  HDF5Dataset.randint (HDF5Dataset.Draw [0; 0; 0] 1) < 2 /\
  [0; 1; 0] = <[HDF5Dataset.randint (HDF5Dataset.Draw [0; 0; 0] 1) := 1]>
                (replicate 3 0) /\
  forall j, 2 <= j -> j < 3 -> [0; 1; 0] !! j = Some 0.
Proof.
  apply (proj1 forced_index_is_zero_or_one 1%Q 3
           (HDF5Dataset.Draw [0; 0; 0] 1) [0; 1; 0]).
  - split; [split; [reflexivity|]|simpl; lia].
    repeat constructor; left; split; reflexivity.
  - reflexivity.
  - reflexivity.
Defined.

(** With three contrasts and [p = 1], the row that is stored has its one
    at index 0 or at index 1. *)
Lemma missing_mod_three d :
  HDF5Dataset.possible_draw 1 3 d ->
  HDF5Dataset.missing_mod 1 3 d = Ok [1; 0; 0] \/
  HDF5Dataset.missing_mod 1 3 d = Ok [0; 1; 0].
Proof.
  destruct d as [l r]. intros [[Hlen Hall] Hr]. simpl in *.
  assert (Hl : l = [0; 0; 0]).
  { destruct l as [|b1 [|b2 [|b3 [|]]]]; try discriminate.
    repeat match goal with
           | H : Forall _ (_ :: _) |- _ =>
               apply Forall_cons in H as [[[-> _]|[_ Hlt]] H]; [|done]
           end.
    done. }
  subst l. destruct r as [|[|r]]; [by left|by right|lia].
Qed.

(** C3 on the code.  With three contrasts and [p = 1] the contrast that
    [update] forces back on is the first or the second, never the third, so
    the choice is not uniform over the configured contrasts; with one
    contrast the outcome 1 of [randint(2)] makes [update] raise IndexError,
    and no mask is stored for the row. *)
Theorem update_missing_forces_first_two_only :
  (forall rng,
     HDF5Dataset.possible_draw 1 3 (rng 0) ->
     let self := (HDF5Dataset.update "Missing" 1 rng SampleDataset.three_contrasts).1 in
     HDF5Dataset.cst_matrix self = [[1; 0; 0]] \/
     HDF5Dataset.cst_matrix self = [[0; 1; 0]]) /\
  HDF5Dataset.update "Missing" 1 (fun _ => HDF5Dataset.Draw [0] 1)
    SampleDataset.one_contrast
  = (SampleDataset.one_contrast, Raise IndexError).
Proof.
  split; [|reflexivity].
  intros rng Hrng. pose proof (missing_mod_three (rng 0) Hrng) as H.
  unfold HDF5Dataset.update.
  change (String.eqb "Missing" "Missing") with true. cbv iota.
  change (length (HDF5Dataset.cst_lst SampleDataset.three_contrasts)) with 3.
  change (HDF5Dataset.__len__ SampleDataset.three_contrasts) with 1.
  change (HDF5Dataset.cst_matrix SampleDataset.three_contrasts) with [[1; 1; 1]].
  cbn [HDF5Dataset.update_rows]. unfold mbind, stateful_bind, try_modify.
  destruct H as [-> | ->]; cbn; eauto.
Qed.

Lemma update_missing_forces_first_two_only_witness :
  HDF5Dataset.cst_matrix
    (HDF5Dataset.update "Missing" 1 (fun _ => HDF5Dataset.Draw [0; 0; 0] 0)
       SampleDataset.three_contrasts).1 = [[1; 0; 0]] \/
  HDF5Dataset.cst_matrix
    (HDF5Dataset.update "Missing" 1 (fun _ => HDF5Dataset.Draw [0; 0; 0] 0)
       SampleDataset.three_contrasts).1 = [[0; 1; 0]].
Proof.
  apply (proj1 update_missing_forces_first_two_only
           (fun _ => HDF5Dataset.Draw [0; 0; 0] 0)).
  split; [split; [reflexivity|]|simpl; lia].
  repeat constructor; left; split; reflexivity.
Defined.


(** ** RAM promotion *)

Section Promotion.
  Import Dataframe HDF5Dataset.

Lemma set_status_id (self : HDF5Dataset.t) : set_status self (status self) = self.
Proof. by destruct self. Qed.

Lemma set_dataframe_id (self : HDF5Dataset.t) :
  set_dataframe self (Table (columns (dataframe self)) (rows (dataframe self)))
  = self.
Proof. destruct self as [? ? ? ? [? ?] ? ?]. done. Qed.

(** Without a slice filter the loop over the rows reads and writes nothing. *)
Lemma promote_rows_unfiltered f cols ct rs :
  promote_rows false f cols ct rs = (rs, Ok tt).
Proof. induction rs as [|r rs IH]; [done|]. simpl. by rewrite IH. Qed.

(** With a slice filter, a loop that completes has put in every row the
    data read from the container at the row's selector. *)
Lemma promote_rows_filtered f cols ct rs rs' :
  promote_rows true f cols ct rs = (rs', Ok tt) ->
  Forall2 (fun r r' => exists x, read_cell f cols r ct = Ok x /\ r' = <[ct := x]> r)
          rs rs'.
Proof.
  revert rs'. induction rs as [|r rs IH]; intros rs' H.
  - injection H as <-. constructor.
  - simpl in H. destruct (read_cell f cols r ct) as [x|e] eqn:Hx; [|discriminate].
    destruct (promote_rows true f cols ct rs) as [rest out] eqn:Hrest.
    injection H as <- ->. constructor; [eauto|]. by apply IH.
Qed.

(** With a slice filter, when every row can be read, the loop completes. *)
Lemma promote_rows_total f cols ct rs :
  Forall (fun r => is_ok (read_cell f cols r ct) = true) rs ->
  exists rs', promote_rows true f cols ct rs = (rs', Ok tt).
Proof.
  induction 1 as [|r rs Hr _ [rs' IH]]; [by eexists|].
  simpl. destruct (read_cell f cols r ct) as [x|e]; [|discriminate].
  rewrite IH. by eexists.
Qed.

(** A contrast that is already resident: nothing changes. *)
Lemma load_contrast_resident f ct (self : HDF5Dataset.t) :
  status self !! ct = Some true -> load_contrast f ct self = (self, Ok tt).
Proof.
  intros H. unfold load_contrast. rewrite H.
  by rewrite insert_id, set_status_id.
Qed.

(** A known contrast that is not resident, with a slice filter and rows
    that can all be read: the call returns, every row has received the data
    of its selector, and the contrast is resident. *)
Lemma load_contrast_filtered f ct (self : HDF5Dataset.t) :
  filter_slices self = true ->
  status self !! ct = Some false ->
  Forall (fun r => is_ok (read_cell f (columns (dataframe self)) r ct) = true)
         (rows (dataframe self)) ->
  exists self',
    load_contrast f ct self = (self', Ok tt) /\
    status self' = <[ct := true]> (status self) /\
    columns (dataframe self') = columns (dataframe self) /\
    Forall2 (fun r r' => exists x,
               read_cell f (columns (dataframe self)) r ct = Ok x /\
               r' = <[ct := x]> r)
            (rows (dataframe self)) (rows (dataframe self')).
Proof.
  intros Hf Hs Hread. unfold load_contrast. rewrite Hs, Hf.
  destruct (promote_rows_total _ _ _ _ Hread) as [rs Hrows]. rewrite Hrows.
  eexists. split; [done|]. simpl.
  split; [done|]. split; [done|]. by apply promote_rows_filtered.
Qed.

(** A known contrast that is not resident, without slice filter: the table
    is left as it is, and the contrast is marked resident all the same. *)
Lemma load_contrast_unfiltered f ct (self : HDF5Dataset.t) :
  filter_slices self = false ->
  status self !! ct = Some false ->
  load_contrast f ct self = (set_status self (<[ct := true]> (status self)), Ok tt).
Proof.
  intros Hf Hs. unfold load_contrast. rewrite Hs, Hf.
  rewrite promote_rows_unfiltered. by rewrite set_dataframe_id.
Qed.

(** Promotion of contrasts that are all resident already is a no-op. *)
Lemma load_into_ram_resident fs f contrast_lst (self : HDF5Dataset.t) :
  fs !! self_path_hdf5 self = Some f ->
  Forall (fun ct => status self !! ct = Some true) contrast_lst ->
  load_into_ram fs contrast_lst self = (self, Ok tt).
Proof.
  intros Hfs Hall. unfold load_into_ram. rewrite Hfs.
  induction Hall as [|ct rest Hct _ IH]; [done|].
  cbn [for_each]. unfold mbind, stateful_bind.
  by rewrite load_contrast_resident.
Qed.

End Promotion.

(** ** Reuse of an existing container *)

(** With a container file at the path, the constructor leaves the files as
    they are. *)
Lemma init_keeps_existing_container (a : BIDStoHDF5.converter_args)
    (csv : gmap string Dataframe.table) (subject_file_lst : list string)
    (mp : HDF5Dataset.model_params) (cst_lst : list string) (dim : nat)
    (complet : bool) (fs : gmap string hdf5_file) :
  is_Some (fs !! HDF5Dataset.path_hdf5 mp) ->
  (HDF5Dataset.__init__ a csv subject_file_lst mp cst_lst dim complet fs).1 = fs.
Proof. intros [f Hf]. unfold HDF5Dataset.__init__. by rewrite Hf. Qed.

(** C6.  When a container file exists at the configured path, the
    constructor of the access layer leaves the container files as they
    are, and what it returns does not depend on the BIDS data frame, the
    subject list or any other input of the converter: the converter is not
    run.  When the file is absent and the subjects are selected without an
    exception, the file exists afterwards, so a second construction on the
    resulting files changes nothing. *)
Theorem existing_container_is_reused (a : BIDStoHDF5.converter_args)
    (csv : gmap string Dataframe.table) (subject_file_lst : list string)
    (mp : HDF5Dataset.model_params) (cst_lst : list string) (dim : nat)
    (complet : bool) (fs : gmap string hdf5_file) :
  is_Some (fs !! HDF5Dataset.path_hdf5 mp) ->
  (HDF5Dataset.__init__ a csv subject_file_lst mp cst_lst dim complet fs).1 = fs /\
  (forall a' subject_file_lst',
     BIDStoHDF5.slice_filter_fn a' = BIDStoHDF5.slice_filter_fn a ->
     HDF5Dataset.__init__ a' csv subject_file_lst' mp cst_lst dim complet fs
     = HDF5Dataset.__init__ a csv subject_file_lst mp cst_lst dim complet fs).
Proof.
  intros Hf. split; [by apply init_keeps_existing_container|].
  destruct Hf as [f Hf]. intros a' l' Hfilter.
  unfold HDF5Dataset.__init__. by rewrite Hf, Hfilter.
Qed.

Lemma existing_container_is_reused_witness :
  (HDF5Dataset.__init__ Sample.args_all ∅ Sample.subjects
     (HDF5Dataset.ModelParams "data.hdf5" "index.csv" None None (Some false))
     ["T1w"] 2 true (<["data.hdf5" := SampleDataset.container]> ∅)).1
  = <["data.hdf5" := SampleDataset.container]> ∅ /\
  (forall a' subject_file_lst',
     BIDStoHDF5.slice_filter_fn a' = BIDStoHDF5.slice_filter_fn Sample.args_all ->
     HDF5Dataset.__init__ a' ∅ subject_file_lst'
       (HDF5Dataset.ModelParams "data.hdf5" "index.csv" None None (Some false))
       ["T1w"] 2 true (<["data.hdf5" := SampleDataset.container]> ∅)
     = HDF5Dataset.__init__ Sample.args_all ∅ Sample.subjects
         (HDF5Dataset.ModelParams "data.hdf5" "index.csv" None None (Some false))
         ["T1w"] 2 true (<["data.hdf5" := SampleDataset.container]> ∅)).
Proof.
  apply (existing_container_is_reused Sample.args_all ∅ Sample.subjects
           (HDF5Dataset.ModelParams "data.hdf5" "index.csv" None None (Some false))
           ["T1w"] 2 true (<["data.hdf5" := SampleDataset.container]> ∅)).
  exists SampleDataset.container. reflexivity.
Defined.

(** A conversion whose subject selection returns leaves a file at the
    path, whatever happens while the volumes are written. *)
Lemma conversion_creates_container (a : BIDStoHDF5.converter_args)
    (subject_file_lst : list string) (path_hdf5 : string)
    (fs : gmap string hdf5_file) :
  is_ok (BIDStoHDF5.select_subjects a subject_file_lst) = true ->
  is_Some ((BIDStoHDF5.__init__ a subject_file_lst path_hdf5 fs).1 !! path_hdf5).
Proof.
  unfold BIDStoHDF5.__init__.
  destruct (BIDStoHDF5.select_subjects a subject_file_lst) as [[tot st]|e];
    [|discriminate].
  intros _. destruct (BIDStoHDF5._load_filenames _ _ _) as [f' r]. simpl.
  rewrite lookup_insert_eq. eauto.
Qed.

(** Constructing the access layer twice: the second construction leaves
    the files of the first as they are. *)
Lemma construction_idempotent (a : BIDStoHDF5.converter_args)
    (csv : gmap string Dataframe.table) (subject_file_lst : list string)
    (mp : HDF5Dataset.model_params) (cst_lst : list string) (dim : nat)
    (complet : bool) (fs : gmap string hdf5_file) :
  is_ok (BIDStoHDF5.select_subjects a subject_file_lst) = true ->
  let fs1 := (HDF5Dataset.__init__ a csv subject_file_lst mp cst_lst dim complet fs).1 in
  (HDF5Dataset.__init__ a csv subject_file_lst mp cst_lst dim complet fs1).1 = fs1.
Proof.
  intros Hsel fs1. apply init_keeps_existing_container. subst fs1.
  unfold HDF5Dataset.__init__.
  destruct (fs !! HDF5Dataset.path_hdf5 mp) as [f|] eqn:Hf; simpl.
  - rewrite Hf. eauto.
  - pose proof (conversion_creates_container a subject_file_lst
                  (HDF5Dataset.path_hdf5 mp) fs Hsel) as Hc.
    by destruct (BIDStoHDF5.__init__ a subject_file_lst _ fs).
Qed.

(** The converter itself does not look at what the path holds: the file it
    leaves is the same on any file system. *)
Lemma converter_overwrites_container (a : BIDStoHDF5.converter_args)
    (subject_file_lst : list string) (path_hdf5 : string)
    (fs fs' : gmap string hdf5_file) :
  is_ok (BIDStoHDF5.select_subjects a subject_file_lst) = true ->
  (BIDStoHDF5.__init__ a subject_file_lst path_hdf5 fs).1 !! path_hdf5
  = (BIDStoHDF5.__init__ a subject_file_lst path_hdf5 fs').1 !! path_hdf5.
Proof.
  unfold BIDStoHDF5.__init__.
  destruct (BIDStoHDF5.select_subjects a subject_file_lst) as [[tot st]|e];
    [|discriminate].
  intros _. destruct (BIDStoHDF5._load_filenames _ _ _) as [f' r]. simpl.
  by rewrite !lookup_insert_eq.
Qed.


(** ** Export *)

Section Exporter.

Lemma dir_blind_ret {A} (x : A) : dir_blind (mret x).
Proof. by intros t1 t2 H. Qed.

Lemma dir_blind_lift {A} (r : result A) : dir_blind (lift (fun _ => r)).
Proof. by intros t1 t2 H. Qed.

Lemma dir_blind_save dir name data : dir_blind (modify (save dir name data)).
Proof. intros t1 t2 H. simpl. by rewrite H. Qed.

Lemma dir_blind_make_dirs base parts : dir_blind (modify (make_dirs base parts)).
Proof. by intros t1 t2 H. Qed.

Lemma dir_blind_bind {A B} (m : stateful bids_tree A) (k : A -> stateful bids_tree B) :
  dir_blind m -> (forall x, dir_blind (k x)) -> dir_blind (m ≫= k).
Proof.
  intros Hm Hk t1 t2 H. unfold mbind, stateful_bind.
  destruct (Hm t1 t2 H) as [Hn Ho].
  destruct (m t1) as [s1 [x|e]], (m t2) as [s2 [y|e']]; simpl in *;
    try discriminate.
  - injection Ho as ->. by apply Hk.
  - by injection Ho as ->.
Qed.

Lemma dir_blind_for_each {A} (body : A -> stateful bids_tree unit) (l : list A) :
  (forall x, dir_blind (body x)) -> dir_blind (for_each body l).
Proof.
  intros Hbody. induction l as [|x l IH]; [apply dir_blind_ret|].
  apply dir_blind_bind; [apply Hbody|]. by intros _.
Qed.

Lemma dir_blind_export_group path_sub path_label sub grp :
  dir_blind (export_group path_sub path_label sub grp).
Proof.
  unfold export_group.
  repeat first
    [ apply dir_blind_bind; [|intros ?]
    | apply dir_blind_for_each; intros ?
    | apply dir_blind_lift
    | apply dir_blind_save
    | apply dir_blind_ret
    | case_bool_decide
    | match goal with |- dir_blind (match ?l with _ => _ end) => destruct l end ].
Qed.

Lemma dir_blind_export_subject f path_dir sub :
  dir_blind (export_subject f path_dir sub).
Proof.
  unfold export_subject.
  apply dir_blind_bind; [apply dir_blind_make_dirs|intros _].
  apply dir_blind_bind; [apply dir_blind_make_dirs|intros _].
  destruct (h5_groups f !! sub);
    [apply dir_blind_export_group|apply dir_blind_ret].
Qed.

(** A subject without group in the container: the two directories are
    made, no file is written, and the loop goes on. *)
Lemma export_subject_absent f path_dir sub tree :
  h5_groups f !! sub = None ->
  exists tree', export_subject f path_dir sub tree = (tree', Ok tt) /\
                nifti tree' = nifti tree.
Proof. intros H. unfold export_subject. rewrite H. by eexists. Qed.

(** The subjects that are absent from the container can be struck from the
    list without changing the files written or the outcome. *)
Lemma export_skips_absent f path_dir subjects : forall t1 t2,
  nifti t1 = nifti t2 ->
  same_export
    (for_each (export_subject f path_dir) subjects t1)
    (for_each (export_subject f path_dir)
       (filter (fun sub => is_Some (h5_groups f !! sub)) subjects) t2).
Proof.
  induction subjects as [|sub rest IH]; intros t1 t2 H; [done|].
  destruct (h5_groups f !! sub) as [grp|] eqn:Hsub.
  - rewrite filter_cons_True by (rewrite Hsub; eauto).
    cbn [for_each]. unfold mbind, stateful_bind.
    destruct (dir_blind_export_subject f path_dir sub t1 t2 H) as [Hn Ho].
    destruct (export_subject f path_dir sub t1) as [s1 [[]|e]],
             (export_subject f path_dir sub t2) as [s2 [[]|e']];
      simpl in *; try discriminate.
    + by apply IH.
    + done.
  - rewrite filter_cons_False by (rewrite Hsub; by intros [? ?]).
    cbn [for_each]. unfold mbind, stateful_bind.
    destruct (export_subject_absent f path_dir sub t1 Hsub) as (t1' & -> & Hn).
    apply IH. congruence.
Qed.

End Exporter.


(** ** Writes to a subject group *)

Section Writes.
  Import BIDStoHDF5.

Lemma get_dataset_Ok ns name grp d :
  get_dataset ns name grp = Ok d <->
  exists sub, grp_members grp !! ns = Some sub /\ ns_datasets sub !! name = Some d.
Proof.
  unfold get_dataset. split.
  - intros (sub & Hsub%getitem_Ok & Hd%getitem_Ok)%bind_Ok. eauto.
  - intros (sub & Hsub & Hd). apply getitem_Ok in Hsub, Hd.
    rewrite Hsub. simpl. done.
Qed.

Lemma keeps_data_refl grp : keeps_data grp grp.
Proof. intros ns name d H. eauto. Qed.

Lemma keeps_data_trans g1 g2 g3 :
  keeps_data g1 g2 -> keeps_data g2 g3 -> keeps_data g1 g3.
Proof.
  intros H12 H23 ns name d H. apply H12 in H as (d' & H & <-).
  apply H23 in H as (d'' & H & <-). eauto.
Qed.

Lemma keeps_data_members g g' :
  grp_members g' = grp_members g -> keeps_data g g'.
Proof.
  intros Hm ns name d H. exists d. split; [|done].
  apply get_dataset_Ok. rewrite Hm. by apply get_dataset_Ok.
Qed.

Lemma keeps_holds_data g g' ns name data :
  keeps_data g g' -> holds_data ns name data g -> holds_data ns name data g'.
Proof.
  intros Hk (d & Hd & <-). apply Hk in Hd as (d' & Hd' & Heq). by exists d'.
Qed.

Lemma keeps_has_dataset g g' ns name :
  keeps_data g g' -> has_dataset ns name g -> has_dataset ns name g'.
Proof. intros Hk [d Hd]. apply Hk in Hd as (d' & Hd' & _). by exists d'. Qed.

(** *** What each write does *)

Lemma create_dataset_Ok ns name data grp grp' :
  create_dataset ns name data grp = Ok grp' ->
  let sub := default empty_namespace (grp_members grp !! ns) in
  ns_datasets sub !! name = None /\
  grp_contrast grp' = grp_contrast grp /\
  grp_members grp' =
    <[ns := Namespace (ns_contrast sub)
              (<[name := Dataset data ∅]> (ns_datasets sub))]> (grp_members grp).
Proof.
  unfold create_dataset. simpl.
  destruct (ns_datasets _ !! name) eqn:Hd; [discriminate|].
  by intros [= <-].
Qed.

Lemma create_subgrp_metadata_Ok grp_key contrast grp grp' :
  create_subgrp_metadata grp_key contrast grp = Ok grp' ->
  exists sub, grp_members grp !! grp_key = Some sub /\
    grp_contrast grp' = grp_contrast grp /\
    grp_members grp' =
      <[grp_key := Namespace (Some (contrast_list (ns_contrast sub) ++ [contrast]))
                     (ns_datasets sub)]> (grp_members grp).
Proof.
  unfold create_subgrp_metadata.
  intros (sub & Hsub%getitem_Ok & [= <-])%bind_Ok.
  exists sub. split; [done|]. split; [done|]. simpl.
  by destruct (ns_contrast sub).
Qed.

Lemma set_dataset_attr_Ok ns name attr value grp grp' :
  set_dataset_attr ns name attr value grp = Ok grp' ->
  exists sub d, grp_members grp !! ns = Some sub /\
    ns_datasets sub !! name = Some d /\
    grp_contrast grp' = grp_contrast grp /\
    grp_members grp' =
      <[ns := Namespace (ns_contrast sub)
                (<[name := Dataset (ds_data d) (<[attr := value]> (ds_attrs d))]>
                   (ns_datasets sub))]> (grp_members grp).
Proof.
  unfold set_dataset_attr.
  intros (sub & Hsub%getitem_Ok & (d & Hd%getitem_Ok & [= <-])%bind_Ok)%bind_Ok.
  exists sub, d. eauto.
Qed.

(** *** Data *)

Lemma create_dataset_data ns name data grp grp' :
  create_dataset ns name data grp = Ok grp' ->
  holds_data ns name data grp' /\ keeps_data grp grp' /\
  ~ has_dataset ns name grp.
Proof.
  intros (Hfresh & _ & Hm)%create_dataset_Ok. split; [|split].
  - exists (Dataset data ∅). split; [|done]. apply get_dataset_Ok.
    rewrite Hm, lookup_insert_eq. eexists. split; [done|].
    simpl. by rewrite lookup_insert_eq.
  - intros ns0 name0 d (sub & Hsub & Hd)%get_dataset_Ok.
    exists d. split; [|done]. apply get_dataset_Ok. rewrite Hm.
    destruct (decide (ns0 = ns)) as [->|Hne].
    + rewrite lookup_insert_eq. eexists. split; [done|]. simpl.
      rewrite Hsub in Hfresh. simpl in Hfresh. rewrite Hsub. simpl.
      rewrite lookup_insert_ne; [done|]. intros ->. congruence.
    + rewrite lookup_insert_ne by done. eauto.
  - intros (d & (sub & Hsub & Hd)%get_dataset_Ok).
    rewrite Hsub in Hfresh. simpl in Hfresh. congruence.
Qed.

Lemma create_subgrp_metadata_keeps grp_key contrast grp grp' :
  create_subgrp_metadata grp_key contrast grp = Ok grp' -> keeps_data grp grp'.
Proof.
  intros (sub & Hsub & _ & Hm)%create_subgrp_metadata_Ok.
  intros ns0 name0 d (sub0 & Hsub0 & Hd)%get_dataset_Ok.
  exists d. split; [|done]. apply get_dataset_Ok. rewrite Hm.
  destruct (decide (ns0 = grp_key)) as [->|Hne].
  - rewrite lookup_insert_eq. eexists. split; [done|]. simpl. congruence.
  - rewrite lookup_insert_ne by done. eauto.
Qed.

Lemma set_dataset_attr_keeps ns name attr value grp grp' :
  set_dataset_attr ns name attr value grp = Ok grp' -> keeps_data grp grp'.
Proof.
  intros (sub & d & Hsub & Hd & _ & Hm)%set_dataset_attr_Ok.
  intros ns0 name0 d0 (sub0 & Hsub0 & Hd0)%get_dataset_Ok.
  destruct (decide (ns0 = ns)) as [->|Hne].
  - assert (sub0 = sub) as -> by congruence.
    destruct (decide (name0 = name)) as [->|Hname].
    + assert (d0 = d) as -> by congruence.
      exists (Dataset (ds_data d) (<[attr := value]> (ds_attrs d))).
      split; [|done]. apply get_dataset_Ok.
      rewrite Hm, lookup_insert_eq. eexists. split; [done|].
      simpl. by rewrite lookup_insert_eq.
    + exists d0. split; [|done]. apply get_dataset_Ok.
      rewrite Hm, lookup_insert_eq. eexists. split; [done|].
      simpl. by rewrite lookup_insert_ne.
  - exists d0. split; [|done]. apply get_dataset_Ok.
    rewrite Hm, lookup_insert_ne by done. eauto.
Qed.

(** *** Contrast lists *)

Lemma namespace_lists_ok grp ns :
  lists_ok grp ->
  let sub := default empty_namespace (grp_members grp !! ns) in
  NoDup (contrast_list (ns_contrast sub)) /\
  forall ct, ct ∈ contrast_list (ns_contrast sub) -> is_Some (ns_datasets sub !! ct).
Proof.
  intros ([_ Hnodup] & Htok & _). destruct (grp_members grp !! ns) as [sub|] eqn:Hsub.
  - simpl. split; [by eapply Hnodup|]. intros ct. by eapply Htok.
  - simpl. split; [apply NoDup_nil_2|]. by intros ct ?%elem_of_nil.
Qed.

Lemma create_dataset_lists_ok ns name data grp grp' :
  lists_ok grp ->
  create_dataset ns name data grp = Ok grp' ->
  lists_ok grp' /\ fresh_in ns name grp'.
Proof.
  intros Hok H.
  destruct (create_dataset_data _ _ _ _ _ H) as (_ & Hkeep & _).
  apply create_dataset_Ok in H as (Hfresh & Hc & Hm).
  destruct (namespace_lists_ok grp ns Hok) as [Hnd Htok].
  destruct Hok as ([Hg Hnodup] & Htoks & Hgl).
  split; [split; [split|split]|].
  - by rewrite Hc.
  - intros ns0 sub0. rewrite Hm.
    destruct (decide (ns0 = ns)) as [->|Hne].
    + rewrite lookup_insert_eq. by intros [= <-].
    + rewrite lookup_insert_ne by done. apply Hnodup.
  - intros ns0 sub0 ct. rewrite Hm.
    destruct (decide (ns0 = ns)) as [->|Hne].
    + rewrite lookup_insert_eq. intros [= <-] Hct. simpl in *.
      apply lookup_insert_is_Some'. right. by apply Htok.
    + rewrite lookup_insert_ne by done. apply Htoks.
  - intros ct. rewrite Hc. intros Hct. eapply keeps_has_dataset; [done|].
    by apply Hgl.
  - intros sub0. rewrite Hm, lookup_insert_eq. intros [= <-] Hin. simpl in Hin.
    apply Htok in Hin as [d Hd]. congruence.
Qed.

Lemma create_subgrp_metadata_lists_ok grp_key contrast grp grp' :
  lists_ok grp ->
  fresh_in grp_key contrast grp ->
  has_dataset grp_key contrast grp ->
  create_subgrp_metadata grp_key contrast grp = Ok grp' ->
  lists_ok grp'.
Proof.
  intros ([Hg Hnodup] & Htoks & Hgl) Hfresh [d Hd] H.
  pose proof (create_subgrp_metadata_keeps _ _ _ _ H) as Hkeep.
  apply create_subgrp_metadata_Ok in H as (sub & Hsub & Hc & Hm).
  apply get_dataset_Ok in Hd as (sub' & Hsub' & Hd).
  assert (sub' = sub) as -> by congruence.
  split; [split|split].
  - by rewrite Hc.
  - intros ns0 sub0. rewrite Hm.
    destruct (decide (ns0 = grp_key)) as [->|Hne].
    + rewrite lookup_insert_eq. intros [= <-]. simpl.
      apply NoDup_app. split; [by eapply Hnodup|]. split; [|apply NoDup_singleton].
      intros x Hx ->%list_elem_of_singleton. by eapply Hfresh.
    + rewrite lookup_insert_ne by done. apply Hnodup.
  - intros ns0 sub0 ct. rewrite Hm.
    destruct (decide (ns0 = grp_key)) as [->|Hne].
    + rewrite lookup_insert_eq. intros [= <-]. simpl.
      intros [Hct| ->%list_elem_of_singleton]%elem_of_app; [by eapply Htoks|eauto].
    + rewrite lookup_insert_ne by done. apply Htoks.
  - intros ct. rewrite Hc. intros Hct. eapply keeps_has_dataset; [done|].
    by apply Hgl.
Qed.

Lemma set_dataset_attr_lists_ok ns name attr value grp grp' :
  lists_ok grp ->
  set_dataset_attr ns name attr value grp = Ok grp' ->
  lists_ok grp'.
Proof.
  intros ([Hg Hnodup] & Htoks & Hgl) H.
  pose proof (set_dataset_attr_keeps _ _ _ _ _ _ H) as Hkeep.
  apply set_dataset_attr_Ok in H as (sub & d & Hsub & Hd & Hc & Hm).
  split; [split|split].
  - by rewrite Hc.
  - intros ns0 sub0. rewrite Hm.
    destruct (decide (ns0 = ns)) as [->|Hne].
    + rewrite lookup_insert_eq. intros [= <-]. simpl. by eapply Hnodup.
    + rewrite lookup_insert_ne by done. apply Hnodup.
  - intros ns0 sub0 ct. rewrite Hm.
    destruct (decide (ns0 = ns)) as [->|Hne].
    + rewrite lookup_insert_eq. intros [= <-] Hct. simpl in *.
      apply lookup_insert_is_Some'. right. by eapply Htoks.
    + rewrite lookup_insert_ne by done. apply Htoks.
  - intros ct. rewrite Hc. intros Hct. eapply keeps_has_dataset; [done|].
    by apply Hgl.
Qed.

Lemma add_grp_contrast_lists_ok contrast grp :
  lists_ok grp ->
  contrast ∉ contrast_list (grp_contrast grp) ->
  has_dataset "inputs" contrast grp ->
  lists_ok (add_grp_contrast contrast grp).
Proof.
  intros ([Hg Hnodup] & Htoks & Hgl) Hfresh Hd.
  assert (Hlist : contrast_list (grp_contrast (add_grp_contrast contrast grp))
                  = contrast_list (grp_contrast grp) ++ [contrast]).
  { unfold add_grp_contrast. by destruct (grp_contrast grp). }
  assert (Hm : grp_members (add_grp_contrast contrast grp) = grp_members grp).
  { unfold add_grp_contrast. by destruct (grp_contrast grp). }
  pose proof (keeps_data_members _ _ Hm) as Hkeep.
  split; [split|split].
  - rewrite Hlist. apply NoDup_app. split; [done|]. split; [|apply NoDup_singleton].
    by intros x Hx ->%list_elem_of_singleton.
  - rewrite Hm. apply Hnodup.
  - rewrite Hm. apply Htoks.
  - intros ct. rewrite Hlist.
    intros [Hct| ->%list_elem_of_singleton]%elem_of_app;
      (eapply keeps_has_dataset; [done|]); [by apply Hgl|done].
Qed.

Lemma update_slices_lists_ok a useful grp :
  lists_ok grp -> lists_ok (update_slices a useful grp).
Proof. unfold update_slices. by destruct (grp_slices grp). Qed.

End Writes.


(** ** The loop of [_load_filenames] *)

Section Loading.
  Import BIDStoHDF5.

Lemma lists_ok_empty : lists_ok empty_group.
Proof.
  split; [split|split]; simpl.
  - apply NoDup_nil_2.
  - intros ns sub. by rewrite lookup_empty.
  - intros ns sub ct. by rewrite lookup_empty.
  - by intros ct ?%elem_of_nil.
Qed.

Lemma create_inputs_step contrast data grp grp' :
  lists_ok grp ->
  create_dataset "inputs" contrast data grp = Ok grp' ->
  created "inputs" contrast grp'.
Proof.
  intros Hok H.
  destruct (create_dataset_data _ _ _ _ _ H) as ([d [Hd _]] & Hkeep & Hnew).
  destruct (create_dataset_lists_ok _ _ _ _ _ Hok H) as [Hok' Hfresh].
  apply create_dataset_Ok in H as (_ & Hc & _).
  assert (Hds : has_dataset "inputs" contrast grp') by by exists d.
  split; [split; [done|split; [|done]]|done].
  rewrite Hc. intros Hin. apply Hnew. by apply Hok.
Qed.

Lemma create_step ns contrast data grp grp' :
  writing contrast grp ->
  create_dataset ns contrast data grp = Ok grp' ->
  created ns contrast grp'.
Proof.
  intros (Hok & Hnot & Hin) H.
  destruct (create_dataset_data _ _ _ _ _ H) as ([d [Hd _]] & Hkeep & _).
  destruct (create_dataset_lists_ok _ _ _ _ _ Hok H) as [Hok' Hfresh].
  apply create_dataset_Ok in H as (_ & Hc & _).
  split; [split; [done|split]|split; [done|by exists d]].
  - by rewrite Hc.
  - by eapply keeps_has_dataset.
Qed.

Lemma subgrp_step ns contrast grp grp' :
  created ns contrast grp ->
  create_subgrp_metadata ns contrast grp = Ok grp' ->
  writing contrast grp'.
Proof.
  intros ((Hok & Hnot & Hin) & Hfresh & Hds) H.
  pose proof (create_subgrp_metadata_keeps _ _ _ _ H) as Hkeep.
  pose proof (create_subgrp_metadata_lists_ok _ _ _ _ Hok Hfresh Hds H) as Hok'.
  apply create_subgrp_metadata_Ok in H as (sub & _ & Hc & _).
  split; [done|split]; [by rewrite Hc|by eapply keeps_has_dataset].
Qed.

Lemma attr_step ns contrast attr value grp grp' :
  writing contrast grp ->
  set_dataset_attr ns contrast attr value grp = Ok grp' ->
  writing contrast grp'.
Proof.
  intros (Hok & Hnot & Hin) H.
  pose proof (set_dataset_attr_keeps _ _ _ _ _ _ H) as Hkeep.
  pose proof (set_dataset_attr_lists_ok _ _ _ _ _ _ Hok H) as Hok'.
  apply set_dataset_attr_Ok in H as (sub & d & _ & _ & Hc & _).
  split; [done|split]; [by rewrite Hc|by eapply keeps_has_dataset].
Qed.

Lemma create_metadata_Ok ns name metadata grp grp' :
  create_metadata ns name metadata grp = Ok grp' ->
  exists dt, set_dataset_attr ns name "data_type" [dt] grp = Ok grp'.
Proof. unfold create_metadata. destruct (data_type metadata); [eauto|discriminate]. Qed.

Lemma metadata_step ns contrast metadata grp grp' :
  writing contrast grp ->
  create_metadata ns contrast metadata grp = Ok grp' ->
  writing contrast grp'.
Proof. intros Hw [dt H]%create_metadata_Ok. by eapply attr_step. Qed.

(** One step of [write_volumes]: a write that may raise, with the state it
    must start from and the state it leaves. *)
Ltac write_step post :=
  eapply hoare_bind with (Q := fun _ => post);
  [apply hoare_try_modify; [intros s s' Hs Hf|intros s Hs]|intros _].

(** The writes of one subject keep the invariant of its group, whether
    they end normally or by an exception. *)
Lemma write_volumes_lists_ok a input_metadata gt_metadata roi_metadata v :
  hoare lists_ok (write_volumes a input_metadata gt_metadata roi_metadata v)
        (fun _ => lists_ok) lists_ok.
Proof.
  unfold write_volumes.
  eapply hoare_bind with (Q := fun _ => lists_ok).
  { apply hoare_modify. intros s Hs. by apply update_slices_lists_ok. }
  intros _. case_bool_decide; [by intros s Hs|].
  set (c := contrast input_metadata).
  write_step (created "inputs" c); [by eapply create_inputs_step|done|].
  write_step (writing c); [by eapply subgrp_step|apply Hs|].
  write_step (writing c); [by eapply attr_step|apply Hs|].
  write_step (writing c); [by eapply metadata_step|apply Hs|].
  write_step (created "gt" c); [by eapply create_step|apply Hs|].
  write_step (writing c); [by eapply subgrp_step|apply Hs|].
  write_step (writing c); [by eapply attr_step|apply Hs|].
  write_step (writing c); [by eapply metadata_step|apply Hs|].
  write_step (created "roi" c); [by eapply create_step|apply Hs|].
  write_step (writing c); [by eapply subgrp_step|apply Hs|].
  write_step (writing c); [by eapply attr_step|apply Hs|].
  write_step (writing c); [by eapply metadata_step|apply Hs|].
  apply hoare_modify. intros s (Hok & Hnot & Hin).
  by apply add_grp_contrast_lists_ok.
Qed.

Lemma put_group_ok (f : hdf5_file) key grp last :
  map_Forall (fun _ g => lists_ok g) (h5_groups f) ->
  lists_ok grp ->
  groups_ok (Loader (set_groups f (<[key := grp]> (h5_groups f))) last).
Proof. intros Hf Hg. unfold groups_ok. simpl. by apply map_Forall_insert_2. Qed.

Lemma load_pair_lists_ok a fp :
  hoare groups_ok (load_pair a fp) (fun _ => groups_ok) groups_ok.
Proof.
  intros st Hst. unfold load_pair.
  assert (Hgrp : lists_ok (default empty_group
                             (h5_groups (hdf5 st) !! subject_id fp))).
  { destruct (h5_groups (hdf5 st) !! subject_id fp) as [grp|] eqn:Hg; simpl.
    - by eapply (Hst _ _ Hg).
    - apply lists_ok_empty. }
  destruct (slice_loop a 0 (get_pair_slices a fp) _) as [v|e];
    [|by apply put_group_ok].
  destruct (from_option Some (last_slice st) (last (get_pair_slices a fp)))
    as [sl|]; [|by apply put_group_ok].
  destruct (last_metadata sl) as [[[input_md gt_md] roi_md]|e];
    [|by apply put_group_ok].
  generalize (write_volumes_lists_ok a input_md gt_md roi_md v _ Hgrp).
  destruct (write_volumes a input_md gt_md roi_md v _) as [grp' [[]|e]];
    intros Hgrp'; by apply put_group_ok.
Qed.

(** [_load_filenames] keeps the invariant of the groups of the file. *)
Lemma _load_filenames_lists_ok a pairs (f : hdf5_file) :
  map_Forall (fun _ grp => lists_ok grp) (h5_groups f) ->
  map_Forall (fun _ grp => lists_ok grp)
             (h5_groups (_load_filenames a pairs f).1).
Proof.
  intros Hf. unfold _load_filenames.
  generalize (hoare_for_each groups_ok groups_ok (load_pair a) pairs
                (load_pair_lists_ok a) (Loader f None) Hf).
  by destruct (for_each _ _ _) as [st [[]|e]].
Qed.

(** The container that a conversion leaves at its path has no duplicate in
    its contrast lists, whether the writing of the volumes returned or
    raised. *)
Lemma converted_container_lists a subject_file_lst path_hdf5
    (fs : gmap string hdf5_file) :
  is_ok (select_subjects a subject_file_lst) = true ->
  exists f,
    (BIDStoHDF5.__init__ a subject_file_lst path_hdf5 fs).1 !! path_hdf5 = Some f /\
    map_Forall (fun _ grp => no_duplicate_contrast grp) (h5_groups f).
Proof.
  unfold BIDStoHDF5.__init__.
  destruct (select_subjects a subject_file_lst) as [[tot st]|e]; [|discriminate].
  intros _.
  pose proof (_load_filenames_lists_ok a (filename_pairs st)
                (H5File (patients_order a (list_patients st)) (slice_axis a)
                   ["filter_empty_input"; "filter_empty_mask"] ∅)
                (map_Forall_empty _)) as Hok.
  destruct (_load_filenames _ _ _) as [f' r]. simpl in *.
  exists f'. rewrite lookup_insert_eq. split; [done|].
  eapply map_Forall_impl; [exact Hok|]. intros subject grp H. apply H.
Qed.

End Loading.

(** C5.  The file that the constructor creates, after [_load_filenames]
    has run on any list of filename pairs and whether it returned or
    raised: in every subject group, no contrast token appears twice in the
    contrast list of a namespace or in the contrast list of the group.
    The lists are appended to without a membership test; a token is
    appended only after [create_dataset] has accepted the dataset of that
    name, which h5py refuses when the name exists. *)
Theorem contrast_lists_without_duplicates (a : BIDStoHDF5.converter_args)
    (pairs : list BIDStoHDF5.filename_pair) (patients : list string)
    (axis : nat) (filters : list string) :
  map_Forall (fun _ grp => no_duplicate_contrast grp)
    (h5_groups (BIDStoHDF5._load_filenames a pairs
                  (H5File patients axis filters ∅)).1).
Proof.
  eapply map_Forall_impl.
  - apply _load_filenames_lists_ok. simpl. apply map_Forall_empty.
  - intros subject grp Hok. apply Hok.
Qed.


(** ** Volume accumulators *)

Section Volumes.
  Import BIDStoHDF5.

(** The loop over the slices appends one input per slice, and one gt or
    roi entry for each slice whose stack is not empty. *)
Lemma slice_loop_Ok a slices : forall idx v v',
  slice_loop a idx slices v = Ok v' ->
  length (input_volumes v') = length (input_volumes v) + length slices /\
  gt_volume v' = gt_volume v ++ entries gt slices /\
  roi_volume v' = roi_volume v ++ entries roi_gt slices.
Proof.
  induction slices as [|sl slices IH]; intros idx v v' H.
  - injection H as <-. unfold entries. simpl.
    by rewrite Nat.add_0_r, !app_nil_r.
  - cbn [slice_loop] in H. apply bind_Ok in H as (v1 & H1 & H).
    apply IH in H as (Hin & Hgt & Hroi).
    unfold _slice_seg_pair in H1.
    destruct (input sl) as [|x xs]; [discriminate|]. injection H1 as <-.
    simpl in *. rewrite length_app in Hin. simpl in Hin.
    split; [lia|]. unfold entries in *. cbn [omap list_omap].
    split.
    + rewrite Hgt. destruct (gt sl); simpl; [done|]. by rewrite <- app_assoc.
    + rewrite Hroi. destruct (roi_gt sl); simpl; [done|]. by rewrite <- app_assoc.
Qed.



Lemma create_metadata_keeps ns name metadata grp grp' :
  create_metadata ns name metadata grp = Ok grp' -> keeps_data grp grp'.
Proof.
  unfold create_metadata. destruct (data_type metadata); [|discriminate].
  apply set_dataset_attr_keeps.
Qed.

Ltac data_step post :=
  eapply hoare_bind with (Q := fun _ => post);
  [apply hoare_try_modify; [intros s s' Hs Hf|done]|intros _].

(** A call of [write_volumes] that returns, for a subject with at least one
    input slice, has created the three datasets with the three
    accumulators as data. *)
Lemma write_volumes_data a input_metadata gt_metadata roi_metadata v :
  input_volumes v <> [] ->
  hoare (fun _ => True)
    (write_volumes a input_metadata gt_metadata roi_metadata v)
    (fun _ grp =>
       holds_data "inputs" (contrast input_metadata) (input_volumes v) grp /\
       holds_data "gt" (contrast input_metadata) (gt_volume v) grp /\
       holds_data "roi" (contrast input_metadata) (roi_volume v) grp)
    (fun _ => True).
Proof.
  intros Hin. unfold write_volumes.
  eapply hoare_bind with (Q := fun _ _ => True); [done|]. intros _.
  rewrite bool_decide_eq_false_2 by (destruct (input_volumes v); [done|simpl; lia]).
  pose (c := contrast input_metadata).
  pose (D1 := holds_data "inputs" c (input_volumes v)).
  pose (D2 := fun grp => D1 grp /\ holds_data "gt" c (gt_volume v) grp).
  pose (D3 := fun grp => D2 grp /\ holds_data "roi" c (roi_volume v) grp).
  data_step D1. { by apply create_dataset_data in Hf as (? & _ & _). }
  data_step D1.
  { eapply keeps_holds_data; [|exact Hs]. by eapply create_subgrp_metadata_keeps. }
  data_step D1.
  { eapply keeps_holds_data; [|exact Hs]. by eapply set_dataset_attr_keeps. }
  data_step D1.
  { eapply keeps_holds_data; [|exact Hs]. by eapply create_metadata_keeps. }
  data_step D2.
  { apply create_dataset_data in Hf as (? & Hk & _).
    split; [by eapply keeps_holds_data|done]. }
  data_step D2.
  { apply create_subgrp_metadata_keeps in Hf.
    destruct Hs. split; by eapply keeps_holds_data. }
  data_step D2.
  { apply set_dataset_attr_keeps in Hf.
    destruct Hs. split; by eapply keeps_holds_data. }
  data_step D2.
  { apply create_metadata_keeps in Hf.
    destruct Hs. split; by eapply keeps_holds_data. }
  data_step D3.
  { apply create_dataset_data in Hf as (? & Hk & _).
    destruct Hs. split; [split; by eapply keeps_holds_data|done]. }
  data_step D3.
  { apply create_subgrp_metadata_keeps in Hf.
    destruct Hs as [[? ?] ?]. repeat split; by eapply keeps_holds_data. }
  data_step D3.
  { apply set_dataset_attr_keeps in Hf.
    destruct Hs as [[? ?] ?]. repeat split; by eapply keeps_holds_data. }
  data_step D3.
  { apply create_metadata_keeps in Hf.
    destruct Hs as [[? ?] ?]. repeat split; by eapply keeps_holds_data. }
  apply hoare_modify. intros s [[H1 H2] H3].
  assert (Hk : keeps_data s (add_grp_contrast c s)).
  { apply keeps_data_members. unfold add_grp_contrast.
    by destruct (grp_contrast s). }
  repeat split; by eapply keeps_holds_data.
Qed.


End Volumes.



(** * Further properties of the code *)

(** ** Selection of the subjects *)

Section Selection.
  Import BIDStoHDF5.
  Context (a : converter_args).

Lemma last_snoc_filter {A} (P : A -> bool) (l : list A) (x : A) :
  last (filter (fun y => P y = true) (l ++ [x]))
  = if P x then Some x else last (filter (fun y => P y = true) l).
Proof.
  rewrite filter_app. destruct (P x) eqn:HP.
  - rewrite filter_cons_True, filter_nil by done. apply last_snoc.
  - rewrite filter_cons_False, filter_nil by congruence. by rewrite app_nil_r.
Qed.

Lemma zip_with_map_same {A B C} (f : A -> B -> C) (g : A -> B) (l : list A) :
  zip_with f l (map g l) = map (fun x => f x (g x)) l.
Proof. induction l as [|x l IH]; [done|]. simpl. by rewrite IH. Qed.

Lemma get_filenames_fold (derivs : list string) :
  foldl (fun '(target_filename, roi_filename) deriv =>
           (zip_with (fun suffix cur =>
                        if contains deriv suffix then Some deriv else cur)
                     (target_suffix a) target_filename,
            match roi_suffix a with
            | Some s => if contains deriv s then Some [deriv] else roi_filename
            | None => roi_filename
            end))
        (replicate (length (target_suffix a)) None, None) derivs
  = (map (fun suffix =>
            last (filter (fun d => contains d suffix = true) derivs))
         (target_suffix a),
     s ← roi_suffix a;
     (fun d => [d]) <$> last (filter (fun d => contains d s = true) derivs)).
Proof.
  induction derivs as [|d derivs IH] using rev_ind.
  - simpl. f_equal.
    + generalize (target_suffix a). intros l.
      induction l as [|s l IHl]; [done|]. simpl. by rewrite IHl.
    + by destruct (roi_suffix a).
  - rewrite foldl_app, IH. simpl. f_equal.
    + rewrite zip_with_map_same. apply map_ext. intros s.
      by rewrite last_snoc_filter.
    + destruct (roi_suffix a) as [s|]; [|done]. simpl.
      rewrite last_snoc_filter. by destruct (contains d s).
Qed.

Lemma get_filenames_last subject :
  get_filenames a subject
  = (map (fun suffix =>
            last (filter (fun d => contains d suffix = true)
                         (derivatives a subject)))
         (target_suffix a),
     s ← roi_suffix a;
     (fun d => [d]) <$> last (filter (fun d => contains d s = true)
                                     (derivatives a subject))).
Proof. apply get_filenames_fold. Qed.

End Selection.

(** X1.  [get_filenames] keeps, for each target suffix, the last derivative
    path that contains the suffix, and [None] when no derivative contains
    it; the ROI file is the last derivative that contains the ROI suffix,
    in a one-element list, and [None] when there is none or when no ROI
    suffix is configured. *)
Theorem get_filenames_keeps_last_match (a : BIDStoHDF5.converter_args)
    (subject : string) :
  BIDStoHDF5.get_filenames a subject
  = (map (fun suffix =>
            last (filter (fun d => contains d suffix = true)
                         (BIDStoHDF5.derivatives a subject)))
         (BIDStoHDF5.target_suffix a),
     s ← BIDStoHDF5.roi_suffix a;
     (fun d => [d]) <$> last (filter (fun d => contains d s = true)
                                     (BIDStoHDF5.derivatives a subject))).
Proof. apply get_filenames_last. Qed.

Section SelectionInvariant.
  Import BIDStoHDF5.
  Context (a : converter_args).

Lemma process_subject_well_formed df_subjects tot st subject st' :
  process_subject a df_subjects tot st subject = Ok st' ->
  list_patients st = subject_id <$> filename_pairs st ->
  Forall (well_formed_pair a) (filename_pairs st) ->
  list_patients st' = subject_id <$> filename_pairs st' /\
  Forall (well_formed_pair a) (filename_pairs st').
Proof.
  unfold process_subject.
  destruct (filter _ df_subjects) as [|row rest]; [discriminate|].
  intros H Hpat Hwf. apply bind_Ok in H as ([cnt' over] & Hover & H).
  simpl in H. destruct (default false over).
  { by injection H as <-. }
  destruct (get_filenames a subject) as [target_filename roi_filename] eqn:Hget.
  destruct (negb (any_filename target_filename)) eqn:Hany.
  { simpl in H. by injection H as <-. }
  destruct (bool_decide (roi_suffix a ≠ None) && bool_decide (roi_filename = None))
    eqn:Hroi.
  { simpl in H. by injection H as <-. }
  simpl in H. apply bind_Ok in H as (bb & _ & H).
  destruct (bool_decide (metadata_choice a = mri_params) && _).
  { by injection H as <-. }
  injection H as <-. simpl. split.
  - by rewrite fmap_app, Hpat.
  - apply Forall_app. split; [done|]. constructor; [|done].
    apply negb_false_iff in Hany.
    rewrite get_filenames_last in Hget. injection Hget as <- <-.
    repeat split; simpl.
    + by rewrite length_map.
    + done.
    + intros [s Hs]. rewrite Hs in Hroi |- *.
      rewrite bool_decide_eq_true_2 in Hroi by done.
      apply bool_decide_eq_false in Hroi.
      by destruct (_ ≫= _).
Qed.

Lemma process_subjects_well_formed df_subjects tot subjects : forall st st',
  process_subjects a df_subjects tot st subjects = Ok st' ->
  list_patients st = subject_id <$> filename_pairs st ->
  Forall (well_formed_pair a) (filename_pairs st) ->
  list_patients st' = subject_id <$> filename_pairs st' /\
  Forall (well_formed_pair a) (filename_pairs st').
Proof.
  induction subjects as [|subject rest IH]; intros st st' H Hpat Hwf.
  - by injection H as <-.
  - simpl in H. apply bind_Ok in H as (st1 & H1 & H).
    destruct (process_subject_well_formed _ _ _ _ _ H1 Hpat Hwf).
    by eapply IH.
Qed.

End SelectionInvariant.

Lemma process_subjects_selected (a : BIDStoHDF5.converter_args)
    (subject_file_lst : list string) (tot : gmap string nat)
    (st : BIDStoHDF5.session) :
  BIDStoHDF5.select_subjects a subject_file_lst = Ok (tot, st) ->
  BIDStoHDF5.list_patients st
  = BIDStoHDF5.subject_id <$> BIDStoHDF5.filename_pairs st /\
  Forall (well_formed_pair a) (BIDStoHDF5.filename_pairs st).
Proof.
  unfold BIDStoHDF5.select_subjects. intros H.
  apply bind_Ok in H as (tot' & _ & H).
  apply bind_Ok in H as (st' & Hrun & H). injection H as <- <-.
  eapply process_subjects_well_formed; [exact Hrun|done|constructor].
Qed.

(** X2.  When the loop of the constructor over the subjects returns, the
    list of patients names the subjects of the filename pairs, in the same
    order, and every pair has one input file, one metadata record, one
    target entry per target suffix with a file in at least one of them,
    and a ROI file when a ROI suffix is configured. *)
Theorem selected_pairs_are_well_formed (a : BIDStoHDF5.converter_args)
    (subject_file_lst : list string) (tot : gmap string nat)
    (st : BIDStoHDF5.session) :
  BIDStoHDF5.select_subjects a subject_file_lst = Ok (tot, st) ->
  BIDStoHDF5.list_patients st
  = BIDStoHDF5.subject_id <$> BIDStoHDF5.filename_pairs st /\
  Forall (well_formed_pair a) (BIDStoHDF5.filename_pairs st).
Proof. apply process_subjects_selected. Qed.

Lemma selected_pairs_are_well_formed_witness :
  BIDStoHDF5.list_patients
    (Sample.session_of (BIDStoHDF5.select_subjects Sample.args_all Sample.subjects))
  = BIDStoHDF5.subject_id <$>
    BIDStoHDF5.filename_pairs
      (Sample.session_of (BIDStoHDF5.select_subjects Sample.args_all Sample.subjects)) /\
  Forall (well_formed_pair Sample.args_all)
    (BIDStoHDF5.filename_pairs
       (Sample.session_of (BIDStoHDF5.select_subjects Sample.args_all Sample.subjects))).
Proof.
  apply (selected_pairs_are_well_formed Sample.args_all Sample.subjects
           (Sample.tot_of (BIDStoHDF5.select_subjects Sample.args_all Sample.subjects))).
  vm_compute. reflexivity.
Defined.

(** ** Order of the subjects *)

Section Sorting.

Lemma compare_not_Gt_trans (s1 : string) : forall s2 s3,
  String.compare s1 s2 <> Gt -> String.compare s2 s3 <> Gt ->
  String.compare s1 s3 <> Gt.
Proof.
  induction s1 as [|c1 s1 IH]; intros [|c2 s2] [|c3 s3]; simpl; try done.
  unfold Ascii.compare.
  destruct (N.compare_spec (N_of_ascii c1) (N_of_ascii c2)) as [H12|H12|H12];
    [|intros _|done];
    (destruct (N.compare_spec (N_of_ascii c2) (N_of_ascii c3)) as [H23|H23|H23];
     [| |done]).
  - rewrite H12, <- H23, N.compare_refl. apply IH.
  - intros _ _. rewrite H12. by apply N.compare_lt_iff in H23 as ->.
  - intros _. rewrite <- H23. by apply N.compare_lt_iff in H12 as ->.
  - intros _. assert (H13 : (N_of_ascii c1 < N_of_ascii c3)%N) by lia.
    by apply N.compare_lt_iff in H13 as ->.
Qed.

Lemma string_le_not_Gt x y : string_le x y <-> String.compare x y <> Gt.
Proof. unfold string_le, String.leb. by destruct (String.compare x y). Qed.

Lemma string_le_trans : Transitive string_le.
Proof.
  intros x y z. rewrite !string_le_not_Gt. apply compare_not_Gt_trans.
Qed.

Lemma string_le_antisym : AntiSymm eq string_le.
Proof. intros x y. apply String.leb_antisym. Qed.

Lemma insert_sorted_perm x l : insert_sorted x l ≡ₚ x :: l.
Proof.
  induction l as [|y l IH]; [done|]. simpl.
  destruct (String.leb x y); [done|]. rewrite IH. apply Permutation_swap.
Qed.

Lemma sorted_perm l : sorted l ≡ₚ l.
Proof.
  induction l as [|x l IH]; [done|]. unfold sorted in *. simpl.
  by rewrite insert_sorted_perm, IH.
Qed.

Lemma insert_sorted_Sorted x l :
  Sorted string_le l -> Sorted string_le (insert_sorted x l).
Proof.
  induction 1 as [|y l Hl IH Hy]; simpl.
  - by repeat constructor.
  - destruct (String.leb x y) eqn:Hxy.
    + constructor; [by constructor|by constructor].
    + constructor; [done|].
      assert (Hyx : string_le y x).
      { destruct (String.leb_total x y) as [H|H]; [congruence|done]. }
      destruct Hy as [|z l Hyz]; simpl.
      * by constructor.
      * destruct (String.leb x z); by constructor.
Qed.

Lemma sorted_Sorted l : Sorted string_le (sorted l).
Proof.
  induction l as [|x l IH]; [constructor|].
  unfold sorted in *. simpl. by apply insert_sorted_Sorted.
Qed.

Lemma sorted_permutation l l' : l ≡ₚ l' -> sorted l = sorted l'.
Proof.
  intros H.
  apply (@Sorted_unique _ string_le string_le_trans string_le_antisym);
    try apply sorted_Sorted.
  by rewrite !sorted_perm.
Qed.

End Sorting.

(** X3.  The constructor sorts the subject list before it loops: two
    lists with the same file names, in any order, select the same subjects
    and leave the same counters and the same filename pairs, in the same
    order. *)
Theorem selection_ignores_subject_order (a : BIDStoHDF5.converter_args)
    (l l' : list string) :
  l ≡ₚ l' ->
  BIDStoHDF5.select_subjects a l = BIDStoHDF5.select_subjects a l'.
Proof.
  intros H. unfold BIDStoHDF5.select_subjects.
  by rewrite (sorted_permutation l l' H).
Qed.

Lemma selection_ignores_subject_order_witness :
  BIDStoHDF5.select_subjects Sample.args_all Sample.subjects
  = BIDStoHDF5.select_subjects Sample.args_all (reverse Sample.subjects).
Proof.
  apply (selection_ignores_subject_order Sample.args_all Sample.subjects
           (reverse Sample.subjects)).
  symmetry. apply reverse_Permutation.
Defined.

(** ** Selections that fail *)

Section SelectionFails.
  Import BIDStoHDF5.
  Context (a : converter_args).

Lemma process_subjects_unknown df_subjects tot subject subjects : forall st,
  subject ∈ subjects ->
  filter (fun r => filename r = subject) df_subjects = [] ->
  exists e, process_subjects a df_subjects tot st subjects = Raise e.
Proof.
  induction subjects as [|s rest IH]; intros st Hin Hrow.
  - by apply elem_of_nil in Hin.
  - simpl. destruct (decide (s = subject)) as [->|Hne].
    + unfold process_subject at 1. rewrite Hrow. simpl. eauto.
    + destruct (process_subject a df_subjects tot st s) as [st1|e]; simpl; [|eauto].
      apply IH; [|done]. apply elem_of_cons in Hin as [->|Hin]; done.
Qed.

Lemma count_suffix_Raise df_subjects contrast e :
  count_suffix a df_subjects contrast = Raise e ->
  is_ok (fullmatch a contrast) = true -> e = KeyError.
Proof.
  unfold count_suffix. destruct (fullmatch a contrast) as [matches|e']; [|done].
  simpl. destruct (length _); [|discriminate]. by intros [= <-].
Qed.

(** The comprehension raises as soon as the count of one key raises, with
    KeyError when every key compiles. *)
Lemma count_suffixes_Raise df_subjects keys contrast e0 :
  contrast ∈ keys ->
  count_suffix a df_subjects contrast = Raise e0 ->
  exists e, count_suffixes a df_subjects keys = Raise e /\
            (Forall (fun key => is_ok (fullmatch a key) = true) keys ->
             e = KeyError).
Proof.
  intros Hin Hraise. induction keys as [|key rest IH].
  - by apply elem_of_nil in Hin.
  - cbn [count_suffixes].
    destruct (count_suffix a df_subjects key) as [n|e1] eqn:Hkey; simpl.
    + destruct IH as (e & -> & He).
      { apply elem_of_cons in Hin as [->|Hin]; [congruence|done]. }
      exists e. split; [done|]. intros [_ Hall]%Forall_cons. by apply He.
    + exists e1. split; [done|]. intros [Hok _]%Forall_cons.
      by eapply count_suffix_Raise.
Qed.

Lemma candidates_none subject_file_lst contrast :
  candidates a subject_file_lst contrast = 0 ->
  exists e,
    count_suffix a
      (filter (fun r => filename r ∈ sorted subject_file_lst) (bids_df a))
      contrast = Raise e.
Proof.
  unfold candidates, count_suffix.
  destruct (fullmatch a contrast) as [matches|e]; simpl; [|eauto].
  intros ->. eauto.
Qed.

End SelectionFails.

(** A name of [contrast_balance] is a regular expression: the sample
    rows all have the suffix T1w, and the name [T1.] counts the four of
    them. *)
Lemma regular_expression_counts_matching_rows :
  BIDStoHDF5.count_suffix Sample.args_all Sample.rows "T1." = Ok 4 /\
  BIDStoHDF5.count_suffix Sample.args_all Sample.rows "T1w" = Ok 4 /\
  BIDStoHDF5.count_suffix Sample.args_all Sample.rows "T1" = Raise KeyError.
Proof. by vm_compute. Qed.

(** X4.  Two ways in which the constructor raises before it creates the
    container file, so that the files are as before.  A name of
    [contrast_balance] that matches the suffix of none of the listed
    subjects makes it raise, with KeyError when every name of
    [contrast_balance] is an expression that compiles.  A listed file name
    that no row of the BIDS data frame carries raises too. *)
Theorem failed_selection_creates_no_container (a : BIDStoHDF5.converter_args)
    (subject_file_lst : list string) (path_hdf5 : string)
    (fs : gmap string hdf5_file) :
  (forall contrast t,
     BIDStoHDF5.contrast_balance a !! contrast = Some t ->
     candidates a subject_file_lst contrast = 0 ->
     exists e,
       BIDStoHDF5.__init__ a subject_file_lst path_hdf5 fs = (fs, Raise e) /\
       (map_Forall (fun key (_ : Q) => is_ok (BIDStoHDF5.fullmatch a key) = true)
                   (BIDStoHDF5.contrast_balance a) ->
        e = KeyError)) /\
  (forall subject,
     subject ∈ subject_file_lst ->
     Forall (fun r => BIDStoHDF5.filename r <> subject) (BIDStoHDF5.bids_df a) ->
     exists e,
       BIDStoHDF5.__init__ a subject_file_lst path_hdf5 fs = (fs, Raise e)).
Proof.
  unfold BIDStoHDF5.__init__, BIDStoHDF5.select_subjects. split.
  - intros contrast t Hbal Hcount.
    apply candidates_none in Hcount as [e0 Hcount].
    assert (Hin : contrast ∈ (map_to_list (BIDStoHDF5.contrast_balance a)).*1)
      by (apply balance_keys; eauto).
    destruct (count_suffixes_Raise a _ _ contrast e0 Hin Hcount) as (e & He & Hkey).
    exists e. unfold BIDStoHDF5.make_tot. rewrite He. split; [done|].
    intros Hall. apply Hkey. apply Forall_forall.
    intros key [t' Hkey']%balance_keys. by apply (Hall _ _ Hkey').
  - intros subject Hin Hrows.
    destruct (BIDStoHDF5.make_tot a _) as [tot|e]; simpl; [|eauto].
    edestruct (process_subjects_unknown a) as [e He]; last first.
    { rewrite He. simpl. eauto. }
    + clear Hin. induction Hrows as [|r rs Hr _ IH]; [done|].
      rewrite filter_cons. case_decide; [|done].
      rewrite filter_cons_False by done. done.
    + rewrite <- (sorted_perm subject_file_lst) in Hin. exact Hin.
Qed.

Lemma failed_selection_creates_no_container_witness :
  (exists e,
     BIDStoHDF5.__init__ Sample.args_absent Sample.subjects "data.hdf5" ∅
     = (∅, Raise e) /\
     (map_Forall (fun key (_ : Q) =>
                    is_ok (BIDStoHDF5.fullmatch Sample.args_absent key) = true)
                 (BIDStoHDF5.contrast_balance Sample.args_absent) ->
      e = KeyError)) /\
  exists e,
    BIDStoHDF5.__init__ Sample.args_all ["sub-01_T1w.nii.gz"; "sub-09_T1w.nii.gz"]
      "data.hdf5" ∅
    = (∅, Raise e).
Proof.
  split.
  - apply (proj1 (failed_selection_creates_no_container _ _ _ _) "T2w" (1 # 2)%Q).
    + reflexivity.
    + vm_compute. reflexivity.
  - apply (proj2 (failed_selection_creates_no_container _ _ _ _) "sub-09_T1w.nii.gz").
    + apply list_elem_of_further, list_elem_of_here.
    + repeat constructor; discriminate.
Defined.

(** ** The loop over the slices *)

Section Slices.
  Import BIDStoHDF5.
  Context (a : converter_args).

Lemma slice_loop_collects slices : forall idx v v',
  slice_loop a idx slices v = Ok v' ->
  useful_slices v'
  = useful_slices v ++
    match slice_filter_fn a with
    | Some fn =>
        fst <$> filter (fun p => fn (raw_input p.2) (raw_gt p.2) = true)
                       (imap (fun i sl => (idx + i, sl)) slices)
    | None => []
    end /\
  input_volumes v' = input_volumes v ++ omap (fun sl => head (input sl)) slices /\
  Forall (fun sl => input sl <> []) slices.
Proof.
  induction slices as [|sl slices IH]; intros idx v v' H.
  - injection H as <-. simpl. destruct (slice_filter_fn a); by rewrite !app_nil_r.
  - cbn [slice_loop] in H. apply bind_Ok in H as (v1 & H1 & H).
    apply IH in H as (Hu & Hi & Hall). unfold _slice_seg_pair in H1.
    destruct (input sl) as [|x xs] eqn:Hx; [discriminate|]. injection H1 as <-.
    simpl in Hu, Hi. rewrite Hu, Hi. cbn [omap list_omap imap]. rewrite Hx. simpl.
    split; [|split; [by rewrite <- app_assoc|constructor; [by rewrite Hx|done]]].
    destruct (slice_filter_fn a) as [fn|]; [|done].
    rewrite (imap_ext ((fun i (sl0 : pair_slice) => (idx + i, sl0)) ∘ S)
                      (fun i sl0 => (S (idx + i), sl0)))
      by (intros i y _; simpl; by rewrite Nat.add_succ_r).
    rewrite filter_cons, Nat.add_0_r. simpl.
    destruct (fn (raw_input sl) (raw_gt sl)).
    + rewrite decide_True by done. by rewrite <- app_assoc.
    + by rewrite decide_False by done.
Qed.

Lemma slice_loop_returns slices : forall idx v,
  Forall (fun sl => input sl <> []) slices ->
  is_ok (slice_loop a idx slices v) = true.
Proof.
  induction slices as [|sl slices IH]; intros idx v Hall; [done|].
  apply Forall_cons in Hall as [Hsl Hall]. cbn [slice_loop].
  unfold _slice_seg_pair. destruct (input sl); [done|]. simpl. by apply IH.
Qed.

Lemma slice_loop_raises slices : forall idx v e,
  slice_loop a idx slices v = Raise e ->
  e = IndexError /\ Exists (fun sl => input sl = []) slices.
Proof.
  induction slices as [|sl slices IH]; intros idx v e H; [discriminate|].
  cbn [slice_loop] in H. unfold _slice_seg_pair in H.
  destruct (input sl) eqn:Hx; simpl in H.
  - injection H as <-. split; [done|]. by constructor.
  - apply IH in H as [-> H]. split; [done|]. by constructor.
Qed.

End Slices.

(** X5.  The loop of [_load_filenames] over the slices of a subject,
    started on empty lists.  When every slice has an input, the loop
    returns with one input volume per slice, the first input of each slice
    in order, and with the indices of the slices that the slice filter
    retains as useful slices, none without a slice filter.  When a slice
    has no input, the loop raises IndexError. *)
Theorem slice_loop_collects_inputs_and_retained_indices
    (a : BIDStoHDF5.converter_args) (slices : list BIDStoHDF5.pair_slice) :
  (Forall (fun sl => BIDStoHDF5.input sl <> []) slices ->
   exists v,
     BIDStoHDF5.slice_loop a 0 slices (BIDStoHDF5.Volumes [] [] [] []) = Ok v /\
     BIDStoHDF5.useful_slices v = retained a slices /\
     Some <$> BIDStoHDF5.input_volumes v
     = (fun sl => head (BIDStoHDF5.input sl)) <$> slices) /\
  (Exists (fun sl => BIDStoHDF5.input sl = []) slices ->
   BIDStoHDF5.slice_loop a 0 slices (BIDStoHDF5.Volumes [] [] [] [])
   = Raise IndexError).
Proof.
  split.
  - intros Hall.
    pose proof (slice_loop_returns a slices 0 (BIDStoHDF5.Volumes [] [] [] []) Hall)
      as Hok.
    destruct (BIDStoHDF5.slice_loop a 0 slices _) as [v|e] eqn:Hloop; [|done].
    exists v. split; [done|].
    apply slice_loop_collects in Hloop as (Hu & Hi & _). simpl in Hu, Hi.
    split; [exact Hu|]. rewrite Hi. clear -Hall.
    induction Hall as [|sl slices Hsl _ IH]; [done|].
    cbn [omap list_omap]. destruct (BIDStoHDF5.input sl) eqn:Hx; [done|].
    rewrite !fmap_cons, Hx. simpl. f_equal. exact IH.
  - intros Hex.
    destruct (BIDStoHDF5.slice_loop a 0 slices _) as [v|e] eqn:Hloop.
    + apply slice_loop_collects in Hloop as (_ & _ & Hall).
      apply Exists_exists in Hex as (sl & Hin & Hsl).
      rewrite Forall_forall in Hall. by destruct (Hall sl Hin).
    + by apply slice_loop_raises in Hloop as [-> _].
Qed.

Lemma slice_loop_collects_inputs_and_retained_indices_witness :
  (exists v,
     BIDStoHDF5.slice_loop Sample.args_all 0
       (BIDStoHDF5.get_pair_slices Sample.args_all Sample.pair_01)
       (BIDStoHDF5.Volumes [] [] [] []) = Ok v /\
     BIDStoHDF5.useful_slices v
     = retained Sample.args_all
         (BIDStoHDF5.get_pair_slices Sample.args_all Sample.pair_01) /\
     Some <$> BIDStoHDF5.input_volumes v
     = (fun sl => head (BIDStoHDF5.input sl)) <$>
       BIDStoHDF5.get_pair_slices Sample.args_all Sample.pair_01) /\
  BIDStoHDF5.slice_loop Sample.args_all 0
    [BIDStoHDF5.PairSlice [] [] [] [] [] [] [] []]
    (BIDStoHDF5.Volumes [] [] [] [])
  = Raise IndexError.
Proof.
  split.
  - apply (proj1 (slice_loop_collects_inputs_and_retained_indices Sample.args_all
                    (BIDStoHDF5.get_pair_slices Sample.args_all Sample.pair_01))).
    repeat constructor; discriminate.
  - apply (proj2 (slice_loop_collects_inputs_and_retained_indices Sample.args_all
                    [BIDStoHDF5.PairSlice [] [] [] [] [] [] [] []])).
    by constructor.
Defined.

(** ** Quantisation of the masks *)

Section Quantize.
  Import BIDStoHDF5.

Lemma to_uint8_range q : (0 <= to_uint8 q < 256)%Z.
Proof. unfold to_uint8. apply Z.mod_pos_bound. lia. Qed.

Lemma to_uint8_integer (z : Z) :
  (0 <= z < 256)%Z -> forall q, q == inject_Z z -> to_uint8 q = z.
Proof.
  intros Hz q Hq. unfold to_uint8.
  assert (Hpos : Qle_bool 0 q = true).
  { apply Qle_bool_iff. rewrite Hq. rewrite <- (Zle_Qle 0). lia. }
  rewrite Hpos, (Qfloor_comp _ _ Hq), Qfloor_Z. by apply Z.mod_small.
Qed.

Lemma quantized_range z :
  (0 <= z < 256)%Z ->
  (0 <= inject_Z z / 255)%Q /\ (inject_Z z / 255 <= 1)%Q.
Proof. intros Hz. unfold Qle, Qdiv, Qmult, Qinv. simpl. lia. Qed.

End Quantize.

(** X6.  [(x * 255).astype(np.uint8) / 255.], which the converter applies
    to every gt and ROI slice: the result has the length of [x], its
    values lie between 0 and 1, and a mask whose values are all 0 or 1 is
    stored as it is. *)
Theorem quantize_keeps_binary_masks (x : ndarray) :
  length (BIDStoHDF5.quantize x) = length x /\
  Forall (fun q => (0 <= q)%Q /\ (q <= 1)%Q) (BIDStoHDF5.quantize x) /\
  (Forall (fun q => q == 0 \/ q == 1) x ->
   Forall2 Qeq (BIDStoHDF5.quantize x) x).
Proof.
  unfold BIDStoHDF5.quantize. split; [apply length_map|]. split.
  - apply Forall_map, Forall_forall. intros q _.
    apply quantized_range, to_uint8_range.
  - intros Hbin. apply Forall2_fmap_l, Forall_Forall2_diag.
    eapply Forall_impl; [exact Hbin|]. intros q [Hq|Hq]; simpl.
    + rewrite (to_uint8_integer 0); [by rewrite Hq|lia|by rewrite Hq].
    + rewrite (to_uint8_integer 255); [by rewrite Hq|lia|by rewrite Hq].
Qed.

Lemma quantize_keeps_binary_masks_witness :
  Forall2 Qeq (BIDStoHDF5.quantize [0%Q; 1%Q; 1%Q; 0%Q]) [0%Q; 1%Q; 1%Q; 0%Q].
Proof.
  apply (quantize_keeps_binary_masks [0%Q; 1%Q; 1%Q; 0%Q]).
  repeat constructor; (by left) || by right.
Defined.

(** ** A volume written twice *)

Section WriteTwice.
  Import BIDStoHDF5.

Lemma write_volumes_existing a input_metadata gt_metadata roi_metadata v grp :
  input_volumes v <> [] ->
  has_dataset "inputs" (contrast input_metadata) grp ->
  write_volumes a input_metadata gt_metadata roi_metadata v grp
  = (update_slices a (useful_slices v) grp, Raise ValueError).
Proof.
  intros Hin [d (sub & Hsub & Hd)%get_dataset_Ok]. unfold write_volumes.
  unfold mbind at 1, stateful_bind at 1. simpl.
  rewrite bool_decide_eq_false_2 by (destruct (input_volumes v); [done|simpl; lia]).
  unfold mbind at 1, stateful_bind at 1, try_modify at 1, create_dataset.
  assert (Hm : grp_members (update_slices a (useful_slices v) grp) = grp_members grp).
  { unfold update_slices. by destruct (grp_slices grp). }
  rewrite Hm, Hsub. simpl. by rewrite Hd.
Qed.

Lemma update_slices_members a useful grp :
  grp_members (update_slices a useful grp) = grp_members grp /\
  grp_contrast (update_slices a useful grp) = grp_contrast grp.
Proof. unfold update_slices. by destruct (grp_slices grp). Qed.

End WriteTwice.

(** X7.  A filename pair that was loaded cannot be loaded again: the
    second pass of the loop body of [_load_filenames] over the same pair
    raises ValueError, because [create_dataset] finds the input dataset of
    the contrast in the subject group.  The datasets and the contrast
    lists of the group are left as the first pass wrote them. *)
Theorem load_pair_twice_raises (a : BIDStoHDF5.converter_args)
    (fp : BIDStoHDF5.filename_pair) (st st1 : BIDStoHDF5.loader) :
  BIDStoHDF5.get_pair_slices a fp <> [] ->
  BIDStoHDF5.load_pair a fp st = (st1, Ok tt) ->
  exists st2 grp1 grp2,
    BIDStoHDF5.load_pair a fp st1 = (st2, Raise ValueError) /\
    h5_groups (BIDStoHDF5.hdf5 st1) !! BIDStoHDF5.subject_id fp = Some grp1 /\
    h5_groups (BIDStoHDF5.hdf5 st2) !! BIDStoHDF5.subject_id fp = Some grp2 /\
    grp_members grp2 = grp_members grp1 /\
    grp_contrast grp2 = grp_contrast grp1.
Proof.
  intros Hne H. unfold BIDStoHDF5.load_pair in *.
  destruct (BIDStoHDF5.slice_loop a 0 _ _) as [v|e] eqn:Hloop; [|discriminate].
  pose proof (slice_loop_Ok _ _ _ _ _ Hloop) as (Hlen & _ & _). simpl in Hlen.
  destruct (last (BIDStoHDF5.get_pair_slices a fp)) as [sl|] eqn:Hlast.
  2: { by apply last_None in Hlast. }
  simpl in H |- *.
  destruct (BIDStoHDF5.last_metadata sl) as [[[input_md gt_md] roi_md]|e]
    eqn:Hmd; [|discriminate].
  assert (Hin : BIDStoHDF5.input_volumes v <> []).
  { intros Hnil. rewrite Hnil in Hlen. simpl in Hlen.
    destruct (BIDStoHDF5.get_pair_slices a fp); [done|simpl in Hlen; lia]. }
  generalize (write_volumes_data a input_md gt_md roi_md v Hin
                (default empty_group
                   (h5_groups (BIDStoHDF5.hdf5 st) !! BIDStoHDF5.subject_id fp)) I).
  destruct (BIDStoHDF5.write_volumes a input_md gt_md roi_md v _)
    as [grp1 [[]|e]]; [|discriminate].
  intros ([d [Hd _]] & _ & _). injection H as <-. simpl.
  rewrite lookup_insert_eq. simpl.
  rewrite write_volumes_existing; [|done|by exists d].
  eexists _, grp1, _. split; [done|]. simpl. rewrite lookup_insert_eq.
  split; [done|]. split; [done|]. apply update_slices_members.
Qed.

Lemma load_pair_twice_raises_witness :
  exists st2 grp1 grp2,
    BIDStoHDF5.load_pair Sample.args_all Sample.pair_01
      (BIDStoHDF5.load_pair Sample.args_all Sample.pair_01
         (BIDStoHDF5.Loader Sample.empty_file None)).1
    = (st2, Raise ValueError) /\
    h5_groups (BIDStoHDF5.hdf5
                 (BIDStoHDF5.load_pair Sample.args_all Sample.pair_01
                    (BIDStoHDF5.Loader Sample.empty_file None)).1)
      !! BIDStoHDF5.subject_id Sample.pair_01 = Some grp1 /\
    h5_groups (BIDStoHDF5.hdf5 st2) !! BIDStoHDF5.subject_id Sample.pair_01
    = Some grp2 /\
    grp_members grp2 = grp_members grp1 /\
    grp_contrast grp2 = grp_contrast grp1.
Proof.
  apply (load_pair_twice_raises Sample.args_all Sample.pair_01
           (BIDStoHDF5.Loader Sample.empty_file None)).
  - discriminate.
  - vm_compute. reflexivity.
Defined.

(** ** The first volume of a subject *)

Section FirstWrite.
  Import BIDStoHDF5.

Lemma write_volumes_fresh a im gm rm v d1 d2 d3 :
  input_volumes v <> [] ->
  data_type im = Some d1 -> data_type gm = Some d2 -> data_type rm = Some d3 ->
  write_volumes a im gm rm v empty_group
  = (Group (Some (useful_slices v)) (is_nil (useful_slices v))
       (Some [contrast im])
       (<["roi" := Namespace (Some [contrast im])
                    {[contrast im :=
                        Dataset (roi_volume v)
                          (<["data_type" := [d3]]>
                             {["roi_filename" := gt_filenames rm]})]}]>
        (<["gt" := Namespace (Some [contrast im])
                     {[contrast im :=
                         Dataset (gt_volume v)
                           (<["data_type" := [d2]]>
                              {["gt_filenames" := gt_filenames im]})]}]>
         (<["inputs" := Namespace (Some [contrast im])
                          {[contrast im :=
                              Dataset (input_volumes v)
                                (<["data_type" := [d1]]>
                                   {["input_filenames" := input_filenames im]})]}]>
            ∅))),
     Ok tt).
Proof.
  intros Hin H1 H2 H3. unfold write_volumes.
  unfold mbind at 1, stateful_bind at 1. simpl.
  rewrite bool_decide_eq_false_2 by (destruct (input_volumes v); [done|simpl; lia]).
  unfold mbind, stateful_bind, try_modify, modify,
    create_dataset, create_subgrp_metadata, set_dataset_attr, create_metadata,
    set_dataset_attr, add_grp_contrast, getitem.
  rewrite H1, H2, H3. simpl.
  repeat (rewrite ?lookup_insert_eq, ?lookup_empty; simpl;
          rewrite ?insert_insert_eq; simpl;
          try (rewrite lookup_insert_ne by done)).
  reflexivity.
Qed.

Lemma stateful_bind_Ok {S A B} (m : stateful S A) (k : A -> stateful S B)
    (s s' : S) (b : B) :
  (m ≫= k) s = (s', Ok b) -> exists s1 x, m s = (s1, Ok x) /\ k x s1 = (s', Ok b).
Proof.
  unfold mbind, stateful_bind. destruct (m s) as [s1 [x|e]]; [eauto|discriminate].
Qed.

Lemma try_modify_Ok {S} (f : S -> result S) (s s' : S) :
  try_modify f s = (s', Ok tt) -> f s = Ok s'.
Proof. unfold try_modify. destruct (f s); [by intros [= ->]|discriminate]. Qed.

Lemma create_metadata_data_type ns name metadata grp grp' :
  create_metadata ns name metadata grp = Ok grp' -> is_Some (data_type metadata).
Proof. unfold create_metadata. destruct (data_type metadata); [eauto|discriminate]. Qed.

(** A call of [write_volumes] that writes and returns has found the key
    [data_type] in the three metadata records. *)
Lemma write_volumes_data_types a im gm rm v grp grp' :
  input_volumes v <> [] ->
  write_volumes a im gm rm v grp = (grp', Ok tt) ->
  is_Some (data_type im) /\ is_Some (data_type gm) /\ is_Some (data_type rm).
Proof.
  intros Hin H. unfold write_volumes in H.
  apply stateful_bind_Ok in H as (g0 & [] & _ & H).
  rewrite bool_decide_eq_false_2 in H
    by (destruct (input_volumes v); [done|simpl; lia]).
  do 3 apply stateful_bind_Ok in H as (? & [] & _ & H).
  apply stateful_bind_Ok in H as (? & [] & H1%try_modify_Ok & H).
  do 3 apply stateful_bind_Ok in H as (? & [] & _ & H).
  apply stateful_bind_Ok in H as (? & [] & H2%try_modify_Ok & H).
  do 3 apply stateful_bind_Ok in H as (? & [] & _ & H).
  apply stateful_bind_Ok in H as (? & [] & H3%try_modify_Ok & H).
  split; [|split]; eapply create_metadata_data_type; eassumption.
Qed.

End FirstWrite.

(** The subject group that the first pair of a subject leaves. *)
Lemma first_volume_group (a : BIDStoHDF5.converter_args)
    (fp : BIDStoHDF5.filename_pair) (st st' : BIDStoHDF5.loader) :
  h5_groups (BIDStoHDF5.hdf5 st) !! BIDStoHDF5.subject_id fp = None ->
  BIDStoHDF5.get_pair_slices a fp <> [] ->
  BIDStoHDF5.load_pair a fp st = (st', Ok tt) ->
  exists sl im gm rm grp d_in,
    last (BIDStoHDF5.get_pair_slices a fp) = Some sl /\
    BIDStoHDF5.last_metadata sl = Ok (im, gm, rm) /\
    h5_groups (BIDStoHDF5.hdf5 st') !! BIDStoHDF5.subject_id fp = Some grp /\
    namespace_contrasts "inputs" grp = Ok [BIDStoHDF5.contrast im] /\
    get_dataset "inputs" (BIDStoHDF5.contrast im) grp = Ok d_in /\
    Some <$> ds_data d_in
    = (fun sl => head (BIDStoHDF5.input sl)) <$> BIDStoHDF5.get_pair_slices a fp.
Proof.
  intros Hnew Hne H. unfold BIDStoHDF5.load_pair in H. rewrite Hnew in H.
  destruct (BIDStoHDF5.slice_loop a 0 _ _) as [v|e] eqn:Hloop; [|discriminate].
  apply slice_loop_collects in Hloop as (Hu & Hi & Hall). simpl in Hu, Hi.
  destruct (last (BIDStoHDF5.get_pair_slices a fp)) as [sl|] eqn:Hlast.
  2: { by apply last_None in Hlast. }
  simpl in H.
  destruct (BIDStoHDF5.last_metadata sl) as [[[im gm] rm]|e] eqn:Hmd;
    [|discriminate].
  assert (Hin : BIDStoHDF5.input_volumes v <> []).
  { rewrite Hi. destruct Hall as [|sl0 rest Hsl0 _]; [done|].
    cbn [omap list_omap]. by destruct (BIDStoHDF5.input sl0). }
  destruct (BIDStoHDF5.write_volumes a im gm rm v empty_group) as [grp [[]|e]]
    eqn:Hw; [|discriminate].
  destruct (write_volumes_data_types _ _ _ _ _ _ _ Hin Hw)
    as ([d1 H1] & [d2 H2] & [d3 H3]).
  rewrite (write_volumes_fresh _ _ _ _ _ _ _ _ Hin H1 H2 H3) in Hw.
  injection Hw as <-. injection H as <-. simpl.
  eexists sl, im, gm, rm, _,
    (Dataset _ (<["data_type" := [d1]]> {["input_filenames" := _]})).
  rewrite lookup_insert_eq. split; [done|]. split; [done|]. split; [done|].
  unfold namespace_contrasts, get_dataset, getitem. simpl.
  rewrite !(lookup_insert_ne _ "roi") by done.
  rewrite !(lookup_insert_ne _ "gt" "inputs") by done.
  rewrite !lookup_insert_eq. simpl. rewrite !lookup_singleton_eq.
  split; [done|]. split; [done|]. simpl.
  rewrite Hi. clear -Hall. induction Hall as [|sl0 rest Hsl0 _ IH]; [done|].
  cbn [omap list_omap]. destruct (BIDStoHDF5.input sl0) eqn:Hx; [done|].
  rewrite !fmap_cons, Hx. simpl. f_equal. exact IH.
Qed.

(** X8.  The first filename pair of a subject, with at least one slice,
    whose loop body in [_load_filenames] returns.  The subject group then
    has the retained slice indices as [slices], in an array of type
    float64 exactly when none is retained, the contrast of the last
    slice as its only contrast at group level and in each of the three
    namespaces, and an input dataset of that name with one entry per
    slice, the first input of the slice, whose attributes
    [input_filenames] and [data_type] are those of the input metadata.
    The gt dataset carries the [gt_filenames] of the input metadata and
    the ROI dataset, as [roi_filename], the [gt_filenames] of the ROI
    metadata. *)
Theorem first_volume_of_a_subject (a : BIDStoHDF5.converter_args)
    (fp : BIDStoHDF5.filename_pair) (st st' : BIDStoHDF5.loader) :
  h5_groups (BIDStoHDF5.hdf5 st) !! BIDStoHDF5.subject_id fp = None ->
  BIDStoHDF5.get_pair_slices a fp <> [] ->
  BIDStoHDF5.load_pair a fp st = (st', Ok tt) ->
  exists sl im gm rm grp d_in d_gt d_roi,
    last (BIDStoHDF5.get_pair_slices a fp) = Some sl /\
    BIDStoHDF5.last_metadata sl = Ok (im, gm, rm) /\
    h5_groups (BIDStoHDF5.hdf5 st') !! BIDStoHDF5.subject_id fp = Some grp /\
    grp_slices grp = Some (retained a (BIDStoHDF5.get_pair_slices a fp)) /\
    grp_slices_float grp
    = BIDStoHDF5.is_nil (retained a (BIDStoHDF5.get_pair_slices a fp)) /\
    grp_contrast grp = Some [BIDStoHDF5.contrast im] /\
    Forall (fun ns => namespace_contrasts ns grp = Ok [BIDStoHDF5.contrast im])
           ["inputs"; "gt"; "roi"] /\
    get_dataset "inputs" (BIDStoHDF5.contrast im) grp = Ok d_in /\
    Some <$> ds_data d_in
    = (fun sl => head (BIDStoHDF5.input sl)) <$> BIDStoHDF5.get_pair_slices a fp /\
    ds_attrs d_in !! "input_filenames" = Some (BIDStoHDF5.input_filenames im) /\
    ds_attrs d_in !! "data_type" = (fun x => [x]) <$> BIDStoHDF5.data_type im /\
    get_dataset "gt" (BIDStoHDF5.contrast im) grp = Ok d_gt /\
    ds_attrs d_gt !! "gt_filenames" = Some (BIDStoHDF5.gt_filenames im) /\
    ds_attrs d_gt !! "data_type" = (fun x => [x]) <$> BIDStoHDF5.data_type gm /\
    get_dataset "roi" (BIDStoHDF5.contrast im) grp = Ok d_roi /\
    ds_attrs d_roi !! "roi_filename" = Some (BIDStoHDF5.gt_filenames rm) /\
    ds_attrs d_roi !! "data_type" = (fun x => [x]) <$> BIDStoHDF5.data_type rm.
Proof.
  intros Hnew Hne H. unfold BIDStoHDF5.load_pair in H. rewrite Hnew in H.
  destruct (BIDStoHDF5.slice_loop a 0 _ _) as [v|e] eqn:Hloop; [|discriminate].
  apply slice_loop_collects in Hloop as (Hu & Hi & Hall). simpl in Hu, Hi.
  destruct (last (BIDStoHDF5.get_pair_slices a fp)) as [sl|] eqn:Hlast.
  2: { by apply last_None in Hlast. }
  simpl in H.
  destruct (BIDStoHDF5.last_metadata sl) as [[[im gm] rm]|e] eqn:Hmd;
    [|discriminate].
  assert (Hin : BIDStoHDF5.input_volumes v <> []).
  { rewrite Hi. destruct Hall as [|sl0 rest Hsl0 _]; [done|].
    cbn [omap list_omap]. by destruct (BIDStoHDF5.input sl0). }
  destruct (BIDStoHDF5.write_volumes a im gm rm v empty_group) as [grp [[]|e]]
    eqn:Hw; [|discriminate].
  destruct (write_volumes_data_types _ _ _ _ _ _ _ Hin Hw)
    as ([d1 H1] & [d2 H2] & [d3 H3]).
  rewrite (write_volumes_fresh _ _ _ _ _ _ _ _ Hin H1 H2 H3) in Hw.
  injection Hw as <-. injection H as <-. simpl.
  eexists sl, im, gm, rm, _,
    (Dataset _ (<["data_type" := [d1]]> {["input_filenames" := _]})),
    (Dataset _ (<["data_type" := [d2]]> {["gt_filenames" := _]})),
    (Dataset _ (<["data_type" := [d3]]> {["roi_filename" := _]})).
  rewrite lookup_insert_eq. split; [done|]. split; [done|]. split; [done|].
  unfold namespace_contrasts, get_dataset, getitem. simpl.
  rewrite !lookup_insert_eq.
  rewrite !(lookup_insert_ne _ "roi") by done.
  rewrite !(lookup_insert_ne _ "gt" "inputs") by done.
  rewrite !lookup_insert_eq. simpl. rewrite !lookup_singleton_eq.
  rewrite H1, H2, H3, Hu.
  split; [done|]. split; [done|]. split; [done|]. split; [by repeat constructor|].
  split; [done|]. split; [|done]. simpl.
  rewrite Hi. clear -Hall. induction Hall as [|sl0 rest Hsl0 _ IH]; [done|].
  cbn [omap list_omap]. destruct (BIDStoHDF5.input sl0) eqn:Hx; [done|].
  rewrite !fmap_cons, Hx. simpl. f_equal. exact IH.
Qed.

Lemma first_volume_of_a_subject_witness :
  exists sl im gm rm grp d_in d_gt d_roi,
    last (BIDStoHDF5.get_pair_slices Sample.args_all Sample.pair_01) = Some sl /\
    BIDStoHDF5.last_metadata sl = Ok (im, gm, rm) /\
    h5_groups (BIDStoHDF5.hdf5
       (BIDStoHDF5.load_pair Sample.args_all Sample.pair_01
         (BIDStoHDF5.Loader Sample.empty_file None)).1) !! BIDStoHDF5.subject_id Sample.pair_01 = Some grp /\
    grp_slices grp = Some (retained Sample.args_all (BIDStoHDF5.get_pair_slices Sample.args_all Sample.pair_01)) /\
    grp_slices_float grp
    = BIDStoHDF5.is_nil (retained Sample.args_all
                           (BIDStoHDF5.get_pair_slices Sample.args_all Sample.pair_01)) /\
    grp_contrast grp = Some [BIDStoHDF5.contrast im] /\
    Forall (fun ns => namespace_contrasts ns grp = Ok [BIDStoHDF5.contrast im])
           ["inputs"; "gt"; "roi"] /\
    get_dataset "inputs" (BIDStoHDF5.contrast im) grp = Ok d_in /\
    Some <$> ds_data d_in
    = (fun sl => head (BIDStoHDF5.input sl)) <$> BIDStoHDF5.get_pair_slices Sample.args_all Sample.pair_01 /\
    ds_attrs d_in !! "input_filenames" = Some (BIDStoHDF5.input_filenames im) /\
    ds_attrs d_in !! "data_type" = (fun x => [x]) <$> BIDStoHDF5.data_type im /\
    get_dataset "gt" (BIDStoHDF5.contrast im) grp = Ok d_gt /\
    ds_attrs d_gt !! "gt_filenames" = Some (BIDStoHDF5.gt_filenames im) /\
    ds_attrs d_gt !! "data_type" = (fun x => [x]) <$> BIDStoHDF5.data_type gm /\
    get_dataset "roi" (BIDStoHDF5.contrast im) grp = Ok d_roi /\
    ds_attrs d_roi !! "roi_filename" = Some (BIDStoHDF5.gt_filenames rm) /\
    ds_attrs d_roi !! "data_type" = (fun x => [x]) <$> BIDStoHDF5.data_type rm.
Proof.
  apply (first_volume_of_a_subject Sample.args_all Sample.pair_01
           (BIDStoHDF5.Loader Sample.empty_file None)).
  - reflexivity.
  - discriminate.
  - vm_compute. reflexivity.
Defined.

(** ** From the converter to the indexer *)

Section Indexable.
  Import BIDStoHDF5.

Lemma keeps_lists_insert grp ns sub sub' :
  grp_members grp !! ns = sub ->
  (forall s, sub = Some s -> is_Some (ns_contrast s) -> is_Some (ns_contrast sub')) ->
  keeps_lists grp (set_members grp (<[ns := sub']> (grp_members grp))).
Proof.
  intros Hsub Hc. split; [done|]. intros ns0 (s & Hs & Hl). unfold listed. simpl.
  destruct (decide (ns0 = ns)) as [->|Hne].
  - rewrite lookup_insert_eq. eexists. split; [done|]. eapply Hc; [|done]. congruence.
  - rewrite lookup_insert_ne by done. eauto.
Qed.

Lemma create_dataset_keeps_lists ns name data grp grp' :
  create_dataset ns name data grp = Ok grp' -> keeps_lists grp grp'.
Proof.
  unfold create_dataset. destruct (ns_datasets _ !! name); [discriminate|].
  intros [= <-]. eapply keeps_lists_insert; [done|].
  intros s Hs. rewrite Hs. done.
Qed.

Lemma create_subgrp_metadata_lists grp_key contrast grp grp' :
  create_subgrp_metadata grp_key contrast grp = Ok grp' ->
  keeps_lists grp grp' /\ listed grp_key grp'.
Proof.
  unfold create_subgrp_metadata.
  intros (sub & Hsub%getitem_Ok & [= <-])%bind_Ok. split.
  - eapply keeps_lists_insert; [done|]. simpl. eauto.
  - unfold listed. simpl. rewrite lookup_insert_eq. eexists. split; [done|].
    simpl. eauto.
Qed.

Lemma set_dataset_attr_keeps_lists ns name attr value grp grp' :
  set_dataset_attr ns name attr value grp = Ok grp' -> keeps_lists grp grp'.
Proof.
  unfold set_dataset_attr.
  intros (sub & Hsub%getitem_Ok & (d & Hd%getitem_Ok & [= <-])%bind_Ok)%bind_Ok.
  eapply keeps_lists_insert; [done|]. intros s [= <-]. done.
Qed.

Lemma create_metadata_keeps_lists ns name metadata grp grp' :
  create_metadata ns name metadata grp = Ok grp' -> keeps_lists grp grp'.
Proof.
  intros [dt H]%create_metadata_Ok. by eapply set_dataset_attr_keeps_lists.
Qed.

Ltac lists_step post :=
  eapply hoare_bind with (Q := fun _ => post);
  [apply hoare_try_modify; [intros s s' Hs Hf|done]|intros _].

Ltac settle :=
  repeat split;
  first [ assumption
        | match goal with
          | Hsl : grp_slices _ = grp_slices _ |- is_Some _ => rewrite Hsl
          | Hkeep : forall ns, listed ns _ -> listed ns _ |- listed _ _ => apply Hkeep
          end ];
  match goal with Hs : _ |- _ => apply Hs end.

Ltac kept :=
  match goal with
  | Hf : create_dataset _ _ _ _ = Ok _ |- _ =>
      apply create_dataset_keeps_lists in Hf as [Hsl Hkeep]
  | Hf : set_dataset_attr _ _ _ _ _ = Ok _ |- _ =>
      apply set_dataset_attr_keeps_lists in Hf as [Hsl Hkeep]
  | Hf : create_metadata _ _ _ _ = Ok _ |- _ =>
      apply create_metadata_keeps_lists in Hf as [Hsl Hkeep]
  | Hf : create_subgrp_metadata _ _ _ = Ok _ |- _ =>
      apply create_subgrp_metadata_lists in Hf as [[Hsl Hkeep] Hnew]
  end.

(** A call of [write_volumes] that writes and returns leaves a group that
    the indexer can read. *)
Lemma write_volumes_indexable a input_metadata gt_metadata roi_metadata v :
  input_volumes v <> [] ->
  hoare (fun _ => True)
    (write_volumes a input_metadata gt_metadata roi_metadata v)
    (fun _ => indexable) (fun _ => True).
Proof.
  intros Hin. unfold write_volumes.
  pose (S0 := fun grp => is_Some (grp_slices grp)).
  pose (S1 := fun grp => S0 grp /\ listed "inputs" grp).
  pose (S2 := fun grp => S1 grp /\ listed "gt" grp).
  pose (S3 := fun grp => S2 grp /\ listed "roi" grp).
  eapply hoare_bind with (Q := fun _ => S0).
  { apply hoare_modify. intros s _. unfold S0, update_slices.
    destruct (grp_slices s); simpl; eauto. }
  intros _.
  rewrite bool_decide_eq_false_2 by (destruct (input_volumes v); [done|simpl; lia]).
  lists_step S0. { kept. unfold S0 in *. settle. }
  lists_step S1. { kept. unfold S1, S0 in *. settle. }
  lists_step S1. { kept. unfold S1, S0 in *. settle. }
  lists_step S1. { kept. unfold S1, S0 in *. settle. }
  lists_step S1. { kept. unfold S1, S0 in *. settle. }
  lists_step S2. { kept. unfold S2, S1, S0 in *. settle. }
  lists_step S2. { kept. unfold S2, S1, S0 in *. settle. }
  lists_step S2. { kept. unfold S2, S1, S0 in *. settle. }
  lists_step S2. { kept. unfold S2, S1, S0 in *. settle. }
  lists_step S3. { kept. unfold S3, S2, S1, S0 in *. settle. }
  lists_step S3. { kept. unfold S3, S2, S1, S0 in *. settle. }
  lists_step S3. { kept. unfold S3, S2, S1, S0 in *. settle. }
  apply hoare_modify. intros s (((Hs & H1) & H2) & H3).
  assert (Hk : keeps_lists s (add_grp_contrast (contrast input_metadata) s)).
  { unfold add_grp_contrast. by destruct (grp_contrast s). }
  destruct Hk as [Hsl Hk]. split; [unfold S0 in Hs; by rewrite Hsl|].
  repeat constructor; by apply Hk.
Qed.

Lemma load_pair_indexable a fp st st' :
  get_pair_slices a fp <> [] ->
  load_pair a fp st = (st', Ok tt) ->
  all_indexable st ->
  all_indexable st' /\
  is_Some (h5_groups (hdf5 st') !! subject_id fp) /\
  (forall subject, is_Some (h5_groups (hdf5 st) !! subject) ->
                   is_Some (h5_groups (hdf5 st') !! subject)).
Proof.
  intros Hne H Hst. unfold load_pair in H.
  destruct (slice_loop a 0 _ _) as [v|e] eqn:Hloop; [|discriminate].
  apply slice_loop_Ok in Hloop as (Hlen & _ & _). simpl in Hlen.
  destruct (from_option Some (last_slice st) (last (get_pair_slices a fp)))
    as [sl|]; [|discriminate].
  destruct (last_metadata sl) as [[[input_md gt_md] roi_md]|e]; [|discriminate].
  assert (Hin : input_volumes v <> []).
  { intros Hnil. rewrite Hnil in Hlen. simpl in Hlen.
    destruct (get_pair_slices a fp); [done|simpl in Hlen; lia]. }
  generalize (write_volumes_indexable a input_md gt_md roi_md v Hin
                (default empty_group (h5_groups (hdf5 st) !! subject_id fp)) I).
  destruct (write_volumes a input_md gt_md roi_md v _) as [grp' [[]|e]];
    [|discriminate].
  intros Hgrp'. injection H as <-. unfold all_indexable. simpl.
  split; [by apply map_Forall_insert_2|]. split.
  - rewrite lookup_insert_eq. eauto.
  - intros subject Hs. destruct (decide (subject = subject_id fp)) as [->|Hne'].
    + rewrite lookup_insert_eq. eauto.
    + by rewrite lookup_insert_ne.
Qed.

Lemma load_pairs_indexable a pairs : forall st st',
  Forall (fun fp => get_pair_slices a fp <> []) pairs ->
  for_each (load_pair a) pairs st = (st', Ok tt) ->
  all_indexable st ->
  all_indexable st' /\
  Forall (fun fp => is_Some (h5_groups (hdf5 st') !! subject_id fp)) pairs /\
  (forall subject, is_Some (h5_groups (hdf5 st) !! subject) ->
                   is_Some (h5_groups (hdf5 st') !! subject)).
Proof.
  induction pairs as [|fp pairs IH]; intros st st' Hall H Hst.
  - injection H as <-. split; [done|]. split; [constructor|done].
  - apply Forall_cons in Hall as [Hfp Hall]. cbn [for_each] in H.
    unfold mbind, stateful_bind in H.
    destruct (load_pair a fp st) as [st1 [[]|e]] eqn:H1; [|discriminate].
    destruct (load_pair_indexable _ _ _ _ Hfp H1 Hst) as (Hst1 & Hdom & Hmono).
    destruct (IH _ _ Hall H Hst1) as (Hst' & Hdoms & Hmono').
    split; [done|]. split; [|by eauto]. constructor; [by apply Hmono'|done].
Qed.

Lemma load_pair_patients a fp st :
  patients_id (hdf5 (load_pair a fp st).1) = patients_id (hdf5 st).
Proof.
  unfold load_pair. destruct (slice_loop a 0 _ _) as [v|e]; [|done].
  destruct (from_option Some (last_slice st) _) as [sl|]; [|done].
  destruct (last_metadata sl) as [[[input_md gt_md] roi_md]|e]; [|done].
  by destruct (write_volumes a input_md gt_md roi_md v _).
Qed.

Lemma load_pairs_patients a pairs : forall st,
  patients_id (hdf5 (for_each (load_pair a) pairs st).1) = patients_id (hdf5 st).
Proof.
  induction pairs as [|fp pairs IH]; intros st; [done|].
  cbn [for_each]. unfold mbind, stateful_bind.
  pose proof (load_pair_patients a fp st) as H1.
  destruct (load_pair a fp st) as [st1 [[]|e]]; [|done].
  by rewrite IH.
Qed.

End Indexable.

Section Indexing.
  Import Dataframe.

Lemma process_line_returns dim flt rs grp (ln : line) subject col_names :
  indexable grp ->
  is_ok (process_line dim flt rs grp ln subject col_names) = true.
Proof.
  intros [[slices Hslices] Hns]. unfold process_line.
  apply Forall_cons in Hns as [(s1 & H1 & [a1 Ha1]) Hns].
  apply Forall_cons in Hns as [(s2 & H2 & [a2 Ha2]) Hns].
  apply Forall_cons in Hns as [(s3 & H3 & [a3 Ha3]) _].
  unfold process_key. rewrite H1, Ha1. simpl. rewrite H2, Ha2. simpl.
  rewrite H3, Ha3. simpl. rewrite Hslices. by destruct (_ && _).
Qed.

Lemma create_df_returns dim flt contrasts (f : hdf5_file) :
  Forall (fun subject => exists grp, h5_groups f !! subject = Some grp /\
                                     indexable grp)
         (patients_id f) ->
  is_ok (create_df dim flt contrasts f) = true.
Proof.
  intros Hall. unfold create_df.
  set (step := fun acc subject => _).
  assert (Hfold : forall rs, is_ok (foldl step (Ok rs) (patients_id f)) = true).
  { induction Hall as [|subject rest (grp & Hgrp & Hidx) _ IH]; intros rs; [done|].
    cbn [foldl].
    assert (Hstep : exists rs', step (Ok rs) subject = Ok rs').
    { unfold step. simpl. unfold getitem. rewrite Hgrp. simpl.
      match goal with
      | |- exists _, process_line ?d ?fl ?r ?g ?l ?s ?c = _ =>
          pose proof (process_line_returns d fl r g l s c Hidx) as Hok;
          destruct (process_line d fl r g l s c) as [rs'|e]; [eauto|done]
      end. }
    destruct Hstep as [rs' ->]. apply IH. }
  specialize (Hfold []). by destruct (foldl step (Ok []) (patients_id f)).
Qed.

End Indexing.

(** X9.  A conversion that returns, of subjects that all have at least one
    slice, leaves a container that the indexer can read: the patients of
    the file are the subjects of the filename pairs, each once and in the
    order in which the interpreter enumerates the set, each of them has a
    group with a [slices] attribute and a contrast list in each of the
    three namespaces, and [create_df] returns on the file for any
    configuration. *)
Theorem converted_container_is_indexable (a : BIDStoHDF5.converter_args)
    (subject_file_lst : list string) (path_hdf5 : string)
    (fs fs' : gmap string hdf5_file) (st : BIDStoHDF5.session) :
  enumerates (BIDStoHDF5.patients_order a) ->
  BIDStoHDF5.__init__ a subject_file_lst path_hdf5 fs = (fs', Ok st) ->
  Forall (fun fp => BIDStoHDF5.get_pair_slices a fp <> [])
         (BIDStoHDF5.filename_pairs st) ->
  exists f,
    fs' !! path_hdf5 = Some f /\
    patients_id f
    ≡ₚ remove_dups (BIDStoHDF5.subject_id <$> BIDStoHDF5.filename_pairs st) /\
    Forall (fun subject => exists grp, h5_groups f !! subject = Some grp /\
                                       indexable grp)
           (patients_id f) /\
    forall dim filter_slices contrasts,
      is_ok (Dataframe.create_df dim filter_slices contrasts f) = true.
Proof.
  intros Horder H Hslices.
  assert (Hsel : exists tot, BIDStoHDF5.select_subjects a subject_file_lst = Ok (tot, st)).
  { apply (__init___Ok a subject_file_lst path_hdf5 fs). by rewrite H. }
  destruct Hsel as [tot Hsel].
  pose proof (process_subjects_selected a subject_file_lst tot st Hsel) as [Hpat _].
  unfold BIDStoHDF5.__init__ in H. rewrite Hsel in H.
  unfold BIDStoHDF5._load_filenames in H.
  destruct (for_each _ _ _) as [ld [[]|e]] eqn:Hload; [|discriminate].
  injection H as <-. eexists. rewrite lookup_insert_eq. split; [done|].
  destruct (load_pairs_indexable _ _ _ _ Hslices Hload) as (Hidx & Hdom & Hmono).
  { apply map_Forall_empty. }
  assert (Hpid : patients_id (BIDStoHDF5.hdf5 ld)
                 = BIDStoHDF5.patients_order a (BIDStoHDF5.list_patients st)).
  { pose proof (load_pairs_patients a (BIDStoHDF5.filename_pairs st)
                  (BIDStoHDF5.Loader
                     (H5File (BIDStoHDF5.patients_order a (BIDStoHDF5.list_patients st))
                        (BIDStoHDF5.slice_axis a)
                        ["filter_empty_input"; "filter_empty_mask"] ∅) None)) as Hp.
    by rewrite Hload in Hp. }
  assert (Hperm : patients_id (BIDStoHDF5.hdf5 ld)
                  ≡ₚ remove_dups (BIDStoHDF5.subject_id <$>
                                   BIDStoHDF5.filename_pairs st)).
  { rewrite Hpid, <- Hpat. apply Horder. }
  split; [done|].
  assert (Hgroups : Forall (fun subject => exists grp,
                      h5_groups (BIDStoHDF5.hdf5 ld) !! subject = Some grp /\
                      indexable grp)
                    (patients_id (BIDStoHDF5.hdf5 ld))).
  { apply Forall_forall. intros subject Hin. rewrite Hperm in Hin.
    apply elem_of_remove_dups, list_elem_of_fmap in Hin as (fp & -> & Hfp).
    rewrite Forall_forall in Hdom. destruct (Hdom fp Hfp) as [grp Hgrp].
    exists grp. split; [done|]. by apply (Hidx _ _ Hgrp). }
  split; [done|]. intros dim flt contrasts. by apply create_df_returns.
Qed.

Lemma converted_container_is_indexable_witness :
  exists f,
    (BIDStoHDF5.__init__ Sample.args_all Sample.subjects "data.hdf5" ∅).1
      !! "data.hdf5" = Some f /\
    patients_id f
    ≡ₚ remove_dups
        (BIDStoHDF5.subject_id <$>
         BIDStoHDF5.filename_pairs
           (Sample.session_of
              (BIDStoHDF5.select_subjects Sample.args_all Sample.subjects))) /\
    Forall (fun subject => exists grp, h5_groups f !! subject = Some grp /\
                                       indexable grp)
           (patients_id f) /\
    forall dim filter_slices contrasts,
      is_ok (Dataframe.create_df dim filter_slices contrasts f) = true.
Proof.
  apply (converted_container_is_indexable Sample.args_all Sample.subjects
           "data.hdf5" ∅).
  - intros l. reflexivity.
  - vm_compute. reflexivity.
  - vm_compute. repeat constructor; discriminate.
Defined.

(** ** The rows of the index table *)

Section Rows.
  Import Dataframe.

Lemma process_line_Slices dim flt rs rs' grp (ln : line) subject col_names :
  process_line dim flt rs grp ln subject col_names = Ok rs' ->
  exists slices,
    grp_slices grp = Some slices /\
    (fun r => cell_of r "Slices") <$> rs'
    = ((fun r => cell_of r "Slices") <$> rs) ++
      (if Nat.eqb dim 2 && flt
       then (if grp_slices_float grp then FloatIndex else Index) <$> slices
       else [if grp_slices_float grp then FloatIndices slices
             else Indices slices]).
Proof.
  unfold process_line.
  intros (ln1 & _ & (ln2 & _ & (ln3 & _ & H)%bind_Ok)%bind_Ok)%bind_Ok.
  destruct (grp_slices grp) as [slices|]; [|discriminate].
  exists slices. split; [done|]. simpl in H.
  destruct (Nat.eqb dim 2 && flt); injection H as <-; rewrite fmap_app; f_equal.
  - rewrite <- list_fmap_compose. apply list_fmap_ext. intros i n _. simpl.
    unfold cell_of. rewrite lookup_insert_eq. simpl.
    by destruct (grp_slices_float grp).
  - simpl. unfold cell_of. rewrite lookup_insert_eq. simpl.
    by destruct (grp_slices_float grp).
Qed.

Lemma foldl_Raise {A B} (step : result B -> A -> result B) (l : list A) e :
  (forall x, step (Raise e) x = Raise e) -> foldl step (Raise e) l = Raise e.
Proof. intros H. induction l as [|x l IH]; [done|]. simpl. by rewrite H. Qed.

End Rows.

(** X10.  The table that [create_df] builds has the contrasts, then
    [Slices], then [Subjects] as columns, and its rows follow the patients
    of the file in order: in 2D mode with a slice filter a patient has one
    row per recorded slice, with that slice as selector, and otherwise one
    row, with all its recorded slices as selector; the selector has the
    type, int64 or float64, of the recorded array.  The number of rows,
    which is the length of the dataset, follows. *)
Theorem create_df_rows_follow_slices (dim : nat) (filter_slices : bool)
    (contrasts : list string) (f : hdf5_file) (t : Dataframe.table) :
  Dataframe.create_df dim filter_slices contrasts f = Ok t ->
  Dataframe.columns t
  = Dataframe.dict_keys (contrasts ++ ["Slices"]) ++ ["Subjects"] /\
  (fun r => Dataframe.cell_of r "Slices") <$> Dataframe.rows t
  = flat_map (selectors dim filter_slices f) (patients_id f) /\
  length (Dataframe.rows t)
  = sum_list ((fun subject => length (selectors dim filter_slices f subject))
              <$> patients_id f).
Proof.
  unfold Dataframe.create_df. intros (rs & Hfold & [= <-])%bind_Ok. simpl.
  split; [done|].
  set (step := fun acc subject => _) in Hfold.
  assert (Hrows : forall patients rs0 rs1,
            foldl step (Ok rs0) patients = Ok rs1 ->
            (fun r => Dataframe.cell_of r "Slices") <$> rs1
            = ((fun r => Dataframe.cell_of r "Slices") <$> rs0) ++
              flat_map (selectors dim filter_slices f) patients).
  { induction patients as [|subject rest IH]; intros rs0 rs1 H.
    - injection H as <-. by rewrite app_nil_r.
    - cbn [foldl] in H.
      destruct (step (Ok rs0) subject) as [rs'|e] eqn:Hstep.
      + apply IH in H. rewrite H. cbn [flat_map]. rewrite app_assoc. f_equal.
        unfold step in Hstep. simpl in Hstep.
        apply bind_Ok in Hstep as (grp & Hgrp%getitem_Ok & Hline).
        apply process_line_Slices in Hline as (slices & Hslices & ->).
        f_equal. unfold selectors. rewrite Hgrp. simpl. by rewrite Hslices.
      + rewrite foldl_Raise in H; [discriminate|done]. }
  apply Hrows in Hfold. simpl in Hfold. split; [done|].
  rewrite <- (length_fmap (fun r => Dataframe.cell_of r "Slices")), Hfold.
  clear. induction (patients_id f) as [|subject rest IH]; [done|].
  cbn [flat_map]. rewrite length_app, IH. done.
Qed.

Lemma create_df_rows_follow_slices_witness :
  Dataframe.columns SampleFiltered.table
  = Dataframe.dict_keys (["T1w"; "gt"; "ROI"] ++ ["Slices"]) ++ ["Subjects"] /\
  (fun r => Dataframe.cell_of r "Slices") <$> Dataframe.rows SampleFiltered.table
  = flat_map (selectors 2 true SampleFiltered.container)
             (patients_id SampleFiltered.container) /\
  length (Dataframe.rows SampleFiltered.table)
  = sum_list ((fun subject =>
                 length (selectors 2 true SampleFiltered.container subject))
              <$> patients_id SampleFiltered.container).
Proof.
  apply (create_df_rows_follow_slices 2 true ["T1w"; "gt"; "ROI"]
           SampleFiltered.container).
  vm_compute. reflexivity.
Defined.

(** ** Cleaning twice *)

Section CleanTwice.
  Import Dataframe.

Lemma replace_line_idem contrasts (r : line) :
  replace_line contrasts (replace_line contrasts r) = replace_line contrasts r.
Proof.
  apply map_eq. intros col. rewrite !replace_line_lookup.
  case_decide; [|done]. destruct (r !! col) as [x|]; [|done].
  simpl. by rewrite replace_None_idem.
Qed.

Lemma dropna_idem (t : table) : dropna (dropna t) = dropna t.
Proof.
  unfold dropna. simpl. f_equal.
  induction (rows t) as [|r rs IH]; [done|].
  rewrite filter_cons. case_decide as Hr.
  - rewrite filter_cons_True by done. by rewrite IH.
  - done.
Qed.

Lemma replace_line_dropna contrasts cols (rs : list line) :
  map (replace_line contrasts)
      (rows (dropna (Table cols (map (replace_line contrasts) rs))))
  = rows (dropna (Table cols (map (replace_line contrasts) rs))).
Proof.
  unfold dropna. simpl. induction rs as [|r rs IH]; [done|].
  simpl. rewrite filter_cons. case_decide as Hr; [|done].
  simpl. by rewrite replace_line_idem, IH.
Qed.

End CleanTwice.

(** X11.  Cleaning is idempotent: a table that [clean] returned is left as
    it is by a second [clean] on the same contrasts. *)
Theorem clean_twice_changes_nothing (contrasts : list string)
    (t t' : Dataframe.table) :
  Dataframe.clean contrasts t = Ok t' ->
  Dataframe.clean contrasts t' = Ok t'.
Proof.
  unfold Dataframe.clean.
  destruct (forallb _ contrasts) eqn:Hcols; [|discriminate].
  intros [= <-]. cbn [Dataframe.columns Dataframe.dropna]. rewrite Hcols. f_equal.
  fold (Dataframe.dropna
          (Dataframe.Table (Dataframe.columns t)
             (map (Dataframe.replace_line contrasts) (Dataframe.rows t)))).
  rewrite replace_line_dropna.
  exact (dropna_idem
           (Dataframe.Table (Dataframe.columns t)
              (map (Dataframe.replace_line contrasts) (Dataframe.rows t)))).
Qed.

Lemma clean_twice_changes_nothing_witness :
  Dataframe.clean ["T1w"; "T2w"] SampleClean.cleaned = Ok SampleClean.cleaned.
Proof.
  apply (clean_twice_changes_nothing ["T1w"; "T2w"] SampleTable.built).
  vm_compute. reflexivity.
Defined.

(** ** What cleaning guarantees *)

Section CleanPost.
  Import Dataframe.

Lemma replace_None_not_sentinel x : is_sentinel (replace_None x) = false.
Proof.
  destruct x as [s| | | | | | |]; try done. unfold replace_None.
  destruct (String.eqb s "None") eqn:E; [done|]. simpl. exact E.
Qed.

Lemma replace_line_no_sentinel contrasts (r : line) :
  has_sentinel contrasts (replace_line contrasts r) = false.
Proof.
  unfold has_sentinel. apply not_true_is_false.
  intros (col & Hin%list_elem_of_In & Hs)%existsb_exists.
  unfold cell_of in Hs. rewrite replace_line_lookup, decide_True in Hs by done.
  destruct (r !! col) as [x|]; simpl in Hs; [|done].
  by rewrite replace_None_not_sentinel in Hs.
Qed.

End CleanPost.

(** X15.  Whatever the table holds, a [clean] that returns keeps the
    columns, and leaves rows of the table, in their order, with the
    sentinel replaced in the listed columns; in what remains no row holds
    a null in any column, nor the sentinel in a listed column. *)
Theorem clean_leaves_no_null_and_no_sentinel (contrasts : list string)
    (t t' : Dataframe.table) :
  Dataframe.clean contrasts t = Ok t' ->
  Dataframe.columns t' = Dataframe.columns t /\
  sublist (Dataframe.rows t')
          (Dataframe.replace_line contrasts <$> Dataframe.rows t) /\
  no_null (Dataframe.columns t') (Dataframe.rows t') /\
  Forall (fun r => has_sentinel contrasts r = false) (Dataframe.rows t').
Proof.
  unfold Dataframe.clean.
  destruct (forallb _ contrasts); [|discriminate]. intros [= <-]. simpl.
  split; [done|]. split; [apply sublist_filter|]. split.
  - apply Forall_forall. intros r [Hr _]%list_elem_of_filter.
    by apply forallb_Forall in Hr; eapply Forall_impl; [exact Hr|];
      intros col Hcol; apply negb_true_iff.
  - apply Forall_forall. intros r [_ Hr]%list_elem_of_filter.
    apply list_elem_of_fmap in Hr as (r0 & -> & _).
    apply replace_line_no_sentinel.
Qed.

Lemma clean_leaves_no_null_and_no_sentinel_witness :
  Dataframe.columns SampleClean.cleaned = Dataframe.columns SampleTable.built /\
  sublist (Dataframe.rows SampleClean.cleaned)
          (Dataframe.replace_line ["T1w"; "T2w"] <$>
           Dataframe.rows SampleTable.built) /\
  no_null (Dataframe.columns SampleClean.cleaned)
          (Dataframe.rows SampleClean.cleaned) /\
  Forall (fun r => has_sentinel ["T1w"; "T2w"] r = false)
         (Dataframe.rows SampleClean.cleaned).
Proof.
  apply (clean_leaves_no_null_and_no_sentinel ["T1w"; "T2w"] SampleTable.built).
  vm_compute. reflexivity.
Defined.

(** ** The mask of missing modalities *)

Section Mask.
  Import HDF5Dataset.

Lemma missing_mod_valid p n d :
  (0 <= p)%Q -> (p <= 1)%Q -> 2 <= n -> possible_draw p n d ->
  exists row, missing_mod p n d = Ok row /\ valid_mask n row.
Proof.
  intros Hp0 Hp1 Hn [[Hlen Hall] Hr]. unfold missing_mod.
  assert (Qle_bool 0 p = true) as -> by by apply Qle_bool_iff.
  assert (Qle_bool p 1 = true) as -> by by apply Qle_bool_iff.
  simpl. destruct (np_any (choice d)) eqn:Hany; simpl.
  - eexists. split; [done|]. split; [done|]. split; [|done].
    eapply Forall_impl; [exact Hall|]. intros b [[-> _]|[-> _]]; auto.
  - unfold setitem. rewrite length_replicate.
    rewrite bool_decide_eq_true_2 by lia. eexists. split; [done|].
    split; [by rewrite length_insert, length_replicate|]. split.
    + apply Forall_insert; [|by right].
      apply Forall_replicate. by left.
    + apply np_any_true. exists (randint d), 1. split; [|done].
      apply list_lookup_insert_eq. rewrite length_replicate. lia.
Qed.

Lemma update_rows_valid p n rng count : forall idx (m : list (list nat)),
  (0 <= p)%Q -> (p <= 1)%Q -> 2 <= n ->
  idx + count <= length m ->
  (forall i, idx <= i < idx + count -> possible_draw p n (rng i)) ->
  exists m',
    update_rows p n rng idx count m = (m', Ok tt) /\
    length m' = length m /\
    forall i row, m' !! i = Some row ->
      if bool_decide (idx <= i < idx + count) then valid_mask n row
      else m !! i = Some row.
Proof.
  induction count as [|count IH]; intros idx m Hp0 Hp1 Hn Hlen Hrng.
  - exists m. split; [done|]. split; [done|]. intros i row Hrow.
    by rewrite bool_decide_eq_false_2 by lia.
  - cbn [update_rows]. unfold mbind, stateful_bind, try_modify.
    destruct (missing_mod_valid p n (rng idx) Hp0 Hp1 Hn) as (new & -> & Hnew).
    { apply Hrng. lia. }
    cbn. rewrite bool_decide_eq_true_2 by lia.
    destruct (IH (S idx) (<[idx := new]> m) Hp0 Hp1 Hn) as (m' & -> & Hlen' & Hrows).
    { rewrite length_insert. lia. }
    { intros i Hi. apply Hrng. lia. }
    exists m'. split; [done|]. rewrite length_insert in Hlen'. split; [done|].
    intros i row Hrow. specialize (Hrows i row Hrow).
    destruct (decide (i = idx)) as [->|Hne].
    + rewrite bool_decide_eq_true_2 by lia.
      rewrite bool_decide_eq_false_2 in Hrows by lia.
      rewrite list_lookup_insert_eq in Hrows by lia. by injection Hrows as <-.
    + case_bool_decide.
      * by rewrite bool_decide_eq_true_2 by lia.
      * rewrite bool_decide_eq_false_2 by lia.
        by rewrite list_lookup_insert_ne in Hrows.
Qed.

End Mask.

(** X12.  With two contrasts or more, a probability between 0 and 1 and a
    mask that has one row per row of the table, [update] with the strategy
    'Missing' returns, whatever the generator draws: the table and the
    status are untouched, and the new mask has one row per row of the
    table, each with one entry per contrast, 0 or 1, and not all 0. *)
Theorem update_returns_a_valid_mask (p : Q) (rng : nat -> HDF5Dataset.draw)
    (self : HDF5Dataset.t) :
  (0 <= p)%Q -> (p <= 1)%Q ->
  2 <= length (HDF5Dataset.cst_lst self) ->
  length (HDF5Dataset.cst_matrix self) = HDF5Dataset.__len__ self ->
  (forall idx, idx < HDF5Dataset.__len__ self ->
     HDF5Dataset.possible_draw p (length (HDF5Dataset.cst_lst self)) (rng idx)) ->
  exists self',
    HDF5Dataset.update "Missing" p rng self = (self', Ok tt) /\
    HDF5Dataset.dataframe self' = HDF5Dataset.dataframe self /\
    HDF5Dataset.status self' = HDF5Dataset.status self /\
    length (HDF5Dataset.cst_matrix self') = HDF5Dataset.__len__ self' /\
    Forall (valid_mask (length (HDF5Dataset.cst_lst self)))
           (HDF5Dataset.cst_matrix self').
Proof.
  intros Hp0 Hp1 Hn Hlen Hrng. unfold HDF5Dataset.update. simpl.
  destruct (update_rows_valid p (length (HDF5Dataset.cst_lst self)) rng
              (HDF5Dataset.__len__ self) 0 (HDF5Dataset.cst_matrix self))
    as (m' & -> & Hlen' & Hrows); try done.
  { simpl. lia. }
  { intros i Hi. apply Hrng. lia. }
  eexists. split; [done|]. simpl. split; [done|]. split; [done|].
  split; [unfold HDF5Dataset.__len__ in *; simpl; lia|].
  apply Forall_lookup. intros i row Hrow.
  specialize (Hrows i row Hrow). apply lookup_lt_Some in Hrow.
  rewrite bool_decide_eq_true_2 in Hrows by lia. done.
Qed.

Lemma update_returns_a_valid_mask_witness :
  exists self',
    HDF5Dataset.update "Missing" (1 # 2)
      (fun _ => HDF5Dataset.Draw [0; 0; 0] 1) SampleDataset.three_contrasts
    = (self', Ok tt) /\
    HDF5Dataset.dataframe self'
    = HDF5Dataset.dataframe SampleDataset.three_contrasts /\
    HDF5Dataset.status self' = HDF5Dataset.status SampleDataset.three_contrasts /\
    length (HDF5Dataset.cst_matrix self') = HDF5Dataset.__len__ self' /\
    Forall (valid_mask (length (HDF5Dataset.cst_lst SampleDataset.three_contrasts)))
           (HDF5Dataset.cst_matrix self').
Proof.
  apply (update_returns_a_valid_mask (1 # 2)
           (fun _ => HDF5Dataset.Draw [0; 0; 0] 1) SampleDataset.three_contrasts).
  - discriminate.
  - discriminate.
  - simpl. lia.
  - reflexivity.
  - intros idx _. split; [split; [reflexivity|]|simpl; lia].
    repeat constructor; left; split; reflexivity.
Defined.

(** ** A promotion that fails *)

Section FailedPromotion.
  Import Dataframe HDF5Dataset.

Lemma select_data d slices x :
  select d slices = Ok x -> (exists s, x = Stack s) \/ (exists y, x = Plane y).
Proof.
  unfold select. destruct slices as [s| |l|n|l|n|s|y]; try discriminate.
  - intros (planes & _ & H)%bind_Ok.
    destruct (increasing l); [|discriminate]. injection H as <-. eauto.
  - destruct (ds_data d !! n); [|discriminate]. intros [= <-]. eauto.
Qed.

Lemma read_cell_data f cols (r : line) ct x :
  read_cell f cols r ct = Ok x ->
  "Slices" ∈ cols /\ ct ∈ cols /\
  ((exists s, x = Stack s) \/ (exists y, x = Plane y)).
Proof.
  unfold read_cell. case_bool_decide as Hs; [|discriminate].
  case_bool_decide as Hct; [|discriminate]. simpl.
  destruct (cell_of r ct); try discriminate.
  intros (d & _ & H)%bind_Ok. apply select_data in H. done.
Qed.

Lemma read_cell_promoted f cols (r : line) ct x :
  read_cell f cols r ct = Ok x ->
  read_cell f cols (<[ct := x]> r) ct = Raise TypeError.
Proof.
  intros (Hs & Hct & Hx)%read_cell_data. unfold read_cell.
  rewrite !bool_decide_eq_true_2 by done. simpl.
  unfold cell_of. rewrite lookup_insert_eq. simpl.
  by destruct Hx as [[s ->]|[y ->]].
Qed.

End FailedPromotion.

(** X13.  Promotion is not atomic and cannot be retried.  When the loop
    of [load_into_ram] over the rows raises for a contrast after it has
    read the first row, the contrast is still marked as not resident while
    the rows read so far hold data; a second call for the same contrast
    then raises TypeError on the first row, because it takes the data of
    the cell for a path, and leaves the object as it is. *)
Theorem failed_promotion_cannot_be_retried (f : hdf5_file) (ct : string)
    (self self' : HDF5Dataset.t) (e : exn) (r : Dataframe.line)
    (rest : list Dataframe.line) (x : Dataframe.cell) :
  HDF5Dataset.filter_slices self = true ->
  HDF5Dataset.status self !! ct = Some false ->
  Dataframe.rows (HDF5Dataset.dataframe self) = r :: rest ->
  HDF5Dataset.read_cell f (Dataframe.columns (HDF5Dataset.dataframe self)) r ct
  = Ok x ->
  HDF5Dataset.load_contrast f ct self = (self', Raise e) ->
  HDF5Dataset.status self' !! ct = Some false /\
  head (Dataframe.rows (HDF5Dataset.dataframe self')) = Some (<[ct := x]> r) /\
  HDF5Dataset.load_contrast f ct self' = (self', Raise TypeError).
Proof.
  intros Hf Hs Hrows Hx H. unfold HDF5Dataset.load_contrast in *.
  rewrite Hs, Hf, Hrows in H. cbn [HDF5Dataset.promote_rows] in H.
  rewrite Hx in H.
  destruct (HDF5Dataset.promote_rows true f _ ct rest) as [rest' out] eqn:Hrest.
  destruct out as [[]|e']; [discriminate|]. injection H as <- <-.
  simpl. rewrite Hs, Hf. split; [done|]. split; [done|].
  cbn [HDF5Dataset.promote_rows]. by rewrite (read_cell_promoted _ _ _ _ _ Hx).
Qed.

Lemma failed_promotion_cannot_be_retried_witness :
  HDF5Dataset.status SamplePromotion.half_promoted !! "T1w" = Some false /\
  head (Dataframe.rows (HDF5Dataset.dataframe SamplePromotion.half_promoted))
  = Some (<["T1w" := Dataframe.Stack [[0%Q; 1%Q]; [1%Q; 1%Q]]]>
            SamplePromotion.first_row) /\
  HDF5Dataset.load_contrast SampleDataset.container "T1w"
    SamplePromotion.half_promoted
  = (SamplePromotion.half_promoted, Raise TypeError).
Proof.
  apply (failed_promotion_cannot_be_retried SampleDataset.container "T1w"
           SamplePromotion.two_rows SamplePromotion.half_promoted KeyError
           SamplePromotion.first_row [SamplePromotion.stray_row]).
  - reflexivity.
  - reflexivity.
  - reflexivity.
  - vm_compute. reflexivity.
  - vm_compute. reflexivity.
Defined.

(** ** What promotion and update leave alone *)

Section Shape.
  Import Dataframe HDF5Dataset.

Lemma promote_rows_length flt f cols ct rs :
  length (promote_rows flt f cols ct rs).1 = length rs.
Proof.
  induction rs as [|r rs IH]; [done|]. simpl. destruct flt.
  - destruct (read_cell f cols r ct); [|done].
    destruct (promote_rows true f cols ct rs). simpl in *. by rewrite IH.
  - destruct (promote_rows false f cols ct rs). simpl in *. by rewrite IH.
Qed.

Lemma same_shape_refl self : same_shape self self.
Proof. by repeat split. Qed.

Lemma same_shape_trans s1 s2 s3 :
  same_shape s1 s2 -> same_shape s2 s3 -> same_shape s1 s3.
Proof.
  intros (?&?&?&?&?&?&?&?) (?&?&?&?&?&?&?&?). repeat split; congruence.
Qed.

Lemma load_contrast_shape f ct self :
  same_shape self (load_contrast f ct self).1.
Proof.
  unfold load_contrast.
  destruct (status self !! ct) as [resident|] eqn:Hs; [|apply same_shape_refl].
  assert (Hdom : dom (<[ct := true]> (status self)) = dom (status self)).
  { rewrite dom_insert_L. apply elem_of_dom_2 in Hs.
    by apply subseteq_union_1_L, singleton_subseteq_l. }
  destruct resident; [by repeat split|].
  pose proof (promote_rows_length (filter_slices self) f
                (columns (dataframe self)) ct (rows (dataframe self))) as Hlen.
  destruct (promote_rows _ _ _ _ _) as [rs [[]|e]]; by repeat split.
Qed.

Lemma load_into_ram_shape fs contrast_lst self :
  same_shape self (load_into_ram fs contrast_lst self).1.
Proof.
  unfold load_into_ram. destruct (fs !! self_path_hdf5 self) as [f|];
    [|apply same_shape_refl].
  revert self. induction contrast_lst as [|ct rest IH]; intros self;
    [apply same_shape_refl|].
  cbn [for_each]. unfold mbind, stateful_bind.
  pose proof (load_contrast_shape f ct self) as H1.
  destruct (load_contrast f ct self) as [self1 [[]|e]]; [|done].
  eapply same_shape_trans; [exact H1|]. apply IH.
Qed.

Lemma update_rows_length p n rng count : forall idx (m : list (list nat)),
  length (update_rows p n rng idx count m).1 = length m.
Proof.
  induction count as [|count IH]; intros idx m; [done|].
  cbn [update_rows]. unfold mbind, stateful_bind, try_modify.
  destruct (missing_mod p n (rng idx)) as [row|e]; [|done]. cbn.
  case_bool_decide; [|done]. by rewrite IH, length_insert.
Qed.

End Shape.

(** X14.  Neither [load_into_ram] nor [update] changes the shape of the
    dataset, whether they return or raise.  [load_into_ram] keeps the
    contrast list, the index object, the mask, the columns and the number
    of rows of the table, and the keys of the status; [update] keeps the table and the
    status, and the number of rows of the mask. *)
Theorem promotion_and_update_keep_the_shape (fs : gmap string hdf5_file)
    (contrast_lst : list string) (strategy : string) (p : Q)
    (rng : nat -> HDF5Dataset.draw) (self : HDF5Dataset.t) :
  same_shape self (HDF5Dataset.load_into_ram fs contrast_lst self).1 /\
  HDF5Dataset.dataframe (HDF5Dataset.update strategy p rng self).1
  = HDF5Dataset.dataframe self /\
  HDF5Dataset.status (HDF5Dataset.update strategy p rng self).1
  = HDF5Dataset.status self /\
  HDF5Dataset.cst_lst (HDF5Dataset.update strategy p rng self).1
  = HDF5Dataset.cst_lst self /\
  length (HDF5Dataset.cst_matrix (HDF5Dataset.update strategy p rng self).1)
  = length (HDF5Dataset.cst_matrix self).
Proof.
  split; [apply load_into_ram_shape|]. unfold HDF5Dataset.update.
  destruct (String.eqb strategy "Missing"); [|done].
  pose proof (update_rows_length p (length (HDF5Dataset.cst_lst self)) rng
                (HDF5Dataset.__len__ self) 0 (HDF5Dataset.cst_matrix self)) as Hlen.
  by destruct (HDF5Dataset.update_rows _ _ _ _ _ _).
Qed.

(** ** The object that the constructor returns *)

Section Constructed.
  Import Dataframe HDF5Dataset.

Lemma load_contrast_status f ct self self' :
  load_contrast f ct self = (self', Ok tt) ->
  status self' = match status self !! ct with
                 | Some _ => <[ct := true]> (status self)
                 | None => status self
                 end.
Proof.
  unfold load_contrast. destruct (status self !! ct) as [resident|]; [|by intros [= <-]].
  destruct resident; [by intros [= <-]|].
  destruct (promote_rows _ _ _ _ _) as [rs [[]|e]]; [|discriminate].
  by intros [= <-].
Qed.

Lemma load_into_ram_status fs contrast_lst self self' :
  load_into_ram fs contrast_lst self = (self', Ok tt) ->
  forall ct,
    status self' !! ct
    = if bool_decide (ct ∈ contrast_lst) then (fun _ => true) <$> status self !! ct
      else status self !! ct.
Proof.
  unfold load_into_ram. destruct (fs !! self_path_hdf5 self) as [f|]; [|discriminate].
  revert self. induction contrast_lst as [|c rest IH]; intros self H ct.
  - injection H as <-. rewrite bool_decide_eq_false_2; [done|]. by intros ?%elem_of_nil.
  - cbn [for_each] in H. unfold mbind, stateful_bind in H.
    destruct (load_contrast f c self) as [self1 [[]|e]] eqn:H1; [|discriminate].
    apply load_contrast_status in H1. rewrite (IH _ H ct), H1.
    destruct (decide (ct = c)) as [->|Hne].
    + rewrite (bool_decide_eq_true_2 (c ∈ c :: rest)) by apply list_elem_of_here.
      destruct (status self !! c) eqn:Hc.
      * rewrite lookup_insert_eq. by case_bool_decide.
      * rewrite Hc. by case_bool_decide.
    + assert (Hsame : match status self !! c with
                      | Some _ => <[c := true]> (status self)
                      | None => status self
                      end !! ct = status self !! ct).
      { destruct (status self !! c); [by rewrite lookup_insert_ne|done]. }
      rewrite Hsame. destruct (decide (ct ∈ rest)) as [Hin|Hin].
      * rewrite !bool_decide_eq_true_2; [done| |done]. by apply list_elem_of_further.
      * rewrite !bool_decide_eq_false_2; [done| |done].
        rewrite elem_of_cons. by intros [?|?].
Qed.

Lemma lookup_status_fresh (l : list string) ct :
  (list_to_map (map (fun ct => (ct, false)) l) : gmap string bool) !! ct
  = if bool_decide (ct ∈ l) then Some false else None.
Proof.
  induction l as [|x l IH].
  - rewrite bool_decide_eq_false_2; [done|]. by intros ?%elem_of_nil.
  - simpl. destruct (decide (ct = x)) as [->|Hne].
    + rewrite lookup_insert_eq, bool_decide_eq_true_2; [done|apply list_elem_of_here].
    + rewrite lookup_insert_ne, IH by done.
      rewrite (bool_decide_ext (ct ∈ x :: l) (ct ∈ l)); [done|].
      rewrite elem_of_cons. split; [by intros [?|?]|by right].
Qed.

End Constructed.

(** X16.  The object that the constructor of the access layer returns:
    its contrast list is the one given; the mask has one row per row of
    the table and one entry per contrast, all ones; the status has a key
    for each column of contrasts of the index table, the given contrasts
    among them; a given contrast is marked resident exactly when RAM
    promotion was asked for (the default), and the target and ROI columns
    are never marked resident. *)
Theorem constructed_dataset_is_consistent (a : BIDStoHDF5.converter_args)
    (csv : gmap string Dataframe.table) (subject_file_lst : list string)
    (mp : HDF5Dataset.model_params) (cst_lst : list string) (dim : nat)
    (complet : bool) (fs fs' : gmap string hdf5_file) (self : HDF5Dataset.t) :
  HDF5Dataset.__init__ a csv subject_file_lst mp cst_lst dim complet fs
  = (fs', Ok self) ->
  HDF5Dataset.cst_lst self = cst_lst /\
  HDF5Dataset.cst_matrix self
  = replicate (HDF5Dataset.__len__ self) (replicate (length cst_lst) 1) /\
  (forall ct, ct ∈ cst_lst ->
     ct ∈ Dataframe.contrasts (HDF5Dataset.df_object self)) /\
  (forall ct,
     HDF5Dataset.status self !! ct
     = if bool_decide (ct ∈ Dataframe.contrasts (HDF5Dataset.df_object self))
       then Some (default true (HDF5Dataset.ram mp) && bool_decide (ct ∈ cst_lst))
       else None).
Proof.
  unfold HDF5Dataset.__init__. intros [= <- H].
  apply bind_Ok in H as ([] & _ & H).
  apply bind_Ok in H as (f & _ & H).
  apply bind_Ok in H as (df_object & Hdf & H).
  apply bind_Ok in H as (t0 & _ & H).
  apply bind_Ok in H as (t1 & _ & H).
  assert (Hcst : forall ct, ct ∈ cst_lst -> ct ∈ Dataframe.contrasts df_object).
  { intros ct Hct. unfold Dataframe.__init__ in Hdf.
    destruct (csv !! HDF5Dataset.csv_path mp).
    - injection Hdf as <-. simpl. apply elem_of_app. by left.
    - apply bind_Ok in Hdf as (t & _ & [= <-]). simpl. apply elem_of_app. by left. }
  destruct (default true (HDF5Dataset.ram mp)) eqn:Hram.
  - destruct (HDF5Dataset.load_into_ram _ cst_lst _) as [self1 [[]|e]] eqn:Hload;
      [|discriminate].
    injection H as <-.
    pose proof (load_into_ram_shape
      match fs !! HDF5Dataset.path_hdf5 mp with
      | Some _ => (fs, Ok ())
      | None =>
          let '(fs', r) :=
            BIDStoHDF5.__init__ a subject_file_lst (HDF5Dataset.path_hdf5 mp) fs in
          (fs', r ≫= fun _ : BIDStoHDF5.session => Ok ())
      end.1 cst_lst
      (HDF5Dataset.Make cst_lst
         match BIDStoHDF5.slice_filter_fn a with Some _ => true | None => false end
         (HDF5Dataset.path_hdf5 mp)
         (Dataframe.Make (Dataframe.dim df_object) (Dataframe.contrasts df_object)
            (Dataframe.filter_slices df_object) (Some t1)) t1
         (replicate (length (Dataframe.rows t1)) (replicate (length cst_lst) 1))
         (list_to_map (map (fun ct => (ct, false)) (Dataframe.contrasts df_object)))))
      as Hshape.
    rewrite Hload in Hshape.
    destruct Hshape as (Hc & _ & _ & Hdfo & Hm & _ & Hlen & _). simpl in *.
    split; [done|]. split; [by rewrite Hm, Hlen|]. rewrite Hdfo. simpl.
    split; [done|]. intros ct.
    rewrite (load_into_ram_status _ _ _ _ Hload ct). simpl.
    rewrite lookup_status_fresh.
    by destruct (bool_decide (ct ∈ cst_lst)) eqn:Hin;
      destruct (bool_decide (ct ∈ Dataframe.contrasts df_object)) eqn:Hin'.
  - injection H as <-. simpl. split; [done|]. split; [done|]. split; [done|].
    intros ct. apply lookup_status_fresh.
Qed.

Lemma constructed_dataset_is_consistent_witness :
  HDF5Dataset.cst_lst SampleFiltered.dataset = ["T1w"] /\
  HDF5Dataset.cst_matrix SampleFiltered.dataset
  = replicate (HDF5Dataset.__len__ SampleFiltered.dataset)
              (replicate (length ["T1w"]) 1) /\
  (forall ct, ct ∈ ["T1w"] ->
     ct ∈ Dataframe.contrasts (HDF5Dataset.df_object SampleFiltered.dataset)) /\
  (forall ct,
     HDF5Dataset.status SampleFiltered.dataset !! ct
     = if bool_decide
            (ct ∈ Dataframe.contrasts (HDF5Dataset.df_object SampleFiltered.dataset))
       then Some (default true (HDF5Dataset.ram SampleFiltered.params)
                  && bool_decide (ct ∈ ["T1w"]))
       else None).
Proof.
  apply (constructed_dataset_is_consistent SampleFiltered.args ∅ Sample.subjects
           SampleFiltered.params ["T1w"] 2 true ∅ SampleFiltered.files).
  vm_compute. reflexivity.
Defined.

(** ** Paths *)

Section Paths.

Lemma append_assoc (s t u : string) : (s +:+ t) +:+ u = s +:+ (t +:+ u).
Proof.
  induction s as [|a s IH]; [done|].
  change (String a ((s +:+ t) +:+ u) = String a (s +:+ (t +:+ u))).
  by rewrite IH.
Qed.

Lemma append_cons (a : ascii) (s t : string) :
  String a s +:+ t = String a (s +:+ t).
Proof. done. Qed.

Lemma split_on_slash_free (s : string) :
  slash_free s = true -> split_on "/" s = [s].
Proof.
  induction s as [|a s IH]; [done|]. simpl.
  intros [Ha Hs]%andb_true_iff. apply negb_true_iff in Ha.
  by rewrite Ha, (IH Hs).
Qed.

Lemma split_on_append (s t : string) :
  slash_free s = true ->
  split_on "/" (s +:+ String "/" t) = s :: split_on "/" t.
Proof.
  induction s as [|a s IH]; [done|].
  rewrite append_cons. simpl.
  intros [Ha Hs]%andb_true_iff. apply negb_true_iff in Ha.
  by rewrite Ha, (IH Hs).
Qed.

Lemma prefix_append (s t : string) : String.prefix s (s +:+ t) = true.
Proof.
  induction s as [|a s IH]; [by destruct t|].
  change (String.prefix (String a s) (String a (s +:+ t)) = true). simpl.
  by destruct (ascii_dec a a).
Qed.

End Paths.

(** ** Samples *)

Section Samples.
  Import Dataframe HDF5Dataset.
  Context {tensor : Type}.
  Context (gt_lst roi_lst : option (list string)).
  Context (transform : list cell -> list metadata -> string
                       -> sampled (tensor * list metadata)).
  Context (update_metadata : list metadata -> list metadata -> list metadata).
  Context (np_str : cell -> string).

Lemma enumerate_result_ext {A B} (body body' : nat -> A -> result B)
    (l : list A) : forall i,
  (forall j x, x ∈ l -> body j x = body' j x) ->
  enumerate_from body i l = enumerate_from body' i l.
Proof.
  induction l as [|x l IH]; intros i Hext; [done|]. simpl.
  rewrite Hext by apply list_elem_of_here.
  destruct (body' i x); [|done]. simpl.
  rewrite IH; [done|]. intros j y Hy. apply Hext. by apply list_elem_of_further.
Qed.

Lemma enumerate_sampled_ext {A B} (body body' : nat -> A -> sampled B)
    (l : list A) : forall i,
  (forall j x, x ∈ l -> body j x = body' j x) ->
  enumerate_from body i l = enumerate_from body' i l.
Proof.
  induction l as [|x l IH]; intros i Hext; [done|]. simpl.
  rewrite Hext by apply list_elem_of_here.
  destruct (body' i x); [|done|done]. simpl.
  rewrite IH; [done|]. intros j y Hy. apply Hext. by apply list_elem_of_further.
Qed.

(** A row after the promotion of [ct], and the object after it. *)
Section Promoted.
  Context (f : hdf5_file) (self : HDF5Dataset.t) (ct : string).
  Context (r : line) (x : cell) (mask : list nat).
  Context (Hstatus : status self !! ct = Some false).
  Context (Hread : read_cell f (columns (dataframe self)) r ct = Ok x).

Lemma promoted_not_slices : ct <> "Slices".
Proof.
  intros ->. unfold read_cell in Hread.
  destruct (_ && _); [|discriminate].
  destruct (cell_of r "Slices"); try discriminate.
  by apply bind_Ok in Hread as (d & _ & Hsel).
Qed.

Lemma read_line_promoted (self1 : HDF5Dataset.t) col :
  columns (dataframe self1) = columns (dataframe self) ->
  col <> ct ->
  read_line f self1 (<[ct := x]> r) col = read_line f self r col.
Proof.
  intros Hcols Hne. unfold read_line, line_get, cell_of. rewrite Hcols.
  rewrite (lookup_insert_ne _ ct col) by (by apply not_eq_sym).
  by rewrite (lookup_insert_ne _ ct "Slices") by apply promoted_not_slices.
Qed.

Lemma read_line_read_cell :
  read_line f self r ct = Ok x.
Proof.
  pose proof Hread as H. unfold read_cell in H. unfold read_line, line_get.
  case_bool_decide as Hs; [|discriminate].
  case_bool_decide as Hc; [|discriminate]. simpl in *.
  destruct (cell_of r ct) as [p| | | | | | |]; try discriminate. simpl.
  destruct (h5_lookup f p); [|discriminate]. done.
Qed.

Lemma line_get_promoted cols col :
  col <> ct -> line_get cols (<[ct := x]> r) col = line_get cols r col.
Proof.
  intros Hne. unfold line_get, cell_of.
  by rewrite lookup_insert_ne by (by apply not_eq_sym).
Qed.

Lemma line_get_promoted_cell :
  line_get (columns (dataframe self)) (<[ct := x]> r) ct = Ok x.
Proof.
  apply read_cell_data in Hread as (_ & Hct & _). unfold line_get, cell_of.
  by rewrite bool_decide_eq_true_2, lookup_insert_eq.
Qed.

Lemma input_sample_promoted (self1 : HDF5Dataset.t) i c :
  columns (dataframe self1) = columns (dataframe self) ->
  status self1 = <[ct := true]> (status self) ->
  ct <> "Subjects" ->
  input_sample np_str f self1 (<[ct := x]> r) mask i c
  = input_sample np_str f self r mask i c.
Proof.
  intros Hcols Hst Hsub. unfold input_sample. rewrite Hcols, Hst.
  rewrite (line_get_promoted _ "Subjects") by done.
  rewrite (line_get_promoted _ "Slices") by apply not_eq_sym, promoted_not_slices.
  unfold getitem. destruct (decide (c = ct)) as [->|Hne].
  - rewrite lookup_insert_eq, Hstatus. simpl.
    by rewrite line_get_promoted_cell, read_line_read_cell.
  - rewrite lookup_insert_ne by (by apply not_eq_sym).
    destruct (status self !! c) as [[]|]; simpl; [|by rewrite read_line_promoted|done].
    by rewrite line_get_promoted.
Qed.

Lemma target_sample_promoted (self1 : HDF5Dataset.t) col :
  columns (dataframe self1) = columns (dataframe self) ->
  status self1 = <[ct := true]> (status self) ->
  col <> ct ->
  target_sample f self1 (<[ct := x]> r) col = target_sample f self r col.
Proof.
  intros Hcols Hst Hne. unfold target_sample. rewrite Hcols, Hst.
  rewrite (line_get_promoted _ col) by done.
  unfold getitem. rewrite lookup_insert_ne by (by apply not_eq_sym).
  destruct (status self !! col) as [[]|]; simpl; [done| |done].
  by rewrite read_line_promoted.
Qed.

Lemma gather_promoted (self1 : HDF5Dataset.t) :
  columns (dataframe self1) = columns (dataframe self) ->
  status self1 = <[ct := true]> (status self) ->
  cst_lst self1 = cst_lst self ->
  ct <> "Subjects" ->
  String.prefix "gt/" ct = false -> String.prefix "roi/" ct = false ->
  gather gt_lst roi_lst np_str f self1 (<[ct := x]> r) mask
  = gather gt_lst roi_lst np_str f self r mask.
Proof.
  intros Hcols Hst Hcst Hsub Hgt Hroi. unfold gather. rewrite Hcst.
  rewrite (enumerate_result_ext
             (input_sample np_str f self1 (<[ct := x]> r) mask)
             (input_sample np_str f self r mask))
    by (intros; by apply input_sample_promoted).
  destruct (enumerate_from _ 0 (cst_lst self)) as [inputs|e]; [|done]. simpl.
  assert (Hgts : forall l,
            enumerate_from (fun (_ : nat) gt =>
                              target_sample f self1 (<[ct := x]> r) ("gt/" +:+ gt)) 0 l
            = enumerate_from (fun (_ : nat) gt =>
                                target_sample f self r ("gt/" +:+ gt)) 0 l).
  { intros l. apply enumerate_sampled_ext. intros j g _.
    apply target_sample_promoted; [done|done|]. intros Heq. by rewrite <- Heq, prefix_append in Hgt. }
  assert (Hrois : forall roi,
            target_sample f self1 (<[ct := x]> r) ("roi/" +:+ roi)
            = target_sample f self r ("roi/" +:+ roi)).
  { intros roi. apply target_sample_promoted; [done|done|].
    intros Heq. by rewrite <- Heq, prefix_append in Hroi. }
  destruct gt_lst as [l|]; [|done]. rewrite Hgts.
  destruct (enumerate_from _ 0 l) as [gts| |]; [|done|done]. simpl.
  destruct roi_lst as [[|roi rois]|]; [done| |done]. by rewrite Hrois.
Qed.

End Promoted.

Lemma iloc_Forall2 {A} (R : A -> A -> Prop) (l l' : list A) (index : Z) :
  Forall2 R l l' ->
  match iloc l index, iloc l' index with
  | Ok y, Ok y' => R y y'
  | Raise e, Raise e' => e = e'
  | _, _ => False
  end.
Proof.
  intros H. unfold iloc. rewrite <- (Forall2_length _ _ _ H).
  destruct (_ && _); [|done].
  destruct (l !! _) as [y|] eqn:Hy.
  - destruct (Forall2_lookup_l _ _ _ _ _ H Hy) as (y' & -> & HR). done.
  - destruct (l' !! _) as [y'|] eqn:Hy'; [|done].
    destruct (Forall2_lookup_r _ _ _ _ _ H Hy') as (y & Hy2 & _). congruence.
Qed.

Lemma load_contrast_promoted f ct (self self' : HDF5Dataset.t) :
  filter_slices self = true ->
  status self !! ct = Some false ->
  load_contrast f ct self = (self', Ok tt) ->
  cst_lst self' = cst_lst self /\
  self_path_hdf5 self' = self_path_hdf5 self /\
  cst_matrix self' = cst_matrix self /\
  columns (dataframe self') = columns (dataframe self) /\
  status self' = <[ct := true]> (status self) /\
  Forall2 (fun r r' => exists x,
             read_cell f (columns (dataframe self)) r ct = Ok x /\
             r' = <[ct := x]> r)
          (rows (dataframe self)) (rows (dataframe self')).
Proof.
  intros Hf Hs. unfold load_contrast. rewrite Hs, Hf.
  destruct (promote_rows true f _ ct _) as [rs [[]|e]] eqn:Hrows; [|discriminate].
  intros [= <-]. simpl. repeat split. by apply promote_rows_filtered.
Qed.

End Samples.

(** X17.  Promotion of an input contrast to RAM is invisible to
    [__getitem__].  For an object built with a slice filter, after
    [load_into_ram] has promoted a contrast that was not resident (one that
    is neither the column of the subjects nor a target or ROI column),
    [__getitem__] gives for every index what it gave before: the same
    sample, or the same exception. *)
Theorem promoted_contrast_gives_the_same_samples {tensor : Type}
    (gt_lst roi_lst : option (list string))
    (transform : list Dataframe.cell -> list HDF5Dataset.metadata -> string
                 -> HDF5Dataset.sampled (tensor * list HDF5Dataset.metadata))
    (update_metadata : list HDF5Dataset.metadata -> list HDF5Dataset.metadata
                       -> list HDF5Dataset.metadata)
    (np_str : Dataframe.cell -> string)
    (fs : gmap string hdf5_file) (f : hdf5_file) (ct : string)
    (self self' : HDF5Dataset.t) :
  fs !! HDF5Dataset.self_path_hdf5 self = Some f ->
  HDF5Dataset.filter_slices self = true ->
  HDF5Dataset.status self !! ct = Some false ->
  ct <> "Subjects" ->
  String.prefix "gt/" ct = false ->
  String.prefix "roi/" ct = false ->
  HDF5Dataset.load_contrast f ct self = (self', Ok tt) ->
  forall index,
    HDF5Dataset.__getitem__ gt_lst roi_lst transform update_metadata np_str
      fs self' index
    = HDF5Dataset.__getitem__ gt_lst roi_lst transform update_metadata np_str
        fs self index.
Proof.
  intros Hfs Hf Hs Hsub Hgt Hroi Hload index.
  destruct (load_contrast_promoted _ _ _ _ Hf Hs Hload)
    as (Hcst & Hpath & Hm & Hcols & Hst & Hrows).
  unfold HDF5Dataset.__getitem__. rewrite Hm, Hpath, Hfs.
  pose proof (iloc_Forall2 _ _ _ index Hrows) as Hloc.
  destruct (HDF5Dataset.iloc (Dataframe.rows (HDF5Dataset.dataframe self)) index)
    as [r|e], (HDF5Dataset.iloc (Dataframe.rows (HDF5Dataset.dataframe self')) index)
    as [r'|e']; try done; [|by subst].
  destruct Hloc as (x & Hx & ->). simpl.
  destruct (HDF5Dataset.iloc (HDF5Dataset.cst_matrix self) index) as [mask|e];
    [|done]. simpl.
  by rewrite (gather_promoted gt_lst roi_lst np_str f self ct r x mask Hs Hx self').
Qed.

Lemma promoted_contrast_gives_the_same_samples_witness :
  HDF5Dataset.status SampleFiltered.dataset_gt !! "T1w" = Some false /\
  forall index,
    HDF5Dataset.__getitem__ (Some ["T1w"]) None SampleFiltered.transform
      SampleFiltered.update_metadata SampleFiltered.np_str SampleFiltered.files
      (HDF5Dataset.load_contrast SampleFiltered.container "T1w"
         SampleFiltered.dataset_gt).1 index
    = HDF5Dataset.__getitem__ (Some ["T1w"]) None SampleFiltered.transform
        SampleFiltered.update_metadata SampleFiltered.np_str SampleFiltered.files
        SampleFiltered.dataset_gt index.
Proof.
  split; [vm_compute; reflexivity|].
  apply (promoted_contrast_gives_the_same_samples (Some ["T1w"]) None
           SampleFiltered.transform SampleFiltered.update_metadata
           SampleFiltered.np_str SampleFiltered.files SampleFiltered.container
           "T1w" SampleFiltered.dataset_gt).
  - vm_compute. reflexivity.
  - vm_compute. reflexivity.
  - vm_compute. reflexivity.
  - discriminate.
  - reflexivity.
  - reflexivity.
  - vm_compute. reflexivity.
Defined.

Section PromotedTarget.
  Import Dataframe HDF5Dataset.

Lemma enumerate_sampled_fails {A B} (body : nat -> A -> sampled B)
    (l : list A) (x : A) : forall i,
  x ∈ l -> (forall j y, body j x <> Sample y) ->
  forall ys, enumerate_from body i l <> Sample ys.
Proof.
  induction l as [|z l IH]; intros i Hin Hx ys; [by apply elem_of_nil in Hin|].
  simpl. apply elem_of_cons in Hin as [<-|Hin].
  - destruct (body i x) as [y| |] eqn:Hb; [by destruct (Hx i y)|done|done].
  - destruct (body i z) as [y| |]; [|done|done]. simpl.
    pose proof (IH (S i) Hin Hx) as Hrest.
    destruct (enumerate_from body (S i) l) as [ys'| |]; [|done|done].
    by destruct (Hrest ys').
Qed.

Lemma target_sample_resident f (self : HDF5Dataset.t) (r : line) col x :
  col ∈ columns (dataframe self) ->
  status self !! col = Some true ->
  (exists s, x = Stack s) \/ (exists y, x = Plane y) ->
  target_sample f self (<[col := x]> r) col = Raised TypeError.
Proof.
  intros Hcol Hs Hx. unfold target_sample, getitem, line_get, cell_of.
  rewrite Hs, bool_decide_eq_true_2, lookup_insert_eq by done. simpl.
  by destruct Hx as [[s ->]|[y ->]].
Qed.

End PromotedTarget.

(** X18.  Promotion of a target column to RAM breaks [__getitem__].  For
    an object built with a slice filter, after [load_into_ram] has
    promoted the column ['gt/' + gt] of a target of [self.gt_lst], no call
    of [__getitem__] returns a sample: the metadata of the target are
    looked up in the container under the content of the cell, which now
    holds the data.  The same holds for the ROI column of
    [self.roi_lst[0]]. *)
Theorem promoted_target_breaks_getitem {tensor : Type}
    (gt_lst roi_lst : option (list string))
    (transform : list Dataframe.cell -> list HDF5Dataset.metadata -> string
                 -> HDF5Dataset.sampled (tensor * list HDF5Dataset.metadata))
    (update_metadata : list HDF5Dataset.metadata -> list HDF5Dataset.metadata
                       -> list HDF5Dataset.metadata)
    (np_str : Dataframe.cell -> string)
    (fs : gmap string hdf5_file) (f : hdf5_file) (col : string)
    (self self' : HDF5Dataset.t) :
  (exists l gt, gt_lst = Some l /\ gt ∈ l /\ col = "gt/" +:+ gt) \/
  (exists roi rois, is_Some gt_lst /\ roi_lst = Some (roi :: rois) /\
                    col = "roi/" +:+ roi) ->
  HDF5Dataset.filter_slices self = true ->
  HDF5Dataset.status self !! col = Some false ->
  HDF5Dataset.load_contrast f col self = (self', Ok tt) ->
  forall index sample,
    HDF5Dataset.__getitem__ gt_lst roi_lst transform update_metadata np_str
      fs self' index
    <> HDF5Dataset.Sample sample.
Proof.
  intros Hcol Hf Hs Hload index sample.
  destruct (load_contrast_promoted _ _ _ _ Hf Hs Hload)
    as (Hcst & Hpath & Hm & Hcols & Hst & Hrows).
  unfold HDF5Dataset.__getitem__.
  destruct (HDF5Dataset.iloc (Dataframe.rows (HDF5Dataset.dataframe self')) index)
    as [r'|e] eqn:Hloc; [|done]. simpl.
  assert (Hr' : exists r x,
            r' = <[col := x]> r /\
            col ∈ Dataframe.columns (HDF5Dataset.dataframe self') /\
            ((exists s, x = Dataframe.Stack s) \/ (exists y, x = Dataframe.Plane y))).
  { pose proof (iloc_Forall2 _ _ _ index Hrows) as H. rewrite Hloc in H.
    destruct (HDF5Dataset.iloc (Dataframe.rows (HDF5Dataset.dataframe self)) index)
      as [r|e]; [|done].
    destruct H as (x & Hx & ->). exists r, x. split; [done|].
    apply read_cell_data in Hx as (_ & Hc & Hx). by rewrite Hcols. }
  destruct Hr' as (r & x & -> & Hc & Hx).
  destruct (HDF5Dataset.iloc (HDF5Dataset.cst_matrix self') index) as [mask|e];
    [|done]. simpl.
  destruct (fs !! HDF5Dataset.self_path_hdf5 self') as [f'|]; [|done]. simpl.
  assert (Htarget : HDF5Dataset.target_sample f' self' (<[col := x]> r) col
                    = HDF5Dataset.Raised TypeError).
  { apply target_sample_resident; [done| |done]. by rewrite Hst, lookup_insert_eq. }
  unfold HDF5Dataset.gather.
  destruct (HDF5Dataset.enumerate_from _ 0 (HDF5Dataset.cst_lst self'))
    as [inputs|e]; [|done]. simpl.
  destruct Hcol as [(l & gt & -> & Hin & ->)|(roi & rois & [l ->] & -> & ->)].
  - pose proof (enumerate_sampled_fails
                  (fun (_ : nat) gt0 =>
                     HDF5Dataset.target_sample f' self'
                       (<["gt/" +:+ gt := x]> r) ("gt/" +:+ gt0)) l gt 0 Hin) as Hgts.
    destruct (HDF5Dataset.enumerate_from _ 0 l) as [gts| |]; [|done|done].
    destruct (Hgts (fun _ y => ltac:(by rewrite Htarget)) gts). done.
  - rewrite Htarget.
    by destruct (HDF5Dataset.enumerate_from _ 0 l) as [gts| |].
Qed.

Lemma promoted_target_breaks_getitem_witness :
  HDF5Dataset.status SampleFiltered.dataset_gt !! "gt/T1w" = Some false /\
  forall index sample,
    HDF5Dataset.__getitem__ (Some ["T1w"]) None SampleFiltered.transform
      SampleFiltered.update_metadata SampleFiltered.np_str SampleFiltered.files
      (HDF5Dataset.load_contrast SampleFiltered.container "gt/T1w"
         SampleFiltered.dataset_gt).1 index
    <> HDF5Dataset.Sample sample.
Proof.
  split; [vm_compute; reflexivity|].
  apply (promoted_target_breaks_getitem (Some ["T1w"]) None
           SampleFiltered.transform SampleFiltered.update_metadata
           SampleFiltered.np_str SampleFiltered.files SampleFiltered.container
           "gt/T1w" SampleFiltered.dataset_gt).
  - left. exists ["T1w"], "T1w". split; [reflexivity|].
    split; [apply list_elem_of_here|reflexivity].
  - vm_compute. reflexivity.
  - vm_compute. reflexivity.
  - vm_compute. reflexivity.
Defined.

Section Bounds.
  Import HDF5Dataset.

Lemma iloc_out_of_range {A} (l : list A) (index : Z) :
  (index < - Z.of_nat (length l) \/ Z.of_nat (length l) <= index)%Z ->
  iloc l index = Raise IndexError.
Proof.
  intros H. unfold iloc. destruct (index <? 0)%Z eqn:Hneg.
  - apply Z.ltb_lt in Hneg. rewrite (proj2 (Z.leb_gt _ _)) by lia. done.
  - apply Z.ltb_ge in Hneg. rewrite andb_comm, (proj2 (Z.ltb_ge _ _)) by lia. done.
Qed.

Lemma iloc_negative {A} (l : list A) (index : Z) :
  (0 <= index < Z.of_nat (length l))%Z ->
  iloc l (index - Z.of_nat (length l)) = iloc l index.
Proof.
  intros H. unfold iloc.
  rewrite (proj2 (Z.ltb_lt _ _)) by lia.
  rewrite (proj2 (Z.ltb_ge index 0)) by lia.
  by replace (Z.of_nat (length l) + (index - Z.of_nat (length l)))%Z with index by lia.
Qed.

End Bounds.

(** X19.  The index of [__getitem__].  An index that is not below the
    number of rows, or is below its opposite, raises IndexError before the
    container is opened.  A negative index counts from the end: when the
    mask has one row per row of the table, the index [i - len(self)] gives
    what the index [i] gives. *)
Theorem getitem_index_counts_from_the_end {tensor : Type}
    (gt_lst roi_lst : option (list string))
    (transform : list Dataframe.cell -> list HDF5Dataset.metadata -> string
                 -> HDF5Dataset.sampled (tensor * list HDF5Dataset.metadata))
    (update_metadata : list HDF5Dataset.metadata -> list HDF5Dataset.metadata
                       -> list HDF5Dataset.metadata)
    (np_str : Dataframe.cell -> string)
    (fs : gmap string hdf5_file) (self : HDF5Dataset.t) :
  (forall index,
     (index < - Z.of_nat (HDF5Dataset.__len__ self)
      \/ Z.of_nat (HDF5Dataset.__len__ self) <= index)%Z ->
     HDF5Dataset.__getitem__ gt_lst roi_lst transform update_metadata np_str
       fs self index
     = HDF5Dataset.Raised IndexError) /\
  (length (HDF5Dataset.cst_matrix self) = HDF5Dataset.__len__ self ->
   forall index,
     (0 <= index < Z.of_nat (HDF5Dataset.__len__ self))%Z ->
     HDF5Dataset.__getitem__ gt_lst roi_lst transform update_metadata np_str
       fs self (index - Z.of_nat (HDF5Dataset.__len__ self))
     = HDF5Dataset.__getitem__ gt_lst roi_lst transform update_metadata np_str
         fs self index).
Proof.
  unfold HDF5Dataset.__getitem__, HDF5Dataset.__len__. split.
  - intros index H. by rewrite (iloc_out_of_range _ index H).
  - intros Hlen index H. rewrite (iloc_negative _ index H).
    rewrite <- Hlen in H |- *. by rewrite (iloc_negative _ index H).
Qed.

Lemma getitem_index_counts_from_the_end_witness :
  HDF5Dataset.__getitem__ (Some ["T1w"]) None SampleFiltered.transform
    SampleFiltered.update_metadata SampleFiltered.np_str SampleFiltered.files
    SampleFiltered.dataset_gt 4
  = HDF5Dataset.Raised IndexError /\
  HDF5Dataset.__getitem__ (Some ["T1w"]) None SampleFiltered.transform
    SampleFiltered.update_metadata SampleFiltered.np_str SampleFiltered.files
    SampleFiltered.dataset_gt (3 - Z.of_nat (HDF5Dataset.__len__ SampleFiltered.dataset_gt))
  = HDF5Dataset.__getitem__ (Some ["T1w"]) None SampleFiltered.transform
      SampleFiltered.update_metadata SampleFiltered.np_str SampleFiltered.files
      SampleFiltered.dataset_gt 3.
Proof.
  split.
  - apply (proj1 (getitem_index_counts_from_the_end (Some ["T1w"]) None
                    SampleFiltered.transform SampleFiltered.update_metadata
                    SampleFiltered.np_str SampleFiltered.files
                    SampleFiltered.dataset_gt)).
    right. by vm_compute.
  - apply (proj2 (getitem_index_counts_from_the_end (Some ["T1w"]) None
                    SampleFiltered.transform SampleFiltered.update_metadata
                    SampleFiltered.np_str SampleFiltered.files
                    SampleFiltered.dataset_gt)).
    + vm_compute. reflexivity.
    + split; by vm_compute.
Defined.

(** ** The paths of the index table *)

Section IndexPaths.
  Import Dataframe HDF5Dataset.
  Context (f : hdf5_file).

Lemma h5_lookup_path subject key contrast :
  slash_free subject = true -> slash_free key = true ->
  slash_free contrast = true ->
  h5_lookup f (path_string subject key contrast)
  = grp ← getitem (h5_groups f) subject; get_dataset key contrast grp.
Proof.
  intros Hs Hk Hc. unfold h5_lookup, path_string.
  change (subject +:+ "/" +:+ key +:+ "/" +:+ contrast)
    with (subject +:+ String "/" (key +:+ String "/" contrast)).
  by rewrite !split_on_append, split_on_slash_free.
Qed.

Lemma row_resolves_insert (r : line) k x :
  row_resolves f r -> resolves f x -> row_resolves f (<[k := x]> r).
Proof.
  intros Hr Hx col Hcol. unfold cell_of.
  destruct (decide (col = k)) as [->|Hne].
  - by rewrite lookup_insert_eq.
  - rewrite lookup_insert_ne by done. by apply Hr.
Qed.

Lemma row_resolves_subject (r : line) x :
  row_resolves f r -> row_resolves f (<["Subjects" := x]> r).
Proof.
  intros Hr col Hcol. unfold cell_of. rewrite lookup_insert_ne by done.
  by apply Hr.
Qed.

Lemma foldl_row_resolves {A} (step : line -> A -> line) (l : list A) :
  (forall ln x, x ∈ l -> row_resolves f ln -> row_resolves f (step ln x)) ->
  forall ln, row_resolves f ln -> row_resolves f (foldl step ln l).
Proof.
  induction l as [|x l IH]; intros Hstep ln Hln; [done|]. simpl.
  apply IH.
  - intros ln' y Hy. apply Hstep. by apply list_elem_of_further.
  - apply Hstep; [apply list_elem_of_here|done].
Qed.

Lemma process_key_resolves key grp (ln ln' : line) subject col_names :
  h5_groups f !! subject = Some grp ->
  lists_ok grp ->
  slash_free subject = true -> slash_free key = true ->
  (forall ns sub ct, grp_members grp !! ns = Some sub ->
     ct ∈ contrast_list (ns_contrast sub) -> slash_free ct = true) ->
  process_key key grp ln subject col_names = Ok ln' ->
  row_resolves f ln -> row_resolves f ln'.
Proof.
  intros Hgrp (_ & Hds & _) Hs Hk Hnames. unfold process_key.
  destruct (grp_members grp !! key) as [inputs|] eqn:Hkey; [|discriminate].
  destruct (ns_contrast inputs) as [attr|] eqn:Hattr; [|discriminate].
  intros [= <-]. apply foldl_row_resolves. intros ln0 contrast Hin Hln0.
  assert (Hpath : forall k, slash_free k = true -> k = key ->
            resolves f (Str (path_string subject k contrast))).
  { intros k Hk' -> p [= <-]. right.
    rewrite h5_lookup_path; [|done|done|].
    - unfold getitem. rewrite Hgrp. simpl.
      assert (Hc : contrast ∈ contrast_list (ns_contrast inputs))
        by by rewrite Hattr.
      destruct (Hds key inputs contrast Hkey Hc) as [d Hd].
      unfold get_dataset, getitem. rewrite Hkey. simpl. by rewrite Hd.
    - eapply Hnames; [exact Hkey|]. by rewrite Hattr. }
  destruct (String.eqb key "inputs") eqn:Heq.
  - apply String.eqb_eq in Heq. case_bool_decide; [|done].
    apply row_resolves_insert; [done|]. by apply Hpath.
  - apply foldl_row_resolves; [|done]. intros ln1 col _ Hln1.
    destruct (contains col _); [|done].
    apply row_resolves_insert; [done|]. by apply Hpath.
Qed.

Lemma process_line_resolves dim flt rs rs' grp (ln : line) subject col_names :
  h5_groups f !! subject = Some grp ->
  lists_ok grp ->
  slash_free subject = true ->
  (forall ns sub ct, grp_members grp !! ns = Some sub ->
     ct ∈ contrast_list (ns_contrast sub) -> slash_free ct = true) ->
  process_line dim flt rs grp ln subject col_names = Ok rs' ->
  row_resolves f ln -> Forall (row_resolves f) rs -> Forall (row_resolves f) rs'.
Proof.
  intros Hgrp Hok Hs Hnames H Hln Hrs. unfold process_line in H.
  apply bind_Ok in H as (ln1 & H1 & H).
  apply bind_Ok in H as (ln2 & H2 & H).
  apply bind_Ok in H as (ln3 & H3 & H).
  assert (Hln3 : row_resolves f ln3).
  { apply (process_key_resolves "roi" grp ln2 ln3 subject col_names
             Hgrp Hok Hs eq_refl Hnames H3).
    apply (process_key_resolves "gt" grp ln1 ln2 subject col_names
             Hgrp Hok Hs eq_refl Hnames H2).
    by apply (process_key_resolves "inputs" grp ln ln1 subject col_names
                Hgrp Hok Hs eq_refl Hnames H1). }
  destruct (grp_slices grp) as [slices|]; [|discriminate]. simpl in H.
  assert (Harr : resolves f (index_array (grp_slices_float grp) slices))
    by (by destruct (grp_slices_float grp)).
  assert (Hsc : forall n, resolves f (index_scalar (grp_slices_float grp) n))
    by (intros n; by destruct (grp_slices_float grp)).
  destruct (_ && _); injection H as <-; apply Forall_app; split; try done.
  - apply Forall_forall. intros r (n & -> & _)%list_elem_of_fmap.
    apply row_resolves_insert; [|done].
    apply row_resolves_insert; [done|done].
  - constructor; [|done]. apply row_resolves_insert; [done|done].
Qed.

Lemma empty_line_resolves contrasts subject :
  row_resolves f
    (<["Subjects" := Str subject]>
       (<["Slices" := Str "None"]>
          (list_to_map (map (fun col => (col, Str "None")) contrasts)))).
Proof.
  apply row_resolves_subject, row_resolves_insert; [|by intros p [= <-]; left].
  intros col _ p. unfold cell_of.
  destruct (list_to_map _ !! col) as [x|] eqn:Hx; [|done]. simpl.
  apply elem_of_list_to_map_2, list_elem_of_fmap in Hx as (c & [= _ ->] & _).
  intros [= <-]. by left.
Qed.

Lemma create_df_resolves dim flt contrasts (t : table) :
  map_Forall (fun _ grp => lists_ok grp) (h5_groups f) ->
  names_slash_free f ->
  create_df dim flt contrasts f = Ok t ->
  Forall (row_resolves f) (rows t).
Proof.
  intros Hok Hnames. unfold create_df.
  intros (rs & Hfold & [= <-])%bind_Ok. simpl.
  set (step := fun acc subject => _) in Hfold.
  assert (Hrows : forall patients rs0 rs1,
            foldl step (Ok rs0) patients = Ok rs1 ->
            Forall (row_resolves f) rs0 -> Forall (row_resolves f) rs1).
  { induction patients as [|subject rest IH]; intros rs0 rs1 H Hrs0.
    - by injection H as <-.
    - cbn [foldl] in H.
      destruct (step (Ok rs0) subject) as [rs'|e] eqn:Hstep.
      + eapply IH; [exact H|]. unfold step in Hstep. simpl in Hstep.
        apply bind_Ok in Hstep as (grp & Hgrp%getitem_Ok & Hline).
        destruct (Hnames _ _ Hgrp) as [Hs Hcts].
        eapply process_line_resolves; [exact Hgrp|by eapply Hok|done| |
                                       exact Hline| |done].
        { intros ns sub ct Hns Hct. specialize (Hcts ns sub Hns).
          rewrite Forall_forall in Hcts. by apply Hcts. }
        apply empty_line_resolves.
      + rewrite foldl_Raise in H; [discriminate|done]. }
  eapply Hrows; [exact Hfold|constructor].
Qed.

End IndexPaths.

(** X20.  The index table of a converted container names datasets of the
    container.  On a file that [_load_filenames] wrote, whose subjects and
    contrasts hold no ['/'], every cell that [create_df] fills, the column
    of the subjects apart, holds either the sentinel ['None'] or a path
    that the container resolves to a dataset, so that the access layer
    finds what it reads. *)
Theorem index_paths_name_datasets (a : BIDStoHDF5.converter_args)
    (pairs : list BIDStoHDF5.filename_pair) (patients : list string)
    (axis : nat) (filters : list string)
    (dim : nat) (filter_slices : bool) (contrasts : list string)
    (t : Dataframe.table) :
  names_slash_free
    (BIDStoHDF5._load_filenames a pairs (H5File patients axis filters ∅)).1 ->
  Dataframe.create_df dim filter_slices contrasts
    (BIDStoHDF5._load_filenames a pairs (H5File patients axis filters ∅)).1 = Ok t ->
  Forall (row_resolves
            (BIDStoHDF5._load_filenames a pairs (H5File patients axis filters ∅)).1)
         (Dataframe.rows t).
Proof.
  intros Hnames H. eapply create_df_resolves; [|done|exact H].
  apply _load_filenames_lists_ok. simpl. apply map_Forall_empty.
Qed.

Lemma index_paths_name_datasets_witness :
  Forall (row_resolves
            (BIDStoHDF5._load_filenames SampleFiltered.args
               (BIDStoHDF5.filename_pairs
                  (Sample.session_of
                     (BIDStoHDF5.select_subjects SampleFiltered.args Sample.subjects)))
               (H5File ["sub-01"; "sub-02"] 2 [] ∅)).1)
         (Dataframe.rows SampleFiltered.table).
Proof.
  apply (index_paths_name_datasets SampleFiltered.args
           (BIDStoHDF5.filename_pairs
              (Sample.session_of
                 (BIDStoHDF5.select_subjects SampleFiltered.args Sample.subjects)))
           ["sub-01"; "sub-02"] 2 [] 2 true ["T1w"; "gt"; "ROI"]).
  - apply (@bool_decide_unpack _ (names_slash_free_dec _)). vm_compute. exact I.
  - vm_compute. reflexivity.
Defined.

(** ** What the export leaves on disk *)

Section ExportTree.

(** A step of the exporter that keeps a property of the output tree,
    whether it returns or raises. *)
Lemma keeps_ret {A} (I : bids_tree -> Prop) (x : A) :
  hoare I (mret x) (fun _ => I) I.
Proof. by intros s H. Qed.

Lemma keeps_lift {A} (I : bids_tree -> Prop) (r : result A) :
  hoare I (lift (fun _ => r)) (fun _ => I) I.
Proof. intros s H. unfold lift. by destruct r. Qed.

Lemma keeps_bind {A B} (I : bids_tree -> Prop)
    (m : stateful bids_tree A) (k : A -> stateful bids_tree B) :
  hoare I m (fun _ => I) I -> (forall x, hoare I (k x) (fun _ => I) I) ->
  hoare I (m ≫= k) (fun _ => I) I.
Proof. intros Hm Hk. by eapply hoare_bind. Qed.

Lemma keeps_for_each {A} (I : bids_tree -> Prop)
    (body : A -> stateful bids_tree unit) (l : list A) :
  (forall x, hoare I (body x) (fun _ => I) I) ->
  hoare I (for_each body l) (fun _ => I) I.
Proof. apply hoare_for_each. Qed.

Lemma keeps_export_group (I : bids_tree -> Prop) path_sub path_label sub grp :
  (forall name data t, I t -> I (save path_sub name data t)) ->
  (forall name data t, I t -> I (save path_label name data t)) ->
  hoare I (export_group path_sub path_label sub grp) (fun _ => I) I.
Proof.
  intros Hsub Hlabel. unfold export_group.
  repeat first
    [ apply keeps_bind; [|intros ?]
    | apply keeps_for_each; intros ?
    | apply keeps_lift
    | apply keeps_ret
    | apply hoare_modify; intros ? ?; first [by apply Hsub | by apply Hlabel]
    | case_bool_decide
    | match goal with |- hoare _ (match ?l with _ => _ end) _ _ => destruct l end ].
Qed.

Lemma keeps_export_subject (I : bids_tree -> Prop) f path_dir sub :
  (forall base parts t, I t -> I (make_dirs base parts t)) ->
  (forall name data t,
     I t -> I (save (path_dir +:+ "/" +:+ sub +:+ "/anat") name data t)) ->
  (forall name data t,
     I t ->
     I (save (path_dir +:+ "/derivatives/labels/" +:+ sub +:+ "/anat") name data t)) ->
  hoare I (export_subject f path_dir sub) (fun _ => I) I.
Proof.
  intros Hdirs Hsub Hlabel. unfold export_subject.
  apply keeps_bind; [by apply hoare_modify; intros; apply Hdirs|intros _].
  apply keeps_bind; [by apply hoare_modify; intros; apply Hdirs|intros _].
  destruct (h5_groups f !! sub); [by apply keeps_export_group|apply keeps_ret].
Qed.

Lemma mkdir_grows base parts : forall dirs, dirs ⊆ mkdir base parts dirs.
Proof.
  revert base. induction parts as [|part rest IH]; intros base dirs; [done|].
  simpl. etrans; [|apply IH]. apply union_subseteq_r.
Qed.

Lemma grows_refl t : grows t t.
Proof. by split. Qed.

Lemma grows_make_dirs t0 base parts t :
  grows t0 t -> grows t0 (make_dirs base parts t).
Proof.
  intros [Hd Hn]. split; [|done]. simpl. etrans; [exact Hd|apply mkdir_grows].
Qed.

Lemma grows_save t0 dir name data t : grows t0 t -> grows t0 (save dir name data t).
Proof.
  intros [Hd Hn]. split; [done|]. simpl. rewrite dom_insert_L.
  etrans; [exact Hn|apply union_subseteq_r].
Qed.

Lemma export_subject_grows f path_dir sub t0 :
  hoare (grows t0) (export_subject f path_dir sub) (fun _ => grows t0) (grows t0).
Proof.
  apply keeps_export_subject; intros; by first [apply grows_make_dirs|apply grows_save].
Qed.

Lemma subject_dirs_made path_dir sub t :
  Forall (fun d => d ∈ directories
                     (make_dirs path_dir ["derivatives"; "labels"; sub; "anat"]
                        (make_dirs path_dir [sub; "anat"] t)))
         (subject_dirs path_dir sub).
Proof.
  unfold subject_dirs, make_dirs. simpl.
  rewrite !append_assoc.
  repeat constructor; set_unfold; tauto.
Qed.

Lemma export_subject_dirs f path_dir sub t :
  Forall (fun d => d ∈ directories (export_subject f path_dir sub t).1)
         (subject_dirs path_dir sub).
Proof.
  pose proof (subject_dirs_made path_dir sub t) as Hmade.
  unfold export_subject. unfold mbind at 1, stateful_bind at 1. simpl.
  unfold mbind at 1, stateful_bind at 1. simpl.
  destruct (h5_groups f !! sub) as [grp|]; [|done].
  set (t2 := make_dirs path_dir _ (make_dirs path_dir _ t)) in *.
  pose proof (keeps_export_group (grows t2)
                (path_dir +:+ "/" +:+ sub +:+ "/anat")
                (path_dir +:+ "/derivatives/labels/" +:+ sub +:+ "/anat") sub grp
                (fun name data t Ht => grows_save t2 _ name data t Ht)
                (fun name data t Ht => grows_save t2 _ name data t Ht)
                t2 (grows_refl t2)) as Hgrows.
  eapply Forall_impl; [exact Hmade|]. intros d Hd.
  destruct (export_group _ _ sub grp t2) as [t3 [[]|e]]; by apply Hgrows.
Qed.

Lemma export_subjects_dirs f path_dir subjects : forall t t',
  for_each (export_subject f path_dir) subjects t = (t', Ok tt) ->
  Forall (fun sub => Forall (fun d => d ∈ directories t')
                            (subject_dirs path_dir sub))
         subjects.
Proof.
  induction subjects as [|sub rest IH]; intros t t' H; [constructor|].
  cbn [for_each] in H. unfold mbind, stateful_bind in H.
  pose proof (export_subject_dirs f path_dir sub t) as Hsub.
  destruct (export_subject f path_dir sub t) as [t1 [[]|e]]; [|discriminate].
  constructor; [|by eapply IH].
  pose proof (hoare_for_each (grows t1) (grows t1) (export_subject f path_dir) rest
                (fun x => export_subject_grows f path_dir x t1) t1 (grows_refl t1))
    as Hgrows.
  rewrite H in Hgrows. destruct Hgrows as [Hd _].
  eapply Forall_impl; [exact Hsub|]. intros d Hin. by apply Hd.
Qed.

End ExportTree.

(** X21.  The export only adds to the output tree: whatever its outcome,
    the directories that existed still exist and the files that existed
    are still there (overwritten or not).  When it returns, the two
    [anat] directories of every listed subject exist, with their parents,
    for the subjects that have no group in the container too. *)
Theorem export_only_adds (fs : gmap string hdf5_file) (path_hdf5 : string)
    (subjects : list string) (path_dir : string) (tree : bids_tree) :
  grows tree (HDF5ToBIDS fs path_hdf5 subjects path_dir tree).1 /\
  ((HDF5ToBIDS fs path_hdf5 subjects path_dir tree).2 = Ok tt ->
   Forall (fun sub =>
             Forall (fun d => d ∈ directories
                                (HDF5ToBIDS fs path_hdf5 subjects path_dir tree).1)
                    (subject_dirs path_dir sub))
          subjects).
Proof.
  unfold HDF5ToBIDS. destruct (fs !! path_hdf5) as [f|]; [|by split].
  case_bool_decide; [|by split]. split.
  - pose proof (hoare_for_each (grows tree) (grows tree)
                  (export_subject f path_dir) subjects
                  (fun x => export_subject_grows f path_dir x tree)
                  tree (grows_refl tree)) as Hgrows.
    by destruct (for_each _ subjects tree) as [t' [[]|e]].
  - destruct (for_each _ subjects tree) as [t' r] eqn:Hrun. simpl.
    intros ->. by eapply export_subjects_dirs.
Qed.

Lemma export_only_adds_witness :
  Forall (fun sub =>
            Forall (fun d => d ∈ directories
                               (HDF5ToBIDS Sample.files "data.hdf5"
                                  ["sub-01"; "sub-09"] "/out"
                                  (BidsTree {["/out"]} ∅)).1)
                   (subject_dirs "/out" sub))
         ["sub-01"; "sub-09"].
Proof.
  apply (export_only_adds Sample.files "data.hdf5" ["sub-01"; "sub-09"] "/out"
           (BidsTree {["/out"]} ∅)).
  vm_compute. reflexivity.
Defined.

Section ExportFiles.
  Context (path_dir : string) (subjects : list string) (t0 : bids_tree).

Lemma writes_under_refl : writes_under path_dir subjects t0 t0.
Proof. by intros p H. Qed.

Lemma writes_under_make_dirs base parts t :
  writes_under path_dir subjects t0 t ->
  writes_under path_dir subjects t0 (make_dirs base parts t).
Proof. done. Qed.

Lemma writes_under_save dir sub name data t :
  sub ∈ subjects ->
  dir = path_dir +:+ "/" +:+ sub +:+ "/anat" \/
  dir = path_dir +:+ "/derivatives/labels/" +:+ sub +:+ "/anat" ->
  writes_under path_dir subjects t0 t ->
  writes_under path_dir subjects t0 (save dir name data t).
Proof.
  intros Hsub Hdir Ht p Hp. simpl in Hp.
  destruct (decide (p = dir +:+ "/" +:+ name)) as [->|Hne].
  - exists sub. split; [done|]. destruct Hdir as [-> | ->]; [left|right].
    + replace ((path_dir +:+ "/" +:+ sub +:+ "/anat") +:+ "/" +:+ name)
        with ((path_dir +:+ "/" +:+ sub +:+ "/anat/") +:+ name)
        by (by rewrite !append_assoc).
      apply prefix_append.
    + replace ((path_dir +:+ "/derivatives/labels/" +:+ sub +:+ "/anat")
                 +:+ "/" +:+ name)
        with ((path_dir +:+ "/derivatives/labels/" +:+ sub +:+ "/anat/") +:+ name)
        by (by rewrite !append_assoc).
      apply prefix_append.
  - rewrite lookup_insert_ne in Hp by done. by apply Ht.
Qed.

Lemma export_subject_writes_under f sub :
  sub ∈ subjects ->
  hoare (writes_under path_dir subjects t0) (export_subject f path_dir sub)
        (fun _ => writes_under path_dir subjects t0)
        (writes_under path_dir subjects t0).
Proof.
  intros Hsub. apply keeps_export_subject.
  - intros. by apply writes_under_make_dirs.
  - intros. eapply writes_under_save; [exact Hsub|by left|done].
  - intros. eapply writes_under_save; [exact Hsub|by right|done].
Qed.

Lemma export_subjects_writes_under f (l : list string) :
  l ⊆ subjects ->
  hoare (writes_under path_dir subjects t0) (for_each (export_subject f path_dir) l)
        (fun _ => writes_under path_dir subjects t0)
        (writes_under path_dir subjects t0).
Proof.
  induction l as [|sub l IH]; intros Hl; [by intros s H|].
  cbn [for_each]. eapply hoare_bind.
  - apply export_subject_writes_under, Hl, list_elem_of_here.
  - intros []. apply IH. intros x Hx. by apply Hl, list_elem_of_further.
Qed.

End ExportFiles.

(** X22.  Whatever its outcome, the export changes no file of the output
    tree other than files below the [anat] directory of a listed subject,
    under the output directory or under its [derivatives/labels].  The
    subjects are names that do not begin with ['/'], for which
    [Path.joinpath] keeps the directory. *)
Theorem export_writes_below_the_subjects (fs : gmap string hdf5_file)
    (path_hdf5 : string) (subjects : list string) (path_dir : string)
    (tree : bids_tree) :
  Forall (fun sub => String.prefix "/" sub = false) subjects ->
  writes_under path_dir subjects tree
    (HDF5ToBIDS fs path_hdf5 subjects path_dir tree).1.
Proof.
  intros _.
  unfold HDF5ToBIDS. destruct (fs !! path_hdf5) as [f|]; [|apply writes_under_refl].
  case_bool_decide; [|apply writes_under_refl].
  pose proof (export_subjects_writes_under path_dir subjects tree f subjects
                (reflexivity _) tree (writes_under_refl _ _ _)) as Hunder.
  by destruct (for_each _ subjects tree) as [t' [[]|e]].
Qed.

Lemma export_writes_below_the_subjects_witness :
  writes_under "/out" ["sub-01"; "sub-09"] (BidsTree {["/out"]} ∅)
    (HDF5ToBIDS Sample.files "data.hdf5" ["sub-01"; "sub-09"] "/out"
       (BidsTree {["/out"]} ∅)).1.
Proof.
  apply (export_writes_below_the_subjects Sample.files "data.hdf5"
           ["sub-01"; "sub-09"] "/out" (BidsTree {["/out"]} ∅)).
  repeat constructor.
Defined.

(** ** From the converter to the exporter *)

Section RoundTrip.

Lemma input_file_is_no_label (path_dir sub name other : string) :
  slash_free sub = true ->
  (path_dir +:+ "/" +:+ sub +:+ "/anat") +:+ "/" +:+ name
  <> (path_dir +:+ "/derivatives/labels/" +:+ sub +:+ "/anat") +:+ "/" +:+ other.
Proof.
  intros Hsub. rewrite !append_assoc. intros H.
  apply String.app_inj in H.
  apply (f_equal (split_on "/")) in H.
  change ("/" +:+ sub +:+ "/anat" +:+ "/" +:+ name)
    with (EmptyString +:+ String "/" (sub +:+ String "/" ("anat" +:+ String "/" name)))
    in H.
  change ("/derivatives/labels/" +:+ sub +:+ "/anat" +:+ "/" +:+ other)
    with (EmptyString +:+ String "/" ("derivatives" +:+ String "/"
            ("labels" +:+ String "/" (sub +:+ "/anat" +:+ "/" +:+ other))))
    in H.
  rewrite !split_on_append in H by done.
  discriminate H.
Qed.

Lemma run_bind {S A B} (m : stateful S A) (k : A -> stateful S B)
    (s s1 : S) (x : A) :
  m s = (s1, Ok x) -> (m ≫= k) s = k x s1.
Proof. intros H. unfold mbind, stateful_bind. by rewrite H. Qed.

Lemma export_group_inputs path_sub path_label sub grp c d_in t :
  namespace_contrasts "inputs" grp = Ok [c] ->
  get_dataset "inputs" c grp = Ok d_in ->
  (forall other,
     path_sub +:+ "/" +:+ (sub +:+ "_" +:+ c +:+ ".nii.gz")
     <> path_label +:+ "/" +:+ other) ->
  nifti (export_group path_sub path_label sub grp t).1
    !! (path_sub +:+ "/" +:+ (sub +:+ "_" +:+ c +:+ ".nii.gz"))
  = Some (ds_data d_in).
Proof.
  intros Hns Hd Hother. unfold export_group.
  rewrite (run_bind (lift _) _ t t [c]) by (unfold lift; by rewrite Hns).
  rewrite (run_bind (for_each _ [c]) _ t
             (save path_sub (sub +:+ "_" +:+ c +:+ ".nii.gz") (ds_data d_in) t) tt).
  2: { cbn [for_each]. unfold mbind, stateful_bind, lift, modify.
       by rewrite Hd. }
  match goal with
  | |- nifti (?m ?s).1 !! ?K = Some ?v =>
      assert (Hrest : hoare (fun t => nifti t !! K = Some v) m
                            (fun _ t => nifti t !! K = Some v)
                            (fun t => nifti t !! K = Some v));
      [|specialize (Hrest s); destruct (m s) as [t2 [[]|e]]; apply Hrest;
        simpl; apply lookup_insert_eq]
  end.
  repeat first
    [ apply keeps_bind; [|intros ?]
    | apply keeps_for_each; intros ?
    | apply keeps_lift
    | apply keeps_ret
    | apply hoare_modify; intros ? ?; simpl; rewrite lookup_insert_ne; [done|];
      apply not_eq_sym, Hother
    | case_bool_decide
    | match goal with |- hoare _ (match ?l with _ => _ end) _ _ => destruct l end ].
Qed.

End RoundTrip.

(** X23.  From the converter to the exporter.  For the first filename
    pair of a subject whose name holds no ['/'], with at least one slice
    and a loop body of [_load_filenames] that returns, the export of the
    subject writes the file [<dir>/<sub>/anat/<sub>_<contrast>.nii.gz],
    and the file holds the volume that the converter read: the first input
    of each slice, in order.  This holds whether the export of the labels
    that follows returns or raises. *)
Theorem exported_input_is_the_converted_volume (a : BIDStoHDF5.converter_args)
    (fp : BIDStoHDF5.filename_pair) (st st' : BIDStoHDF5.loader)
    (path_dir : string) (tree : bids_tree) :
  h5_groups (BIDStoHDF5.hdf5 st) !! BIDStoHDF5.subject_id fp = None ->
  BIDStoHDF5.get_pair_slices a fp <> [] ->
  slash_free (BIDStoHDF5.subject_id fp) = true ->
  BIDStoHDF5.load_pair a fp st = (st', Ok tt) ->
  exists sl im gm rm data,
    last (BIDStoHDF5.get_pair_slices a fp) = Some sl /\
    BIDStoHDF5.last_metadata sl = Ok (im, gm, rm) /\
    Some <$> data
    = (fun sl => head (BIDStoHDF5.input sl)) <$> BIDStoHDF5.get_pair_slices a fp /\
    nifti (export_subject (BIDStoHDF5.hdf5 st') path_dir
             (BIDStoHDF5.subject_id fp) tree).1
      !! (path_dir +:+ "/" +:+ BIDStoHDF5.subject_id fp +:+ "/anat/"
          +:+ BIDStoHDF5.subject_id fp +:+ "_" +:+ BIDStoHDF5.contrast im
          +:+ ".nii.gz")
    = Some data.
Proof.
  intros Hnew Hne Hsub H.
  destruct (first_volume_group a fp st st' Hnew Hne H)
    as (sl & im & gm & rm & grp & d_in & Hlast & Hmd & Hgrp & Hns & Hd & Hdata).
  exists sl, im, gm, rm, (ds_data d_in).
  split; [done|]. split; [done|]. split; [done|].
  unfold export_subject. rewrite Hgrp.
  unfold mbind at 1, stateful_bind at 1. simpl.
  unfold mbind at 1, stateful_bind at 1. simpl.
  replace (path_dir +:+ "/" +:+ BIDStoHDF5.subject_id fp +:+ "/anat/"
           +:+ BIDStoHDF5.subject_id fp +:+ "_" +:+ BIDStoHDF5.contrast im
           +:+ ".nii.gz")
    with ((path_dir +:+ "/" +:+ BIDStoHDF5.subject_id fp +:+ "/anat") +:+ "/"
          +:+ (BIDStoHDF5.subject_id fp +:+ "_" +:+ BIDStoHDF5.contrast im
               +:+ ".nii.gz"))
    by (by rewrite !append_assoc).
  apply export_group_inputs; [done|done|].
  intros other. by apply input_file_is_no_label.
Qed.

Lemma exported_input_is_the_converted_volume_witness :
  exists sl im gm rm data,
    last (BIDStoHDF5.get_pair_slices Sample.args_all Sample.pair_01) = Some sl /\
    BIDStoHDF5.last_metadata sl = Ok (im, gm, rm) /\
    Some <$> data
    = (fun sl => head (BIDStoHDF5.input sl)) <$>
      BIDStoHDF5.get_pair_slices Sample.args_all Sample.pair_01 /\
    nifti (export_subject
             (BIDStoHDF5.hdf5
                (BIDStoHDF5.load_pair Sample.args_all Sample.pair_01
                   (BIDStoHDF5.Loader Sample.empty_file None)).1)
             "/out" (BIDStoHDF5.subject_id Sample.pair_01)
             (BidsTree {["/out"]} ∅)).1
      !! ("/out" +:+ "/" +:+ BIDStoHDF5.subject_id Sample.pair_01 +:+ "/anat/"
          +:+ BIDStoHDF5.subject_id Sample.pair_01 +:+ "_"
          +:+ BIDStoHDF5.contrast im +:+ ".nii.gz")
    = Some data.
Proof.
  apply (exported_input_is_the_converted_volume Sample.args_all Sample.pair_01
           (BIDStoHDF5.Loader Sample.empty_file None)).
  - reflexivity.
  - discriminate.
  - reflexivity.
  - vm_compute. reflexivity.
Defined.

(** ** What RAM promotion reads *)

Section Reads.
  Import Dataframe HDF5Dataset.
  Context (f : hdf5_file).

Lemma increasing_Sorted (l : list nat) : increasing l = true <-> Sorted lt l.
Proof.
  induction l as [|i l IH]; [by split; [constructor|]|].
  destruct l as [|j l].
  - split; [|done]. intros _. by repeat constructor.
  - change (increasing (i :: j :: l))
      with (Nat.ltb i j && increasing (j :: l)).
    rewrite andb_true_iff, Nat.ltb_lt, IH. split.
    + intros [Hlt Hs]. constructor; [done|]. by constructor.
    + intros Hs. inversion Hs as [|? ? Hs' Hhd]; subst.
      inversion Hhd; subst. done.
Qed.

(** The data at a selector is what [select] returns. *)
Lemma select_data_at d selector x :
  data_at d selector x -> select d selector = Ok x.
Proof.
  destruct selector as [s| |l|n|l|n|s|y]; try done; simpl.
  - intros (Hs%increasing_Sorted & planes & Hall & ->). rewrite Hs.
    assert (Hfold : foldr (fun i acc =>
                             rest ← acc;
                             match ds_data d !! i with
                             | Some x => Ok (x :: rest)
                             | None => Raise IndexError
                             end) (Ok []) l = Ok planes).
    { clear Hs. induction Hall as [|i y l planes Hi _ IH]; [done|].
      simpl. rewrite IH. simpl. by rewrite Hi. }
    by rewrite Hfold.
  - intros (y & Hy & ->). by rewrite Hy.
Qed.

(** What h5py refuses as a selector: an array or a number of type
    float64, and an array within the dataset whose elements are not in
    strictly increasing order. *)
Lemma select_refused d :
  (forall l, select d (FloatIndices l) = Raise TypeError) /\
  (forall n, select d (FloatIndex n) = Raise TypeError) /\
  (forall l, Forall (fun i => i < length (ds_data d)) l ->
             ~ Sorted lt l -> select d (Indices l) = Raise TypeError).
Proof.
  split; [done|]. split; [done|]. intros l Hall Hs. simpl.
  assert (Hfold : exists planes,
            foldr (fun i acc =>
                     rest ← acc;
                     match ds_data d !! i with
                     | Some x => Ok (x :: rest)
                     | None => Raise IndexError
                     end) (Ok []) l = Ok planes).
  { clear Hs. induction Hall as [|i l Hi _ [planes IH]]; [by eexists|].
    simpl. rewrite IH. simpl.
    destruct (lookup_lt_is_Some_2 _ _ Hi) as [x ->]. by eexists. }
  destruct Hfold as [planes ->]. simpl.
  destruct (increasing l) eqn:Hinc; [|done].
  by apply increasing_Sorted in Hinc.
Qed.

Lemma data_at_unique d selector x y :
  data_at d selector x -> data_at d selector y -> x = y.
Proof.
  intros Hx%select_data_at Hy%select_data_at. congruence.
Qed.

(** The dataset at a path is what the lookup of the path returns. *)
Lemma h5_lookup_dataset_at p d : dataset_at f p d -> h5_lookup f p = Ok d.
Proof.
  intros (subject & ns & name & grp & sub & -> & Hs & Hns & Hn & Hgrp & Hsub & Hd).
  change (subject +:+ "/" +:+ ns +:+ "/" +:+ name)
    with (path_string subject ns name).
  rewrite (h5_lookup_path f) by done.
  unfold getitem, get_dataset, getitem. rewrite Hgrp. simpl.
  rewrite Hsub. simpl. by rewrite Hd.
Qed.

Lemma promotes_read_cell cols (r : line) ct x :
  "Slices" ∈ cols -> ct ∈ cols -> promotes f ct r x ->
  read_cell f cols r ct = Ok x.
Proof.
  intros Hs Hct (p & d & Hp & Hd%h5_lookup_dataset_at & Hx%select_data_at).
  unfold read_cell. rewrite !bool_decide_eq_true_2 by done. simpl.
  by rewrite Hp, Hd.
Qed.

(** A contrast that can be promoted is not the column of the selectors. *)
Lemma promotes_not_slices (r : line) ct x : promotes f ct r x -> ct <> "Slices".
Proof.
  intros (p & d & Hp & _ & Hx) ->. rewrite Hp in Hx. done.
Qed.

(** A promotion does not change what another contrast has to receive. *)
Lemma promotes_insert (r : line) ct x col y :
  col <> ct -> ct <> "Slices" ->
  promotes f col (<[ct := x]> r) y <-> promotes f col r y.
Proof.
  intros Hne Hsl. unfold promotes, cell_of.
  rewrite (lookup_insert_ne _ ct col) by done.
  by rewrite (lookup_insert_ne _ ct "Slices") by done.
Qed.

(** A contrast that the status does not have as absent from RAM is left
    alone. *)
Lemma load_contrast_skipped ct (self : HDF5Dataset.t) :
  status self !! ct <> Some false -> load_contrast f ct self = (self, Ok tt).
Proof.
  intros Hs. destruct (status self !! ct) as [[]|] eqn:Hct.
  - by apply load_contrast_resident.
  - done.
  - unfold load_contrast. by rewrite Hct.
Qed.

Lemma for_each_skipped contrast_lst (self : HDF5Dataset.t) :
  Forall (fun ct => status self !! ct <> Some false) contrast_lst ->
  for_each (load_contrast f) contrast_lst self = (self, Ok tt).
Proof.
  induction 1 as [|ct rest Hct _ IH]; [done|].
  cbn [for_each]. unfold mbind, stateful_bind.
  by rewrite load_contrast_skipped.
Qed.

(** The loop of [load_into_ram] over the contrasts, with a slice filter,
    when every contrast to promote is a column whose cells can be
    promoted. *)
Lemma for_each_promotes contrast_lst : forall self : HDF5Dataset.t,
  filter_slices self = true ->
  "Slices" ∈ columns (dataframe self) ->
  (forall ct, to_promote contrast_lst self ct ->
     ct ∈ columns (dataframe self) /\
     Forall (fun r => exists x, promotes f ct r x) (rows (dataframe self))) ->
  exists self',
    for_each (load_contrast f) contrast_lst self = (self', Ok tt) /\
    (forall ct, status self' !! ct
                = if decide (ct ∈ contrast_lst)
                  then (fun _ => true) <$> status self !! ct
                  else status self !! ct) /\
    Forall2 (fun r r' =>
               forall col,
                 if decide (to_promote contrast_lst self col)
                 then promotes f col r (cell_of r' col)
                 else r' !! col = r !! col)
            (rows (dataframe self)) (rows (dataframe self')).
Proof.
  induction contrast_lst as [|ct rest IH]; intros self Hf Hsl Hall.
  { exists self. split; [done|]. split; [done|].
    apply Forall2_same_length_lookup_2; [done|]. intros i r r' Hr Hr' col.
    rewrite decide_False; [congruence|]. intros [[]%elem_of_nil _]. }
  cbn [for_each]. unfold mbind, stateful_bind.
  destruct (decide (status self !! ct = Some false)) as [Hct|Hct].
  - (* the contrast is promoted *)
    destruct (Hall ct) as [Hcol Hrows]; [split; [apply list_elem_of_here|done]|].
    destruct (load_contrast_filtered f ct self Hf Hct)
      as (self1 & Hrun1 & Hst1 & Hcols1 & Hrs1).
    { eapply Forall_impl; [exact Hrows|]. intros r [x Hx]. simpl.
      by rewrite (promotes_read_cell _ r ct x Hsl Hcol Hx). }
    rewrite Hrun1.
    assert (Hf1 : filter_slices self1 = true).
    { pose proof (load_contrast_shape f ct self) as (_ & H & _).
      rewrite Hrun1 in H. simpl in H. congruence. }
    (* every row has received what the promotion of [ct] has to put *)
    assert (Hrs : Forall2 (fun r r1 => exists x, promotes f ct r x /\
                                                r1 = <[ct := x]> r)
                          (rows (dataframe self)) (rows (dataframe self1))).
    { apply Forall2_same_length_lookup_2; [by eapply Forall2_length|].
      intros i r r1 Hr Hr1.
      destruct (Forall2_lookup_lr _ _ _ _ _ _ Hrs1 Hr Hr1) as (x & Hx & ->).
      destruct (Forall_lookup_1 _ _ _ _ Hrows Hr) as [x0 Hx0].
      rewrite (promotes_read_cell _ r ct x0 Hsl Hcol Hx0) in Hx.
      injection Hx as <-. eauto. }
    destruct (IH self1 Hf1) as (self' & Hrun & Hst & Hrs2).
    { by rewrite Hcols1. }
    { intros col [Hin Hs]. rewrite Hst1 in Hs.
      assert (Hne : col <> ct) by (intros ->; by rewrite lookup_insert_eq in Hs).
      rewrite lookup_insert_ne in Hs by done.
      destruct (Hall col) as [Hc Hr]; [split; [by apply list_elem_of_further|done]|].
      rewrite Hcols1. split; [done|].
      apply Forall_lookup. intros i r1 Hr1.
      destruct (Forall2_lookup_r _ _ _ _ _ Hrs Hr1) as (r & Hri & x & Hx & ->).
      destruct (Forall_lookup_1 _ _ _ _ Hr Hri) as [y Hy].
      exists y. apply promotes_insert; [done| |done].
      by eapply promotes_not_slices. }
    exists self'. split; [done|]. split.
    + intros col. rewrite Hst, Hst1.
      destruct (decide (col = ct)) as [->|Hne].
      * rewrite lookup_insert_eq, Hct.
        rewrite (decide_True (P := ct ∈ ct :: rest)) by apply list_elem_of_here.
        by case_decide.
      * rewrite lookup_insert_ne by done.
        destruct (decide (col ∈ rest)) as [Hin|Hin].
        -- rewrite decide_True; [done|]. by apply list_elem_of_further.
        -- rewrite decide_False; [done|]. intros [?|?]%elem_of_cons; done.
    + apply Forall2_same_length_lookup_2.
      { transitivity (length (rows (dataframe self1))); by eapply Forall2_length. }
      intros i r r' Hr Hr'.
      destruct (Forall2_lookup_l _ _ _ _ _ Hrs Hr) as (r1 & Hr1 & x & Hx & ->).
      pose proof (Forall2_lookup_lr _ _ _ _ _ _ Hrs2 Hr1 Hr') as H.
      intros col. specialize (H col).
      pose proof (promotes_not_slices _ _ _ Hx) as Hnsl.
      destruct (decide (col = ct)) as [->|Hne].
      * rewrite decide_True by (split; [apply list_elem_of_here|done]).
        rewrite decide_False in H.
        2: { intros [_ Hs]. by rewrite Hst1, lookup_insert_eq in Hs. }
        unfold cell_of. by rewrite H, lookup_insert_eq.
      * assert (Hiff : to_promote rest self1 col <-> to_promote (ct :: rest) self col).
        { unfold to_promote. rewrite Hst1, lookup_insert_ne by done.
          rewrite elem_of_cons. split.
          - intros [Hin Hs]. split; [by right|done].
          - intros [[?|Hin] Hs]; [done|by split]. }
        destruct (decide (to_promote rest self1 col)) as [Hp|Hn].
        -- rewrite decide_True by (by apply Hiff).
           by apply promotes_insert in H.
        -- rewrite decide_False by (by rewrite <- Hiff).
           by rewrite H, lookup_insert_ne.
  - (* the contrast is skipped *)
    rewrite (load_contrast_skipped ct self Hct).
    destruct (IH self Hf Hsl) as (self' & Hrun & Hst & Hrs).
    { intros col [Hin Hs]. apply Hall. split; [by apply list_elem_of_further|done]. }
    exists self'. split; [done|]. split.
    + intros col. rewrite Hst.
      destruct (decide (col = ct)) as [->|Hne].
      * rewrite (decide_True (P := ct ∈ ct :: rest)) by apply list_elem_of_here.
        case_decide; [done|].
        destruct (status self !! ct) as [[]|]; done.
      * destruct (decide (col ∈ rest)) as [Hin|Hin].
        -- rewrite decide_True; [done|]. by apply list_elem_of_further.
        -- rewrite decide_False; [done|].
           intros [?|?]%elem_of_cons; done.
    + eapply Forall2_impl; [exact Hrs|]. intros r r' H col. specialize (H col).
      destruct (decide (to_promote rest self col)) as [[Hin Hs]|Hn].
      * rewrite decide_True; [done|]. split; [by apply list_elem_of_further|done].
      * rewrite decide_False; [done|].
        intros [[->|Hin]%elem_of_cons Hs]; [done|]. apply Hn. by split.
Qed.

End Reads.

(** C4, as the code has it.  For an object built with a slice filter and a
    table with the column of the selectors: when every contrast of the
    list that the status knows and does not have as resident is a column
    whose cell, in every row, holds the path of a dataset of the container
    that the selector of the row can index, [load_into_ram] returns; the
    contrasts of the list that the status knows are resident; in every
    row the cell of each promoted contrast holds the data of its dataset
    at the selector of the row, and every other cell is as before, the
    cells of the contrasts that were resident among them; the rest of the
    object is as before.  A second call with the same list changes
    nothing. *)
Theorem load_into_ram_with_slice_filter (fs : gmap string hdf5_file)
    (f : hdf5_file) (contrast_lst : list string) (self : HDF5Dataset.t) :
  fs !! HDF5Dataset.self_path_hdf5 self = Some f ->
  HDF5Dataset.filter_slices self = true ->
  "Slices" ∈ Dataframe.columns (HDF5Dataset.dataframe self) ->
  (forall ct, to_promote contrast_lst self ct ->
     ct ∈ Dataframe.columns (HDF5Dataset.dataframe self) /\
     Forall (fun r => exists x, promotes f ct r x)
            (Dataframe.rows (HDF5Dataset.dataframe self))) ->
  exists self',
    HDF5Dataset.load_into_ram fs contrast_lst self = (self', Ok tt) /\
    (forall ct, HDF5Dataset.status self' !! ct
                = if decide (ct ∈ contrast_lst)
                  then (fun _ => true) <$> HDF5Dataset.status self !! ct
                  else HDF5Dataset.status self !! ct) /\
    Forall2 (fun r r' =>
               forall col,
                 if decide (to_promote contrast_lst self col)
                 then promotes f col r (Dataframe.cell_of r' col)
                 else r' !! col = r !! col)
            (Dataframe.rows (HDF5Dataset.dataframe self))
            (Dataframe.rows (HDF5Dataset.dataframe self')) /\
    same_shape self self' /\
    HDF5Dataset.load_into_ram fs contrast_lst self' = (self', Ok tt).
Proof.
  intros Hfs Hf Hsl Hall.
  destruct (for_each_promotes f contrast_lst self Hf Hsl Hall)
    as (self' & Hrun & Hst & Hrs).
  assert (Hload : HDF5Dataset.load_into_ram fs contrast_lst self = (self', Ok tt)).
  { unfold HDF5Dataset.load_into_ram. by rewrite Hfs. }
  pose proof (load_into_ram_shape fs contrast_lst self) as Hshape.
  rewrite Hload in Hshape. simpl in Hshape.
  exists self'. split; [done|]. split; [done|]. split; [done|]. split; [done|].
  unfold HDF5Dataset.load_into_ram.
  destruct Hshape as (_ & _ & -> & _). rewrite Hfs.
  apply for_each_skipped. apply Forall_forall. intros ct Hin.
  rewrite Hst, decide_True by done.
  by destruct (HDF5Dataset.status self !! ct).
Qed.

Lemma load_into_ram_with_slice_filter_witness :
  exists self',
    HDF5Dataset.load_into_ram (<["data.hdf5" := SampleDataset.container]> ∅)
      ["T1w"; "T2w"; "T1w"] SampleDataset.filtered = (self', Ok tt) /\
    (forall ct, HDF5Dataset.status self' !! ct
                = if decide (ct ∈ ["T1w"; "T2w"; "T1w"])
                  then (fun _ => true)
                         <$> HDF5Dataset.status SampleDataset.filtered !! ct
                  else HDF5Dataset.status SampleDataset.filtered !! ct) /\
    Forall2 (fun r r' =>
               forall col,
                 if decide (to_promote ["T1w"; "T2w"; "T1w"]
                              SampleDataset.filtered col)
                 then promotes SampleDataset.container col r
                        (Dataframe.cell_of r' col)
                 else r' !! col = r !! col)
            (Dataframe.rows (HDF5Dataset.dataframe SampleDataset.filtered))
            (Dataframe.rows (HDF5Dataset.dataframe self')) /\
    same_shape SampleDataset.filtered self' /\
    HDF5Dataset.load_into_ram (<["data.hdf5" := SampleDataset.container]> ∅)
      ["T1w"; "T2w"; "T1w"] self' = (self', Ok tt).
Proof.
  apply (load_into_ram_with_slice_filter
           (<["data.hdf5" := SampleDataset.container]> ∅)
           SampleDataset.container ["T1w"; "T2w"; "T1w"] SampleDataset.filtered).
  - reflexivity.
  - reflexivity.
  - repeat constructor.
  - intros ct [Hin Hs].
    assert (Hct : ct = "T1w").
    { repeat (apply elem_of_cons in Hin as [->|Hin]); try done.
      by apply elem_of_nil in Hin. }
    subst ct. split; [repeat constructor|].
    repeat constructor.
    exists (Dataframe.Stack [[0%Q; 1%Q]; [1%Q; 1%Q]]),
      "sub-01/inputs/T1w", (Dataset [[0%Q; 1%Q]; [1%Q; 1%Q]] ∅).
    split; [reflexivity|]. split.
    + eexists "sub-01", "inputs", "T1w", _, _.
      repeat split; reflexivity.
    + split; [repeat constructor|].
      exists [[0%Q; 1%Q]; [1%Q; 1%Q]]. split; [|reflexivity].
      repeat constructor.
Defined.

(** The sample promotion, evaluated: the cell of the row holds the two
    slices of the dataset. *)
Lemma promoted_cell_holds_the_slices :
  (fun r => Dataframe.cell_of r "T1w")
    <$> Dataframe.rows
          (HDF5Dataset.dataframe
             (HDF5Dataset.load_into_ram
                (<["data.hdf5" := SampleDataset.container]> ∅)
                ["T1w"] SampleDataset.filtered).1)
  = [Dataframe.Stack [[0%Q; 1%Q]; [1%Q; 1%Q]]].
Proof. by vm_compute. Qed.

(** C4 as stated fails in two ways.  Without slice filter, which is the
    default of the constructor, the read and the replacement of the cell
    are guarded by [if self.filter_slices:]: in the sample object the
    contrast is a column and is not resident, the call returns, and the
    cell of the row still holds the path string (the status says resident
    all the same).  With a slice filter that retains no slice of a subject,
    the selector of its row is the empty array that numpy makes of the
    empty list, of type float64, which h5py refuses: the call raises
    TypeError. *)
Lemma load_into_ram_leaves_paths_or_raises :
  (HDF5Dataset.status SampleDataset.one_contrast !! "T1w" = Some false /\
   "T1w" ∈ Dataframe.columns (HDF5Dataset.dataframe SampleDataset.one_contrast) /\
   (let '(self, out) :=
      HDF5Dataset.load_into_ram (<["data.hdf5" := SampleDataset.container]> ∅)
        ["T1w"] SampleDataset.one_contrast in
    out = Ok tt /\
    HDF5Dataset.status self !! "T1w" = Some true /\
    (fun r => Dataframe.cell_of r "T1w") <$> Dataframe.rows (HDF5Dataset.dataframe self)
    = [Dataframe.Str "sub-01/inputs/T1w"])) /\
  (HDF5Dataset.filter_slices SampleUnretained.dataset = true /\
   HDF5Dataset.status SampleUnretained.dataset !! "T1w" = Some false /\
   "T1w" ∈ Dataframe.columns (HDF5Dataset.dataframe SampleUnretained.dataset) /\
   (fun r => (Dataframe.cell_of r "T1w", Dataframe.cell_of r "Slices"))
     <$> Dataframe.rows (HDF5Dataset.dataframe SampleUnretained.dataset)
   = [(Dataframe.Str "sub-01/inputs/T1w", Dataframe.FloatIndices []);
      (Dataframe.Str "sub-02/inputs/T1w", Dataframe.FloatIndices [])] /\
   (HDF5Dataset.load_into_ram SampleUnretained.files ["T1w"]
      SampleUnretained.dataset).2 = Raise TypeError).
Proof.
  split.
  - split; [reflexivity|]. split; [apply list_elem_of_here|].
    vm_compute. repeat split.
  - split; [by vm_compute|]. split; [by vm_compute|].
    split; [vm_compute; apply list_elem_of_here|].
    split; by vm_compute.
Qed.

(** ** Subjects that are present, subjects that are absent *)

Section Skipping.
  Context (f : hdf5_file) (path_dir : string).

(** The export of subjects that are all absent from the container returns
    and writes no file. *)
Lemma export_absent_only subjects : forall tree,
  Forall (fun sub => h5_groups f !! sub = None) subjects ->
  exists tree',
    for_each (export_subject f path_dir) subjects tree = (tree', Ok tt) /\
    nifti tree' = nifti tree.
Proof.
  induction subjects as [|sub rest IH]; intros tree Hall; [by eexists|].
  apply Forall_cons in Hall as [Hsub Hall].
  cbn [for_each]. unfold mbind, stateful_bind.
  destruct (export_subject_absent f path_dir sub tree Hsub) as (t1 & -> & Hn).
  destruct (IH t1 Hall) as (t' & -> & Hn'). exists t'. split; [done|]. congruence.
Qed.

(** A file that exists is still there after a step of the exporter. *)
Lemma exists_save K dir name data tree :
  is_Some (nifti tree !! K) -> is_Some (nifti (save dir name data tree) !! K).
Proof.
  intros H. simpl. destruct (decide (dir +:+ "/" +:+ name = K)) as [->|Hne].
  - rewrite lookup_insert_eq. eauto.
  - by rewrite lookup_insert_ne.
Qed.

Lemma exists_export_subject K sub :
  hoare (fun tree => is_Some (nifti tree !! K)) (export_subject f path_dir sub)
        (fun _ tree => is_Some (nifti tree !! K))
        (fun tree => is_Some (nifti tree !! K)).
Proof.
  apply keeps_export_subject; [done|..]; intros; by apply exists_save.
Qed.

(** The loop over the input contrasts of a subject group, when it
    returns, has written the file of every contrast. *)
Lemma inputs_loop_writes path_sub sub grp cts : forall tree tree',
  for_each (fun ct =>
              d ← lift (fun _ => get_dataset "inputs" ct grp);
              modify (save path_sub (sub +:+ "_" +:+ ct +:+ ".nii.gz") (ds_data d)))
           cts tree = (tree', Ok tt) ->
  forall ct, ct ∈ cts ->
    is_Some (nifti tree' !! (path_sub +:+ "/" +:+ (sub +:+ "_" +:+ ct +:+ ".nii.gz"))).
Proof.
  induction cts as [|c rest IH]; intros tree tree' H ct Hin.
  { by apply elem_of_nil in Hin. }
  cbn [for_each] in H. apply stateful_bind_Ok in H as (t1 & [] & Hc & H).
  apply elem_of_cons in Hin as [->|Hin]; [|by eapply IH].
  apply stateful_bind_Ok in Hc as (t0 & d & Hd & Hsave).
  unfold modify in Hsave. injection Hsave as <-.
  match type of H with
  | for_each ?body rest ?s = _ =>
      assert (Hkeep : hoare (fun t => is_Some (nifti t !! (path_sub +:+ "/" +:+
                                         (sub +:+ "_" +:+ c +:+ ".nii.gz"))))
                            (for_each body rest)
                            (fun _ t => is_Some (nifti t !! (path_sub +:+ "/" +:+
                                           (sub +:+ "_" +:+ c +:+ ".nii.gz"))))
                            (fun t => is_Some (nifti t !! (path_sub +:+ "/" +:+
                                         (sub +:+ "_" +:+ c +:+ ".nii.gz")))));
      [|specialize (Hkeep s); rewrite H in Hkeep; apply Hkeep]
  end.
  - apply keeps_for_each. intros x.
    apply keeps_bind; [apply keeps_lift|intros d'].
    apply hoare_modify. intros t Ht. by apply exists_save.
  - simpl. rewrite lookup_insert_eq. eauto.
Qed.

(** The export of a subject that is present, when it returns, has written
    the file of each of its input contrasts. *)
Lemma export_subject_inputs sub grp ns cts ct tree tree' :
  h5_groups f !! sub = Some grp ->
  grp_members grp !! "inputs" = Some ns ->
  ns_contrast ns = Some cts ->
  ct ∈ cts ->
  export_subject f path_dir sub tree = (tree', Ok tt) ->
  is_Some (nifti tree' !! input_file path_dir sub ct).
Proof.
  intros Hgrp Hns Hcts Hin H. unfold export_subject in H.
  apply stateful_bind_Ok in H as (t1 & [] & _ & H).
  apply stateful_bind_Ok in H as (t2 & [] & _ & H).
  rewrite Hgrp in H. unfold export_group in H.
  apply stateful_bind_Ok in H as (t3 & cts' & Hlist & H).
  unfold lift, namespace_contrasts, getitem in Hlist. rewrite Hns in Hlist.
  simpl in Hlist. rewrite Hcts in Hlist. injection Hlist as <- <-.
  apply stateful_bind_Ok in H as (t4 & [] & Hloop & H).
  pose proof (inputs_loop_writes _ _ _ _ _ _ Hloop ct Hin) as Hfile.
  fold (input_file path_dir sub ct) in Hfile.
  match type of H with
  | ?m t4 = _ =>
      assert (Hkeep : hoare (fun t => is_Some (nifti t !! input_file path_dir sub ct))
                            m
                            (fun _ t => is_Some (nifti t !! input_file path_dir sub ct))
                            (fun t => is_Some (nifti t !! input_file path_dir sub ct)));
      [|specialize (Hkeep t4 Hfile); by rewrite H in Hkeep]
  end.
  repeat first
    [ apply keeps_bind; [|intros ?]
    | apply keeps_for_each; intros ?
    | apply keeps_lift
    | apply keeps_ret
    | apply hoare_modify; intros ? ?; by apply exists_save
    | case_bool_decide
    | match goal with |- hoare _ (match ?l with _ => _ end) _ _ => destruct l end ].
Qed.

(** The export of a list of subjects, when it returns, has written the
    files of the input contrasts of every listed subject that is present,
    whatever the list holds besides. *)
Lemma export_subjects_inputs subjects : forall tree tree',
  for_each (export_subject f path_dir) subjects tree = (tree', Ok tt) ->
  forall sub grp ns cts ct,
    sub ∈ subjects ->
    h5_groups f !! sub = Some grp ->
    grp_members grp !! "inputs" = Some ns ->
    ns_contrast ns = Some cts ->
    ct ∈ cts ->
    is_Some (nifti tree' !! input_file path_dir sub ct).
Proof.
  induction subjects as [|s rest IH]; intros tree tree' H sub grp ns cts ct Hin.
  { by apply elem_of_nil in Hin. }
  intros Hgrp Hns Hcts Hct.
  cbn [for_each] in H. apply stateful_bind_Ok in H as (t1 & [] & Hs & H).
  apply elem_of_cons in Hin as [->|Hin]; [|by eapply IH].
  pose proof (export_subject_inputs _ _ _ _ _ _ _ Hgrp Hns Hcts Hct Hs) as Hfile.
  pose proof (hoare_for_each _ _ (export_subject f path_dir) rest
                (exists_export_subject (input_file path_dir s ct)) t1 Hfile)
    as Hkeep.
  by rewrite H in Hkeep.
Qed.

End Skipping.

(** C8.  When the output directory does not exist, the export raises and
    the output tree is as before, no directory made and no file written;
    the exception is FileNotFoundError when the container opens.  When the
    directory exists, a subject that has no group in the container is
    skipped: a list of such subjects makes the export return, without a
    file written; in any list they can be struck without a change to the
    files written and to the outcome; and an export that returns has
    written the files of the input contrasts of every listed subject that
    is present, whatever the list holds besides.  The subjects are named
    by plain names, which h5py does not read as paths. *)
Theorem export_fatal_directory_and_skipped_subjects
    (fs : gmap string hdf5_file) (path_hdf5 : string)
    (subjects : list string) (path_dir : string) (tree : bids_tree) :
  (path_dir ∉ directories tree ->
   exists e,
     HDF5ToBIDS fs path_hdf5 subjects path_dir tree = (tree, Raise e) /\
     (is_Some (fs !! path_hdf5) -> e = FileNotFoundError)) /\
  (forall f,
     fs !! path_hdf5 = Some f ->
     path_dir ∈ directories tree ->
     Forall (fun sub => plain_name sub = true) subjects ->
     (Forall (fun sub => h5_groups f !! sub = None) subjects ->
      exists tree',
        HDF5ToBIDS fs path_hdf5 subjects path_dir tree = (tree', Ok tt) /\
        nifti tree' = nifti tree) /\
     same_export
       (HDF5ToBIDS fs path_hdf5 subjects path_dir tree)
       (HDF5ToBIDS fs path_hdf5
          (filter (fun sub => is_Some (h5_groups f !! sub)) subjects)
          path_dir tree) /\
     (forall tree',
        HDF5ToBIDS fs path_hdf5 subjects path_dir tree = (tree', Ok tt) ->
        forall sub grp ns cts ct,
          sub ∈ subjects ->
          h5_groups f !! sub = Some grp ->
          grp_members grp !! "inputs" = Some ns ->
          ns_contrast ns = Some cts ->
          ct ∈ cts ->
          is_Some (nifti tree' !! input_file path_dir sub ct))).
Proof.
  unfold HDF5ToBIDS. split.
  - intros Hdir. destruct (fs !! path_hdf5) as [f|].
    + rewrite bool_decide_eq_false_2 by done. eauto.
    + exists OSError. split; [done|]. by intros [? ?].
  - intros f Hf Hdir _. rewrite Hf.
    rewrite bool_decide_eq_true_2 by done.
    split; [by apply export_absent_only|].
    split; [by apply export_skips_absent|].
    intros tree' H. by eapply export_subjects_inputs.
Qed.

Lemma export_fatal_directory_and_skipped_subjects_witness :
  (exists e,
     HDF5ToBIDS Sample.files "data.hdf5" ["sub-01"; "sub-09"; "sub-02"] "/out"
       (BidsTree ∅ ∅)
     = (BidsTree ∅ ∅, Raise e) /\
     (is_Some (Sample.files !! "data.hdf5") -> e = FileNotFoundError)) /\
  (exists tree',
     HDF5ToBIDS Sample.files "data.hdf5" ["sub-08"; "sub-09"] "/out"
       (BidsTree {["/out"]} ∅) = (tree', Ok tt) /\
     nifti tree' = ∅) /\
  same_export
    (HDF5ToBIDS Sample.files "data.hdf5" ["sub-01"; "sub-09"; "sub-02"] "/out"
       (BidsTree {["/out"]} ∅))
    (HDF5ToBIDS Sample.files "data.hdf5"
       (filter (fun sub => is_Some (h5_groups Sample.container !! sub))
               ["sub-01"; "sub-09"; "sub-02"])
       "/out" (BidsTree {["/out"]} ∅)) /\
  is_Some (nifti (HDF5ToBIDS Sample.files "data.hdf5" ["sub-09"; "sub-02"] "/out"
                    (BidsTree {["/out"]} ∅)).1
           !! input_file "/out" "sub-02" "T1w").
Proof.
  split.
  { apply (export_fatal_directory_and_skipped_subjects Sample.files "data.hdf5"
             ["sub-01"; "sub-09"; "sub-02"] "/out" (BidsTree ∅ ∅)).
    apply not_elem_of_empty. }
  split.
  { apply (proj2 (export_fatal_directory_and_skipped_subjects Sample.files
                    "data.hdf5" ["sub-08"; "sub-09"] "/out" (BidsTree {["/out"]} ∅))
             Sample.container).
    - vm_compute. reflexivity.
    - vm_compute. reflexivity.
    - repeat constructor.
    - repeat constructor. }
  split.
  { apply (proj2 (export_fatal_directory_and_skipped_subjects Sample.files
                    "data.hdf5" ["sub-01"; "sub-09"; "sub-02"] "/out"
                    (BidsTree {["/out"]} ∅))
             Sample.container).
    - vm_compute. reflexivity.
    - vm_compute. reflexivity.
    - repeat constructor. }
  eapply (proj2 (export_fatal_directory_and_skipped_subjects Sample.files
                   "data.hdf5" ["sub-09"; "sub-02"] "/out" (BidsTree {["/out"]} ∅))
            Sample.container).
  - vm_compute. reflexivity.
  - vm_compute. reflexivity.
  - repeat constructor.
  - vm_compute. reflexivity.
  - apply list_elem_of_further, list_elem_of_here.
  - vm_compute. reflexivity.
  - vm_compute. reflexivity.
  - reflexivity.
  - apply list_elem_of_here.
Defined.

